(** * CloudStorageUploadService: the two-phase upload workflow

    A shallow embedding of [src/v2/services/cloud-storage/upload.ts]
    (flat-server) and the properties of its [start] / [finish] protocol.

    Layout:
    - [JS]: the fragment of JavaScript values the service computes with
      (string/null/undefined, numbers, [Number], [String], truthiness);
    - [path]: Node's POSIX [path.extname];
    - [date_fns]: [format] at the tokens used by the service;
    - the stores and collaborators the service talks to, as one [World];
    - the service methods, in a state-and-exception monad;
    - the theorems. *)

From Stdlib Require Import ZArith String Ascii List DecimalString DecimalN Lia.
From stdpp Require Import gmap strings list fin_maps.

Open Scope string_scope.
Open Scope Z_scope.

(* ===================================================================== *)
(** ** JavaScript values *)
(* ===================================================================== *)

Module JS.

(** What a Redis reply or a selected column can be: a string, [null]
    (Redis: no such field) or [undefined] (no such row). *)
Inductive value : Type :=
| VUndefined
| VNull
| VString (s : string).

(** Numbers.  The service only ever adds and compares byte counts; they
    are modelled as exact integers, which is what IEEE doubles are on
    the safe-integer range, together with [NaN].  Outside that range
    (sums that round, [String] in exponent notation) the model is not
    the program; the theorems that depend on the value of a number carry
    the range as a hypothesis ([isSafeInteger], [printed] and the
    predicates built on them). *)
Inductive number : Type :=
| NaN
| Num (z : Z).

Definition number_eq_dec (a b : number) : {a = b} + {a <> b}.
Proof. decide equality; apply Z.eq_dec. Defined.

(** [a + b], exact: the sum of doubles when both operands and the sum
    are safe integers. *)
Definition add (a b : number) : number :=
  match a, b with
  | Num x, Num y => Num (x + y)
  | _, _ => NaN
  end.

(** [a > b]: false as soon as one side is [NaN]. *)
Definition gt (a b : number) : bool :=
  match a, b with
  | Num x, Num y => y <? x
  | _, _ => false
  end.

(** [Number.isNaN] *)
Definition isNaN (a : number) : bool :=
  match a with NaN => true | Num _ => false end.

(** ToBoolean on the values above. *)
Definition truthy (v : value) : bool :=
  match v with
  | VString EmptyString => false
  | VString _ => true
  | VUndefined | VNull => false
  end.

(** ToBoolean on numbers: [NaN] and [0] are falsy. *)
Definition truthy_number (a : number) : bool :=
  match a with
  | NaN => false
  | Num z => negb (z =? 0)
  end.

(** [v || w] on values and [a || b] on numbers. *)
Definition or_value (v w : value) : value := if truthy v then v else w.
Definition or_number (a b : number) : number := if truthy_number a then a else b.

(** The string of a value that passed a truthiness test. *)
Definition as_string (v : value) : string :=
  match v with VString s => s | _ => "" end.

(** *** StringToNumber *)

(** The ASCII members of StrWhiteSpaceChar: TAB, LF, VT, FF, CR, SP. *)
Definition isWhiteSpace (c : ascii) : bool :=
  let n := N_of_ascii c in
  ((9 <=? n) && (n <=? 13))%N || (n =? 32)%N.

Fixpoint trimStart (s : string) : string :=
  match s with
  | EmptyString => EmptyString
  | String c s' => if isWhiteSpace c then trimStart s' else s
  end.

Fixpoint trimEnd (s : string) : string :=
  match s with
  | EmptyString => EmptyString
  | String c s' =>
      match trimEnd s' with
      | EmptyString => if isWhiteSpace c then EmptyString else String c EmptyString
      | r => String c r
      end
  end.

Definition trim (s : string) : string := trimEnd (trimStart s).

(** A non-empty run of decimal digits. *)
Definition decimalDigits (s : string) : number :=
  match s with
  | EmptyString => NaN
  | _ =>
      match NilEmpty.uint_of_string s with
      | Some d => Num (Z.of_N (N.of_uint d))
      | None => NaN
      end
  end.

Definition negate (a : number) : number :=
  match a with NaN => NaN | Num z => Num (- z) end.

(** [Number(s)] for a string: white space is trimmed, the empty string
    is [0], an optionally signed run of decimal digits is its value.
    Literals that do not denote an integer (a fraction, an exponent, a
    radix prefix, [Infinity]) lie outside the integer model of
    [number]; they are not produced by [String] on a safe integer,
    which is all the service writes in range, and are read here as
    [NaN], where [Number] gives their value: the theorems that read a
    stored number take it to be a printed numeral ([printed]). *)
Definition StringToNumber (s : string) : number :=
  match trim s with
  | EmptyString => Num 0
  | String "+"%char r => decimalDigits r
  | String "-"%char r => negate (decimalDigits r)
  | t => decimalDigits t
  end.

(** [Number(v)] *)
Definition Number (v : value) : number :=
  match v with
  | VUndefined => NaN
  | VNull => Num 0
  | VString s => StringToNumber s
  end.

(** *** Number::toString *)

Definition decimal (n : N) : string := NilEmpty.string_of_uint (N.to_uint n).

(** [String(a)] for [NaN] and the safe integers: the decimal numeral. *)
Definition toString (a : number) : string :=
  match a with
  | NaN => "NaN"
  | Num z => if z <? 0 then String "-"%char (decimal (Z.abs_N z)) else decimal (Z.to_N z)
  end.

End JS.

(* ===================================================================== *)
(** ** [path.extname] (POSIX) *)
(* ===================================================================== *)

Module path.

(** The mutable locals of Node's [posix.extname].  [end_] is the
    source's [end]. *)
Record locals : Type := {
  startDot : Z;
  startPart : Z;
  end_ : Z;
  matchedSlash : bool;
  preDotState : Z;
}.

Definition init : locals :=
  {| startDot := -1; startPart := 0; end_ := -1; matchedSlash := true; preDotState := 0 |}.

Definition CHAR_FORWARD_SLASH : ascii := "/"%char.
Definition CHAR_DOT : ascii := "."%char.

(** [for (let i = n - 1; i >= 0; --i)]: one iteration per unfolding,
    [break] returns the locals as they are. *)
Fixpoint scan_back (p : string) (n : nat) (st : locals) : locals :=
  match n with
  | O => st
  | S i =>
      match String.get i p with
      | None => st
      | Some code =>
          if Ascii.eqb code CHAR_FORWARD_SLASH then
            if negb (matchedSlash st) then
              {| startDot := startDot st; startPart := Z.of_nat i + 1; end_ := end_ st;
                 matchedSlash := matchedSlash st; preDotState := preDotState st |}
            else scan_back p i st
          else
            let st1 :=
              if end_ st =? -1 then
                {| startDot := startDot st; startPart := startPart st;
                   end_ := Z.of_nat i + 1;
                   matchedSlash := false; preDotState := preDotState st |}
              else st in
            let st2 :=
              if Ascii.eqb code CHAR_DOT then
                if startDot st1 =? -1 then
                  {| startDot := Z.of_nat i; startPart := startPart st1; end_ := end_ st1;
                     matchedSlash := matchedSlash st1; preDotState := preDotState st1 |}
                else if negb (preDotState st1 =? 1) then
                  {| startDot := startDot st1; startPart := startPart st1; end_ := end_ st1;
                     matchedSlash := matchedSlash st1; preDotState := 1 |}
                else st1
              else if negb (startDot st1 =? -1) then
                {| startDot := startDot st1; startPart := startPart st1; end_ := end_ st1;
                   matchedSlash := matchedSlash st1; preDotState := -1 |}
              else st1 in
            scan_back p i st2
      end
  end.

(** [path.slice(from, to)] for [0 <= from <= to]. *)
Definition slice (p : string) (from to : Z) : string :=
  substring (Z.to_nat from) (Z.to_nat (to - from)) p.

Definition extname (p : string) : string :=
  let st := scan_back p (String.length p) init in
  if (startDot st =? -1)
     || (end_ st =? -1)
     || (preDotState st =? 0)
     || ((preDotState st =? 1)
         && (startDot st =? end_ st - 1)
         && (startDot st =? startPart st + 1))
  then ""
  else slice p (startDot st) (end_ st).

End path.

(* ===================================================================== *)
(** ** [date-fns] [format] *)
(* ===================================================================== *)

Module date_fns.

Definition msPerMinute : Z := 60000.
Definition msPerDay : Z := 86400000.

(** Day number since 1970-01-01 of an instant in milliseconds. *)
Definition Day (t : Z) : Z := t / msPerDay.

(** Proleptic Gregorian year, month (1..12) and day of month (1..31)
    of a day number. *)
Definition civil (days : Z) : Z * Z * Z :=
  let z := days + 719468 in
  let era := z / 146097 in
  let doe := z - era * 146097 in
  let yoe := (doe - doe / 1460 + doe / 36524 - doe / 146096) / 365 in
  let doy := doe - (365 * yoe + yoe / 4 - yoe / 100) in
  let mp := (5 * doy + 2) / 153 in
  let d := doy - (153 * mp + 2) / 5 + 1 in
  let m := if mp <? 10 then mp + 3 else mp - 9 in
  let y := yoe + era * 400 + (if m <=? 2 then 1 else 0) in
  (y, m, d).

(** [addLeadingZeros(number, targetLength)] *)
Fixpoint zeros (n : nat) : string :=
  match n with O => "" | S k => String "0"%char (zeros k) end.

Definition addLeadingZeros (n : Z) (targetLength : nat) : string :=
  let digits := JS.decimal (Z.abs_N n) in
  let padded := zeros (targetLength - String.length digits) +:+ digits in
  if n <? 0 then String "-"%char padded else padded.

(** The format string cut into runs of one repeated character. *)
Fixpoint runs (s : string) : list (ascii * nat) :=
  match s with
  | EmptyString => []
  | String c s' =>
      match runs s' with
      | (c', k) :: rest => if Ascii.eqb c c' then (c, S k) :: rest else (c, 1%nat) :: (c', k) :: rest
      | [] => [(c, 1%nat)]
      end
  end.

Fixpoint repeat_char (c : ascii) (n : nat) : string :=
  match n with O => "" | S k => String c (repeat_char c k) end.

(** The formatters of the tokens [y], [M] and [d] at the widths the
    numeric forms have; every other run is copied. *)
Definition formatToken (ymd : Z * Z * Z) (tok : ascii * nat) : string :=
  let '(year, month, day) := ymd in
  let '(c, n) := tok in
  if Ascii.eqb c "y"%char then
    let yearOfEra := if 0 <? year then year else 1 - year in
    if (n =? 2)%nat then addLeadingZeros (yearOfEra mod 100) 2
    else addLeadingZeros yearOfEra n
  else if Ascii.eqb c "M"%char && (n <=? 2)%nat then addLeadingZeros month n
  else if Ascii.eqb c "d"%char && (n <=? 2)%nat then addLeadingZeros day n
  else repeat_char c n.

Fixpoint concat (l : list string) : string :=
  match l with [] => "" | s :: r => s +:+ concat r end.

(** [format(formatStr)(date)].  [format] prints the fields of the
    instant in the local time zone of the process: [offset] is
    [date.getTimezoneOffset()] in minutes (UTC minus local). *)
Definition format (offset : Z) (formatStr : string) (date : Z) : string :=
  let ymd := civil (Day (date - offset * msPerMinute)) in
  concat (map (formatToken ymd) (runs formatStr)).

End date_fns.

(* ===================================================================== *)
(** ** Errors, configuration and records *)
(* ===================================================================== *)

(** [ErrorCode]: the three codes the service raises itself, and the rest
    of the enumeration, which collaborators raise. *)
Inductive ErrorCode : Type :=
| UploadConcurrentLimit
| NotEnoughTotalUsage
| FileNotFound
| OtherCode (code : Z).

Definition ErrorCode_eq_dec (a b : ErrorCode) : {a = b} + {a <> b}.
Proof. decide equality; apply Z.eq_dec. Defined.

(** A settled promise: fulfilled with a value or rejected with an
    [FError] carrying its code. *)
Inductive result (A : Type) : Type :=
| Ok (a : A)
| Throw (e : ErrorCode).
Arguments Ok {A} a.
Arguments Throw {A} e.

(** The constants of [constants/Config] and [model/cloudStorage/Constants]
    and the pure collaborators, none of which is defined in the source
    file: they are parameters of the development.  [FileResourceType] and
    [FileConvertStep] are string enumerations. *)
Record Env : Type := {
  CloudStorage_concurrent : Z;
  CloudStorage_totalSize : Z;
  CloudStorage_prefixPath : string;
  Whiteboard_convertRegion : string;
  FileConvertStep_None : string;
  whiteboardResourceType : list string;
  (** [CloudStorageFileService.getFileResourceTypeByFileName] *)
  getFileResourceTypeByFileName : string -> string;
  oss_domain : string;
  (** [oss.policyTemplate(fileName, ossFilePath, fileSize)] *)
  oss_policyTemplate : string -> string -> JS.number -> string * string;
  (** [Date.prototype.getTimezoneOffset] at an instant, in minutes *)
  getTimezoneOffset : Z -> Z;
}.

(** [FilePayload]: [{}] or [{ region, convertStep }]. *)
Inductive FilePayload : Type :=
| EmptyPayload
| ConvertPayload (region convertStep : string).

Module StartConfig.
Record t : Type := {
  fileName : string;
  fileSize : JS.number;
  targetDirectoryPath : string;
}.
End StartConfig.

Module StartReturn.
Record t : Type := {
  fileUUID : string;
  ossFilePath : string;
  ossDomain : string;
  policy : string;
  signature : string;
}.
End StartReturn.

Module FileInfo.
(** [GetFileInfoByRedisReturn] *)
Record t : Type := {
  fileName : string;
  fileSize : JS.number;
  targetDirectoryPath : string;
  fileResourceType : string;
}.
End FileInfo.

Module InsertFileInfo.
Record t : Type := {
  fileName : string;
  fileSize : JS.number;
  fileURL : string;
  fileUUID : string;
  directoryPath : string;
  fileResourceType : string;
}.
End InsertFileInfo.

(** A row of [cloud_storage_files]. *)
Module FileRow.
Record t : Type := {
  file_name : string;
  file_size : JS.number;
  file_url : string;
  file_uuid : string;
  directory_path : string;
  resource_type : string;
  payload : FilePayload;
}.
End FileRow.

(* ===================================================================== *)
(** ** The world: stores, collaborators, clock *)
(* ===================================================================== *)

(** A Redis key of the upload sessions. *)
Abbreviation RKey := (string * string)%type.

(** Every call that leaves the service, in program order. *)
Inductive Event : Type :=
| RedisScan (pattern : RKey) (count : Z)
| RedisHmget (key : RKey)
| RedisHmset (key : RKey)
| RedisDel (key : RKey)
| ConfigsFindOne (user_uuid : string)
| ConfigsInsertOrUpdate (user_uuid total_usage : string)
| FilesInsert (file_uuid : string)
| UserFilesInsert (user_uuid file_uuid : string)
| DirectoryAssertExists (user_uuid directoryPath : string)
| OssAssertExists (filePath : string)
| OssPolicyTemplate (filePath : string)
| LoggerInfo (msg : string).

Record World : Type := {
  (** [Date.now()], milliseconds since the epoch *)
  now : Z;
  (** the identifiers [v4()] is going to return, and how many it has *)
  uuids : nat -> string;
  uuidCount : nat;
  (** EphemeralStore: key to (hash, instant of expiry) *)
  redis : gmap RKey (gmap string string * Z);
  (** RelationalStore: [cloud_storage_configs.total_usage] by user,
      [cloud_storage_files], [cloud_storage_user_files] *)
  cloud_storage_configs : gmap string string;
  cloud_storage_files : list FileRow.t;
  cloud_storage_user_files : list (string * string);
  (** DirectoryValidator: the code [assertExists] rejects with for a
      user and a path, if it rejects *)
  directoryMissing : string -> string -> option ErrorCode;
  (** ObjectStore: the code [assertExists] rejects with for a path *)
  ossMissing : string -> option ErrorCode;
  trace : list Event;
}.

Definition set_trace (t : list Event) (w : World) : World :=
  {| now := now w; uuids := uuids w; uuidCount := uuidCount w; redis := redis w;
     cloud_storage_configs := cloud_storage_configs w;
     cloud_storage_files := cloud_storage_files w;
     cloud_storage_user_files := cloud_storage_user_files w;
     directoryMissing := directoryMissing w; ossMissing := ossMissing w;
     trace := t |}.

Definition set_uuidCount (n : nat) (w : World) : World :=
  {| now := now w; uuids := uuids w; uuidCount := n; redis := redis w;
     cloud_storage_configs := cloud_storage_configs w;
     cloud_storage_files := cloud_storage_files w;
     cloud_storage_user_files := cloud_storage_user_files w;
     directoryMissing := directoryMissing w; ossMissing := ossMissing w;
     trace := trace w |}.

Definition set_redis (r : gmap RKey (gmap string string * Z)) (w : World) : World :=
  {| now := now w; uuids := uuids w; uuidCount := uuidCount w; redis := r;
     cloud_storage_configs := cloud_storage_configs w;
     cloud_storage_files := cloud_storage_files w;
     cloud_storage_user_files := cloud_storage_user_files w;
     directoryMissing := directoryMissing w; ossMissing := ossMissing w;
     trace := trace w |}.

Definition set_configs (c : gmap string string) (w : World) : World :=
  {| now := now w; uuids := uuids w; uuidCount := uuidCount w; redis := redis w;
     cloud_storage_configs := c;
     cloud_storage_files := cloud_storage_files w;
     cloud_storage_user_files := cloud_storage_user_files w;
     directoryMissing := directoryMissing w; ossMissing := ossMissing w;
     trace := trace w |}.

Definition set_files (f : list FileRow.t) (w : World) : World :=
  {| now := now w; uuids := uuids w; uuidCount := uuidCount w; redis := redis w;
     cloud_storage_configs := cloud_storage_configs w;
     cloud_storage_files := f;
     cloud_storage_user_files := cloud_storage_user_files w;
     directoryMissing := directoryMissing w; ossMissing := ossMissing w;
     trace := trace w |}.

Definition set_user_files (u : list (string * string)) (w : World) : World :=
  {| now := now w; uuids := uuids w; uuidCount := uuidCount w; redis := redis w;
     cloud_storage_configs := cloud_storage_configs w;
     cloud_storage_files := cloud_storage_files w;
     cloud_storage_user_files := u;
     directoryMissing := directoryMissing w; ossMissing := ossMissing w;
     trace := trace w |}.

(** Time passing between two requests. *)
Definition set_now (t : Z) (w : World) : World :=
  {| now := t; uuids := uuids w; uuidCount := uuidCount w; redis := redis w;
     cloud_storage_configs := cloud_storage_configs w;
     cloud_storage_files := cloud_storage_files w;
     cloud_storage_user_files := cloud_storage_user_files w;
     directoryMissing := directoryMissing w; ossMissing := ossMissing w;
     trace := trace w |}.

(* ===================================================================== *)
(** ** Asynchronous computations *)
(* ===================================================================== *)

(** An [async] function: it runs against the world and settles; what it
    did before rejecting stays done. *)
Definition M (A : Type) : Type := World -> result A * World.

Definition ret {A : Type} (a : A) : M A := fun w => (Ok a, w).

Definition throw {A : Type} (e : ErrorCode) : M A := fun w => (Throw e, w).

Definition bind {A B : Type} (m : M A) (k : A -> M B) : M B :=
  fun w =>
    match m w with
    | (Ok a, w') => k a w'
    | (Throw e, w') => (Throw e, w')
    end.

Declare Scope async_scope.
Delimit Scope async_scope with async.
Notation "'let*' x ':=' m 'in' k" := (bind m (fun x => k))
  (at level 10, x name, m at level 100, k at level 200) : async_scope.
Notation "m ';;' k" := (bind m (fun _ => k))
  (at level 100, k at level 200, right associativity) : async_scope.
Open Scope async_scope.

Definition emit (e : Event) : M unit :=
  fun w => (Ok tt, set_trace (trace w ++ [e]) w).

Definition gets {A : Type} (f : World -> A) : M A := fun w => (Ok (f w), w).

Definition modify (f : World -> World) : M unit := fun w => (Ok tt, f w).

(** [Date.now()] and [v4()] *)
Definition Date_now : M Z := gets now.

Definition v4 : M string :=
  let* n := gets uuidCount in
  let* f := gets uuids in
  modify (set_uuidCount (S n));;
  ret (f n).

Definition logger_info (msg : string) : M unit := emit (LoggerInfo msg).

(* ===================================================================== *)
(** ** EphemeralStore *)
(* ===================================================================== *)

Module RedisKey.
(** Modelled from the spec: [RedisKey.cloudStorageFileInfo] is defined in
    [utils/Redis], outside the source file.  The spec gives the key
    shape as namespaced by [(userId, fileId)] and wildcard-scannable by
    [(userId, "*")]. *)
Definition cloudStorageFileInfo (userUUID fileUUID : string) : RKey :=
  (userUUID, fileUUID).

Definition matches (pattern key : RKey) : bool :=
  String.eqb (fst pattern) (fst key)
  && (String.eqb (snd pattern) "*" || String.eqb (snd pattern) (snd key)).
End RedisKey.

Module RedisService.

(** Modelled from the spec: [RedisService] is defined in
    [thirdPartyService/RedisService], outside the source file.  The spec
    describes it as a short-lived key/value holder, a hash of fields
    with a TTL, with pattern-based enumeration of the live sessions,
    capped at the requested number of keys, and delete. *)

(** The hash under a key that has not expired. *)
Definition live (w : World) (key : RKey) : option (gmap string string) :=
  match redis w !! key with
  | Some (h, expireAt) => if now w <? expireAt then Some h else None
  | None => None
  end.

Definition field (w : World) (key : RKey) (f : string) : JS.value :=
  match live w key with
  | Some h => match h !! f with Some s => JS.VString s | None => JS.VNull end
  | None => JS.VNull
  end.

(** The keys matching a pattern that have not expired. *)
Definition keys (w : World) (pattern : RKey) : list RKey :=
  map fst
    (List.filter
       (fun kv : RKey * (gmap string string * Z) =>
          RedisKey.matches pattern (fst kv) && (now w <? snd (snd kv)))
       (map_to_list (redis w))).

Definition scan (pattern : RKey) (count : Z) (untilCount : bool) : M (list RKey) :=
  emit (RedisScan pattern count);;
  let* ks := gets (fun w => keys w pattern) in
  ret (if untilCount then take (Z.to_nat count) ks else ks).

Definition hmget (key : RKey) (f : string) : M JS.value :=
  emit (RedisHmget key);;
  gets (fun w => field w key f).

Definition hmget_all (key : RKey) (fs : list string) : M (list JS.value) :=
  emit (RedisHmget key);;
  gets (fun w => map (field w key) fs).

(** [hmset(key, value, expire)]: the fields are written over the live
    hash and the key expires [expire] seconds from now. *)
Definition hmset (key : RKey) (value : list (string * string)) (expire : Z) : M unit :=
  emit (RedisHmset key);;
  modify (fun w =>
    let old := match live w key with Some h => h | None => ∅ end in
    set_redis (<[key := (list_to_map value ∪ old, now w + expire * 1000)]> (redis w)) w).

Definition del (key : RKey) : M unit :=
  emit (RedisDel key);;
  modify (fun w => set_redis (delete key (redis w)) w).

End RedisService.

(* ===================================================================== *)
(** ** RelationalStore, DirectoryValidator, ObjectStore *)
(* ===================================================================== *)

(** Modelled from the spec: the DAOs are defined in [v2/dao], outside the
    source file.  The spec describes generic insert and find operations,
    with insert-or-update-on-conflict for the usage record, one per
    user; a user without a record has no [total_usage]. *)
Module cloudStorageConfigsDAO.
Definition findOne (user_uuid : string) : M JS.value :=
  emit (ConfigsFindOne user_uuid);;
  gets (fun w =>
    match cloud_storage_configs w !! user_uuid with
    | Some s => JS.VString s
    | None => JS.VUndefined
    end).

Definition insert_orUpdate (user_uuid total_usage : string) : M unit :=
  emit (ConfigsInsertOrUpdate user_uuid total_usage);;
  modify (fun w => set_configs (<[user_uuid := total_usage]> (cloud_storage_configs w)) w).
End cloudStorageConfigsDAO.

Module cloudStorageFilesDAO.
Definition insert (row : FileRow.t) : M unit :=
  emit (FilesInsert (FileRow.file_uuid row));;
  modify (fun w => set_files (cloud_storage_files w ++ [row]) w).
End cloudStorageFilesDAO.

Module cloudStorageUserFilesDAO.
Definition insert (user_uuid file_uuid : string) : M unit :=
  emit (UserFilesInsert user_uuid file_uuid);;
  modify (fun w => set_user_files (cloud_storage_user_files w ++ [(user_uuid, file_uuid)]) w).
End cloudStorageUserFilesDAO.

(** The two collaborators that assert: they reject with their own code
    or fulfil, and change nothing. *)
Module CloudStorageDirectoryService.
Definition assertExists (userUUID directoryPath : string) : M unit :=
  emit (DirectoryAssertExists userUUID directoryPath);;
  let* missing := gets (fun w => directoryMissing w userUUID directoryPath) in
  match missing with
  | Some e => throw e
  | None => ret tt
  end.
End CloudStorageDirectoryService.

Module oss.
Definition assertExists (filePath : string) : M unit :=
  emit (OssAssertExists filePath);;
  let* missing := gets (fun w => ossMissing w filePath) in
  match missing with
  | Some e => throw e
  | None => ret tt
  end.
End oss.

(* ===================================================================== *)
(** ** The service *)
(* ===================================================================== *)

(** [Array.prototype.reduce] with an [async] callback that first awaits
    the accumulator: the callbacks run one after the other, left to
    right. *)
Fixpoint reduce {A B : Type} (f : B -> A -> M B) (l : list A) (acc : B) : M B :=
  match l with
  | [] => ret acc
  | current :: rest => let* acc' := f acc current in reduce f rest acc'
  end.

(** [array[i]], [undefined] past the end. *)
Definition index (l : list JS.value) (i : nat) : JS.value := nth i l JS.VUndefined.

Section CloudStorageUploadService.

(** [new CloudStorageUploadService(ids, DBTransaction, userUUID)] under
    a configuration. *)
Context (env : Env) (userUUID : string).

Definition generateFilePayload (fileResourceType : string) : FilePayload :=
  if existsb (String.eqb fileResourceType) (whiteboardResourceType env)
  then ConvertPayload (Whiteboard_convertRegion env) (FileConvertStep_None env)
  else EmptyPayload.

Definition generateOSSFilePath (fileName fileUUID : string) : M string :=
  let* t := Date_now in
  let datePath := date_fns.format (getTimezoneOffset env t) "yyyy-MM/dd" t in
  ret (CloudStorage_prefixPath env +:+ "/" +:+ datePath +:+ "/" +:+ fileUUID +:+ "/"
       +:+ fileUUID +:+ path.extname fileName).

Definition insertFile (fileInfo : InsertFileInfo.t) : M unit :=
  cloudStorageFilesDAO.insert
    {| FileRow.file_name := InsertFileInfo.fileName fileInfo;
       FileRow.file_size := InsertFileInfo.fileSize fileInfo;
       FileRow.file_url := InsertFileInfo.fileURL fileInfo;
       FileRow.file_uuid := InsertFileInfo.fileUUID fileInfo;
       FileRow.directory_path := InsertFileInfo.directoryPath fileInfo;
       FileRow.resource_type := InsertFileInfo.fileResourceType fileInfo;
       FileRow.payload := generateFilePayload (InsertFileInfo.fileResourceType fileInfo) |};;
  cloudStorageUserFilesDAO.insert userUUID (InsertFileInfo.fileUUID fileInfo).

Definition updateTotalUsage (totalUsage : JS.number) : M unit :=
  cloudStorageConfigsDAO.insert_orUpdate userUUID (JS.toString totalUsage).

Definition assertConcurrentLimit : M unit :=
  let* uploadingFiles :=
    RedisService.scan (RedisKey.cloudStorageFileInfo userUUID "*")
      (CloudStorage_concurrent env + 1) true in
  if Z.of_nat (length uploadingFiles) >=? CloudStorage_concurrent env
  then throw UploadConcurrentLimit
  else ret tt.

Definition getTotalUsageByUpdated (currentFileSize : JS.number) : M JS.number :=
  let* total_usage := cloudStorageConfigsDAO.findOne userUUID in
  let totalUsage := JS.add (JS.or_number (JS.Number total_usage) (JS.Num 0)) currentFileSize in
  if JS.gt totalUsage (JS.Num (CloudStorage_totalSize env)) then
    logger_info "totalUsage > CloudStorage.totalSize";;
    throw NotEnoughTotalUsage
  else ret totalUsage.

Definition assertConcurrentFileSize (totalUsage : JS.number) : M unit :=
  let* uploadingFiles :=
    RedisService.scan (RedisKey.cloudStorageFileInfo userUUID "*")
      (CloudStorage_concurrent env + 1) true in
  let* uploadingFileTotalSize :=
    reduce
      (fun accFileSize current =>
         let* currentFileSize := RedisService.hmget current "fileSize" in
         ret (JS.add accFileSize (JS.or_number (JS.Number currentFileSize) (JS.Num 0))))
      uploadingFiles totalUsage in
  if JS.gt uploadingFileTotalSize (JS.Num (CloudStorage_totalSize env)) then
    logger_info "uploadingFileTotalSize > CloudStorage.totalSize";;
    throw NotEnoughTotalUsage
  else ret tt.

Definition getFileInfoByRedis (fileUUID : string) : M FileInfo.t :=
  let* fileInfo :=
    RedisService.hmget_all (RedisKey.cloudStorageFileInfo userUUID fileUUID)
      ["fileName"; "fileSize"; "targetDirectoryPath"; "fileResourceType"] in
  let fileName := index fileInfo 0 in
  let fileSize := JS.Number (JS.or_value (index fileInfo 1) JS.VUndefined) in
  let targetDirectoryPath := index fileInfo 2 in
  let fileResourceType := index fileInfo 3 in
  if negb (JS.truthy fileName) || JS.isNaN fileSize
     || negb (JS.truthy targetDirectoryPath) || negb (JS.truthy fileResourceType)
  then
    logger_info "not found file in redis";;
    throw FileNotFound
  else
    ret {| FileInfo.fileName := JS.as_string fileName;
           FileInfo.fileSize := fileSize;
           FileInfo.targetDirectoryPath := JS.as_string targetDirectoryPath;
           FileInfo.fileResourceType := JS.as_string fileResourceType |}.

Definition start (config : StartConfig.t) : M StartReturn.t :=
  let fileName := StartConfig.fileName config in
  let fileSize := StartConfig.fileSize config in
  let targetDirectoryPath := StartConfig.targetDirectoryPath config in
  assertConcurrentLimit;;
  let* totalUsage := getTotalUsageByUpdated fileSize in
  assertConcurrentFileSize totalUsage;;
  CloudStorageDirectoryService.assertExists userUUID targetDirectoryPath;;
  let fileResourceType := getFileResourceTypeByFileName env fileName in
  let* fileUUID := v4 in
  RedisService.hmset (RedisKey.cloudStorageFileInfo userUUID fileUUID)
    [("fileName", fileName);
     ("fileSize", JS.toString fileSize);
     ("targetDirectoryPath", targetDirectoryPath);
     ("fileResourceType", fileResourceType)]
    (60 * 20);;
  let* ossFilePath := generateOSSFilePath fileName fileUUID in
  emit (OssPolicyTemplate ossFilePath);;
  let ps := oss_policyTemplate env fileName ossFilePath fileSize in
  ret {| StartReturn.fileUUID := fileUUID;
         StartReturn.ossFilePath := ossFilePath;
         StartReturn.ossDomain := oss_domain env;
         StartReturn.policy := fst ps;
         StartReturn.signature := snd ps |}.

(** The two members of [Promise.all] write to different tables; they
    are run in the order of the array. *)
Definition finish (fileUUID : string) : M unit :=
  let* info := getFileInfoByRedis fileUUID in
  let fileName := FileInfo.fileName info in
  let fileSize := FileInfo.fileSize info in
  let targetDirectoryPath := FileInfo.targetDirectoryPath info in
  let fileResourceType := FileInfo.fileResourceType info in
  CloudStorageDirectoryService.assertExists userUUID targetDirectoryPath;;
  let* ossFilePath := generateOSSFilePath fileName fileUUID in
  oss.assertExists ossFilePath;;
  let* totalUsage := getTotalUsageByUpdated fileSize in
  insertFile
    {| InsertFileInfo.fileName := fileName;
       InsertFileInfo.fileSize := fileSize;
       InsertFileInfo.fileURL := oss_domain env +:+ "/" +:+ ossFilePath;
       InsertFileInfo.fileUUID := fileUUID;
       InsertFileInfo.directoryPath := targetDirectoryPath;
       InsertFileInfo.fileResourceType := fileResourceType |};;
  updateTotalUsage totalUsage;;
  RedisService.del (RedisKey.cloudStorageFileInfo userUUID fileUUID).

End CloudStorageUploadService.

(* ===================================================================== *)
(** ** What a request observes of the world *)
(* ===================================================================== *)

(** The world after some more calls were logged and nothing else
    happened. *)
Definition log_events (evs : list Event) (w : World) : World :=
  set_trace (trace w ++ evs) w.

(** [Number(v) || 0] is always an integer. *)
Definition numberOrZero (v : JS.value) : Z :=
  match JS.or_number (JS.Number v) (JS.Num 0) with
  | JS.Num z => z
  | JS.NaN => 0
  end.

Fixpoint all_chars (p : ascii -> bool) (s : string) : bool :=
  match s with
  | EmptyString => true
  | String c s' => p c && all_chars p s'
  end.

Definition isDigit (c : ascii) : bool :=
  let n := N_of_ascii c in ((48 <=? n) && (n <=? 57))%N.

Section Observations.

Context (env : Env) (userUUID : string).

Definition sessionKey (fileUUID : string) : RKey :=
  RedisKey.cloudStorageFileInfo userUUID fileUUID.

(** The user's live upload sessions, and the ones a scan capped at
    [concurrent + 1] keys returns. *)
Definition liveSessions (w : World) : list RKey :=
  RedisService.keys w (sessionKey "*").

Definition liveCount (w : World) : Z := Z.of_nat (length (liveSessions w)).

Definition uploadingFiles (w : World) : list RKey :=
  take (Z.to_nat (CloudStorage_concurrent env + 1)) (liveSessions w).

(** The user's durable usage, [0] without a usage record. *)
Definition durableUsage (w : World) : Z :=
  numberOrZero
    match cloud_storage_configs w !! userUUID with
    | Some s => JS.VString s
    | None => JS.VUndefined
    end.

(** The size a live session declares, [0] when unreadable. *)
Definition declaredSize (w : World) (key : RKey) : Z :=
  numberOrZero (RedisService.field w key "fileSize").

Definition sumDeclared (w : World) (ks : list RKey) : Z :=
  fold_right Z.add 0 (map (declaredSize w) ks).

(** The four fields of a session as Redis returns them. *)
Definition sessionField (w : World) (fileUUID f : string) : JS.value :=
  RedisService.field w (sessionKey fileUUID) f.

Definition sessionFileSize (w : World) (fileUUID : string) : JS.number :=
  JS.Number (JS.or_value (sessionField w fileUUID "fileSize") JS.VUndefined).

(** A session [finish] refuses: a field that is missing or empty, or a
    size that is not a number. *)
Definition sessionInvalid (w : World) (fileUUID : string) : bool :=
  negb (JS.truthy (sessionField w fileUUID "fileName"))
  || JS.isNaN (sessionFileSize w fileUUID)
  || negb (JS.truthy (sessionField w fileUUID "targetDirectoryPath"))
  || negb (JS.truthy (sessionField w fileUUID "fileResourceType")).

Definition sessionInfo (w : World) (fileUUID : string) : FileInfo.t :=
  {| FileInfo.fileName := JS.as_string (sessionField w fileUUID "fileName");
     FileInfo.fileSize := sessionFileSize w fileUUID;
     FileInfo.targetDirectoryPath :=
       JS.as_string (sessionField w fileUUID "targetDirectoryPath");
     FileInfo.fileResourceType :=
       JS.as_string (sessionField w fileUUID "fileResourceType") |}.

(** The object path derived at the instant [t]. *)
Definition ossFilePathAt (t : Z) (fileName fileUUID : string) : string :=
  CloudStorage_prefixPath env +:+ "/"
  +:+ date_fns.format (getTimezoneOffset env t) "yyyy-MM/dd" t
  +:+ "/" +:+ fileUUID +:+ "/" +:+ fileUUID +:+ path.extname fileName.

(** The hash [start] writes. *)
Definition sessionHash (config : StartConfig.t) : list (string * string) :=
  [("fileName", StartConfig.fileName config);
   ("fileSize", JS.toString (StartConfig.fileSize config));
   ("targetDirectoryPath", StartConfig.targetDirectoryPath config);
   ("fileResourceType", getFileResourceTypeByFileName env (StartConfig.fileName config))].

(** The calls of the checks of [start], in order. *)
Definition scanEvent : Event :=
  RedisScan (sessionKey "*") (CloudStorage_concurrent env + 1).

Definition startCheckEvents (config : StartConfig.t) (w : World) : list Event :=
  [scanEvent; ConfigsFindOne userUUID; scanEvent]
  ++ map RedisHmget (uploadingFiles w)
  ++ [DirectoryAssertExists userUUID (StartConfig.targetDirectoryPath config)].

(** The world a successful [start] leaves. *)
Definition startedWorld (config : StartConfig.t) (w : World) : World :=
  let fileUUID := uuids w (uuidCount w) in
  let key := sessionKey fileUUID in
  let old := match RedisService.live w key with Some h => h | None => ∅ end in
  {| now := now w; uuids := uuids w; uuidCount := S (uuidCount w);
     redis := <[key := (list_to_map (sessionHash config) ∪ old, now w + 60 * 20 * 1000)]> (redis w);
     cloud_storage_configs := cloud_storage_configs w;
     cloud_storage_files := cloud_storage_files w;
     cloud_storage_user_files := cloud_storage_user_files w;
     directoryMissing := directoryMissing w; ossMissing := ossMissing w;
     trace := trace w ++ (startCheckEvents config w
                ++ [RedisHmset key;
                    OssPolicyTemplate
                      (ossFilePathAt (now w) (StartConfig.fileName config) fileUUID)]) |}.

Definition startReturn (config : StartConfig.t) (w : World) : StartReturn.t :=
  let fileUUID := uuids w (uuidCount w) in
  let ossFilePath := ossFilePathAt (now w) (StartConfig.fileName config) fileUUID in
  let ps := oss_policyTemplate env (StartConfig.fileName config) ossFilePath
              (StartConfig.fileSize config) in
  {| StartReturn.fileUUID := fileUUID;
     StartReturn.ossFilePath := ossFilePath;
     StartReturn.ossDomain := oss_domain env;
     StartReturn.policy := fst ps;
     StartReturn.signature := snd ps |}.

(** The row and the world a successful [finish] leaves. *)
Definition finishedRow (w : World) (fileUUID : string) : FileRow.t :=
  let info := sessionInfo w fileUUID in
  {| FileRow.file_name := FileInfo.fileName info;
     FileRow.file_size := FileInfo.fileSize info;
     FileRow.file_url :=
       oss_domain env +:+ "/" +:+ ossFilePathAt (now w) (FileInfo.fileName info) fileUUID;
     FileRow.file_uuid := fileUUID;
     FileRow.directory_path := FileInfo.targetDirectoryPath info;
     FileRow.resource_type := FileInfo.fileResourceType info;
     FileRow.payload := generateFilePayload env (FileInfo.fileResourceType info) |}.

Definition finishedUsage (w : World) (fileUUID : string) : JS.number :=
  JS.add (JS.Num (durableUsage w)) (sessionFileSize w fileUUID).

Definition finishCheckEvents (w : World) (fileUUID : string) : list Event :=
  let info := sessionInfo w fileUUID in
  [RedisHmget (sessionKey fileUUID);
   DirectoryAssertExists userUUID (FileInfo.targetDirectoryPath info);
   OssAssertExists (ossFilePathAt (now w) (FileInfo.fileName info) fileUUID);
   ConfigsFindOne userUUID].

Definition finishedWorld (w : World) (fileUUID : string) : World :=
  {| now := now w; uuids := uuids w; uuidCount := uuidCount w;
     redis := delete (sessionKey fileUUID) (redis w);
     cloud_storage_configs :=
       <[userUUID := JS.toString (finishedUsage w fileUUID)]> (cloud_storage_configs w);
     cloud_storage_files := cloud_storage_files w ++ [finishedRow w fileUUID];
     cloud_storage_user_files := cloud_storage_user_files w ++ [(userUUID, fileUUID)];
     directoryMissing := directoryMissing w; ossMissing := ossMissing w;
     trace := trace w ++ (finishCheckEvents w fileUUID
                ++ [FilesInsert fileUUID; UserFilesInsert userUUID fileUUID;
                    ConfigsInsertOrUpdate userUUID (JS.toString (finishedUsage w fileUUID));
                    RedisDel (sessionKey fileUUID)]) |}.

End Observations.

(* ===================================================================== *)
(** ** Vocabulary of the properties *)
(* ===================================================================== *)

(** The two capacity checks of [start]: the durable usage plus the new
    file, then the same plus the sizes declared by the uploads in
    flight. *)
Definition capacityExceeded (env : Env) (userUUID : string)
    (fileSize : JS.number) (w : World) : bool :=
  let totalUsage := JS.add (JS.Num (durableUsage userUUID w)) fileSize in
  JS.gt totalUsage (JS.Num (CloudStorage_totalSize env))
  || JS.gt (JS.add totalUsage (JS.Num (sumDeclared w (uploadingFiles env userUUID w))))
       (JS.Num (CloudStorage_totalSize env)).

Definition isDirectoryCheck (e : Event) : bool :=
  match e with
  | DirectoryAssertExists _ _ => true
  | _ => false
  end.

(** A call that writes to the EphemeralStore or the RelationalStore. *)
Definition isWrite (e : Event) : bool :=
  match e with
  | RedisHmset _ | RedisDel _ | ConfigsInsertOrUpdate _ _
  | FilesInsert _ | UserFilesInsert _ _ => true
  | _ => false
  end.

(** A field Redis does not have, or has empty. *)
Definition fieldMissing (v : JS.value) : Prop :=
  v = JS.VNull \/ v = JS.VString "".

(** A [fileSize] field whose text is not a number. *)
Definition notANumber (v : JS.value) : Prop :=
  exists s, v = JS.VString s /\ JS.StringToNumber s = JS.NaN.

(** The year as the token [yyyy] prints it. *)
Definition yearOfEra (y : Z) : Z := if 0 <? y then y else 1 - y.

(** The instant whose UTC fields are the local fields of [t]. *)
Definition localTime (env : Env) (t : Z) : Z :=
  t - getTimezoneOffset env t * date_fns.msPerMinute.

(** The object path as the specification words it:
    [{configuredPrefix}/{YYYY-MM}/{DD}/{fileId}/{fileId}{originalExtension}]
    with the UTC date of the instant [t]. *)
Definition specObjectPath (env : Env) (t : Z) (fileName fileId : string) : string :=
  let '(y, m, d) := date_fns.civil (date_fns.Day t) in
  CloudStorage_prefixPath env +:+ "/"
  +:+ date_fns.addLeadingZeros (yearOfEra y) 4 +:+ "-" +:+ date_fns.addLeadingZeros m 2
  +:+ "/" +:+ date_fns.addLeadingZeros d 2
  +:+ "/" +:+ fileId +:+ "/" +:+ fileId +:+ path.extname fileName.

Definition twoDigits (n : Z) : bool :=
  (String.length (date_fns.addLeadingZeros n 2) =? 2)%nat.

Definition fourDigits (n : Z) : bool :=
  (String.length (date_fns.addLeadingZeros n 4) =? 4)%nat.

(** [P] on the [n] integers from [z] on. *)
Fixpoint allFrom (P : Z -> bool) (n : nat) (z : Z) : bool :=
  match n with
  | O => true
  | S k => P z && allFrom P k (z + 1)
  end.

(* ===================================================================== *)
(** ** The range of the number model *)
(* ===================================================================== *)

(** [Number.isSafeInteger]: the integers an IEEE double holds exactly.
    As long as operands and sum are among them, [JS.add] is the addition
    of doubles, and on them [JS.toString] is [String]. *)
Definition isSafeInteger (z : Z) : bool :=
  (- 9007199254740991 <=? z) && (z <=? 9007199254740991).

(** A number of the model that is a number of the program. *)
Definition inRange (a : JS.number) : bool :=
  match a with
  | JS.NaN => true
  | JS.Num z => isSafeInteger z
  end.

(** A numeral as [String] prints it from a number in range: the decimal
    digits of a safe integer, after a [-] when it is negative, or
    ["NaN"].  On these [JS.StringToNumber] is [Number]; the other
    numerals [Number] reads (a fraction, an exponent, a radix prefix,
    [Infinity], surrounding white space, a sign [+], leading zeros) are
    left out. *)
Definition printed (s : string) : bool :=
  inRange (JS.StringToNumber s)
  && String.eqb s (JS.toString (JS.StringToNumber s)).

(** What a store answers where the service keeps a number: nothing, the
    empty string, or a printed numeral. *)
Definition storedInRange (v : JS.value) : bool :=
  match v with
  | JS.VUndefined | JS.VNull => true
  | JS.VString EmptyString => true
  | JS.VString s => printed s
  end.

(** The running total of the [reduce] of [assertConcurrentFileSize]
    stays in range: each size read is a stored numeral, and the total is
    in range before and after each addition. *)
Fixpoint totalsInRange (acc : JS.number) (sizes : list JS.value) : bool :=
  inRange acc
  && match sizes with
     | [] => true
     | v :: rest =>
         storedInRange v && totalsInRange (JS.add acc (JS.Num (numberOrZero v))) rest
     end.

Section Range.

Context (env : Env) (userUUID : string).

(** The usage record of the user as [findOne] returns it. *)
Definition usageRecord (w : World) : JS.value :=
  match cloud_storage_configs w !! userUUID with
  | Some s => JS.VString s
  | None => JS.VUndefined
  end.

(** [getTotalUsageByUpdated(currentFileSize)] computes in range: the
    limit and the size are, the usage record is a stored numeral, and
    the projected total is in range. *)
Definition usageInRange (currentFileSize : JS.number) (w : World) : bool :=
  isSafeInteger (CloudStorage_totalSize env)
  && storedInRange (usageRecord w)
  && inRange currentFileSize
  && inRange (JS.add (JS.Num (durableUsage userUUID w)) currentFileSize).

(** [assertConcurrentFileSize(totalUsage)] computes in range. *)
Definition inFlightInRange (totalUsage : JS.number) (w : World) : bool :=
  isSafeInteger (CloudStorage_totalSize env)
  && totalsInRange totalUsage
       (map (fun key => RedisService.field w key "fileSize") (uploadingFiles env userUUID w)).

(** The two capacity checks of [start] compute in range. *)
Definition startInRange (fileSize : JS.number) (w : World) : bool :=
  usageInRange fileSize w
  && inFlightInRange (JS.add (JS.Num (durableUsage userUUID w)) fileSize) w.

(** The session [finish] loads holds a stored numeral as its size, and
    the capacity check of [finish] computes in range. *)
Definition finishInRange (fileUUID : string) (w : World) : bool :=
  storedInRange (sessionField userUUID w fileUUID "fileSize")
  && usageInRange (sessionFileSize userUUID w fileUUID) w.

(** The first capacity check of [start], on the durable usage and the
    new file, and the second, which adds the sizes declared in flight. *)
Definition usageExceeded (fileSize : JS.number) (w : World) : bool :=
  JS.gt (JS.add (JS.Num (durableUsage userUUID w)) fileSize)
    (JS.Num (CloudStorage_totalSize env)).

Definition inFlightExceeded (fileSize : JS.number) (w : World) : bool :=
  JS.gt (JS.add (JS.add (JS.Num (durableUsage userUUID w)) fileSize)
           (JS.Num (sumDeclared w (uploadingFiles env userUUID w))))
    (JS.Num (CloudStorage_totalSize env)).

End Range.

(* ===================================================================== *)
(** ** A concrete deployment, for the examples *)
(* ===================================================================== *)

Module Demo.

(** A configuration with room for [concurrent] uploads and 10000 bytes,
    on a server [offset] minutes behind UTC. *)
Definition env (concurrent offset : Z) : Env :=
  {| CloudStorage_concurrent := concurrent;
     CloudStorage_totalSize := 10000;
     CloudStorage_prefixPath := "cloud-storage";
     Whiteboard_convertRegion := "cn-hz";
     FileConvertStep_None := "None";
     whiteboardResourceType := ["WhiteboardConvert"; "WhiteboardProjector"];
     getFileResourceTypeByFileName :=
       (fun fileName =>
          if String.eqb (path.extname fileName) ".pptx"
          then "WhiteboardConvert" else "NormalResources");
     oss_domain := "https://oss.example.com";
     oss_policyTemplate := (fun _ _ _ => ("policy", "signature"));
     getTimezoneOffset := (fun _ => offset) |}.

Definition user : string := "alice".

(** 2021-10-19T00:00:00Z *)
Definition morning : Z := 1634601600000.

Definition session (fileName fileSize : string) : gmap string string :=
  list_to_map
    [("fileName", fileName); ("fileSize", fileSize);
     ("targetDirectoryPath", "/docs"); ("fileResourceType", "NormalResources")].

(** Sessions of [alice], by file identifier, all expiring 20 minutes
    after [morning]. *)
Definition sessions (l : list (string * gmap string string))
  : gmap RKey (gmap string string * Z) :=
  list_to_map (map (fun kv => ((user, fst kv), (snd kv, morning + 1200000))) l).

Definition world (t : Z) (s : list (string * gmap string string))
    (usage : option string)
    (dirs : string -> option ErrorCode) (objects : string -> option ErrorCode)
  : World :=
  {| now := t;
     uuids := (fun n => "uuid-" +:+ JS.decimal (N.of_nat n));
     uuidCount := 0;
     redis := sessions s;
     cloud_storage_configs :=
       match usage with Some u => {[ user := u ]} | None => ∅ end;
     cloud_storage_files := [];
     cloud_storage_user_files := [];
     directoryMissing := (fun _ => dirs);
     ossMissing := objects;
     trace := [] |}.

Definition present : string -> option ErrorCode := fun _ => None.
Definition absent (e : ErrorCode) : string -> option ErrorCode := fun _ => Some e.

(** An object store holding exactly one object. *)
Definition holding (p : string) (e : ErrorCode) : string -> option ErrorCode :=
  fun q => if String.eqb p q then None else Some e.

Definition upload (fileName : string) (fileSize : Z) : StartConfig.t :=
  {| StartConfig.fileName := fileName;
     StartConfig.fileSize := JS.Num fileSize;
     StartConfig.targetDirectoryPath := "/docs" |}.

(** No session, no usage record. *)
Definition fresh : World := world morning [] None present present.

(** 9500 bytes used, no session. *)
Definition nearlyFull : World := world morning [] (Some "9500") present present.

(** 9500 bytes used and three uploads in flight. *)
Definition busy : World :=
  world morning
    [("f1", session "a.png" "100"); ("f2", session "b.png" "100");
     ("f3", session "c.png" "100")]
    (Some "9500") present present.

(** One upload of 1000 bytes in flight, its object in place. *)
Definition uploaded : World :=
  world morning [("f1", session "a.png" "1000")] None present present.

(** The same with 9500 bytes already used. *)
Definition uploadedNearlyFull : World :=
  world morning [("f1", session "a.png" "1000")] (Some "9500") present present.

(** The same, the object never arrived; the store answers with [e]. *)
Definition notUploaded (e : ErrorCode) : World :=
  world morning [("f1", session "a.png" "1000")] None present (absent e).

(** The object never arrived and the directory was removed. *)
Definition orphaned : World :=
  world morning [("f1", session "a.png" "1000")] None
    (absent (OtherCode 1)) (absent (OtherCode 2)).

(** Three uploads of 4000 bytes in flight. *)
Definition crowded : World :=
  world morning
    [("f1", session "a.png" "4000"); ("f2", session "b.png" "4000");
     ("f3", session "c.png" "4000")]
    None present present.

(** 2021-10-19T16:00:00Z, midnight of the 20th at UTC+8. *)
Definition afternoon : Z := morning + 16 * 3600000.

Definition atAfternoon : World := world afternoon [] None present present.

(** 2021-10-19T23:59:59Z and, two seconds later, 2021-10-20T00:00:01Z. *)
Definition beforeMidnight : Z := morning + 86399000.
Definition afterMidnight : Z := morning + 86401000.

Definition atNight : World := world beforeMidnight [] None present present.

(** The world once [start] has run at [atNight], the client has put
    the object at the path [start] returned, and midnight has passed. *)
Definition nextDay : World :=
  let started := start (env 3 0) user (upload "a.png" 1000) atNight in
  let w1 := snd started in
  let ossFilePath :=
    match fst started with Ok r => StartReturn.ossFilePath r | Throw _ => "" end in
  {| now := afterMidnight; uuids := uuids w1; uuidCount := uuidCount w1;
     redis := redis w1;
     cloud_storage_configs := cloud_storage_configs w1;
     cloud_storage_files := cloud_storage_files w1;
     cloud_storage_user_files := cloud_storage_user_files w1;
     directoryMissing := directoryMissing w1;
     ossMissing := holding ossFilePath (OtherCode 404);
     trace := trace w1 |}.

End Demo.

(* ===================================================================== *)
(** ** Counting the sessions in flight *)
(* ===================================================================== *)

(** The test [RedisService.keys] applies to an entry at the instant [t]. *)
Definition countsAsLive (pattern : RKey) (t : Z)
    (kv : RKey * (gmap string string * Z)) : bool :=
  RedisKey.matches pattern (fst kv) && (t <? snd (snd kv)).

(** The number of entries of a store that match a pattern and have not
    expired at [t]. *)
Definition countLive (pattern : RKey) (t : Z)
    (m : gmap RKey (gmap string string * Z)) : Z :=
  Z.of_nat (length (List.filter (countsAsLive pattern t) (map_to_list m))).

(** The keys of the entries of a store that match a pattern and have
    not expired at [t]. *)
Definition keysOf (pattern : RKey) (t : Z)
    (m : gmap RKey (gmap string string * Z)) : list RKey :=
  map fst (List.filter (countsAsLive pattern t) (map_to_list m)).

(* ===================================================================== *)
(** ** Object paths *)
(* ===================================================================== *)

(** No [/] in a string: true of the identifiers [v4] returns. *)
Fixpoint slashFree (s : string) : bool :=
  match s with
  | EmptyString => true
  | String c rest => negb (Ascii.eqb c "/") && slashFree rest
  end.

(** The year of the local date of the instant [t]. *)
Definition localYear (env : Env) (t : Z) : Z :=
  let '(y, _, _) := date_fns.civil (date_fns.Day (localTime env t)) in y.

(* ===================================================================== *)
(** ** The scan of [path.extname] *)
(* ===================================================================== *)

(** What holds of the locals of [path.extname] once the characters at
    the indices [n] and above have been read: [end_] is set exactly when
    a character other than [/] was seen, it lies above [n], the dot at
    [startDot] lies between [n] and [end_], and no [/] lies between [n]
    and [end_]. *)
Definition scanned (p : string) (n : nat) (st : path.locals) : Prop :=
  (path.end_ st = -1 <-> path.matchedSlash st = true)
  /\ (path.end_ st = -1 \/ Z.of_nat n < path.end_ st <= Z.of_nat (String.length p))
  /\ (path.startDot st = -1
      \/ (Z.of_nat n <= path.startDot st < path.end_ st
          /\ String.get (Z.to_nat (path.startDot st)) p = Some "."%char))
  /\ (forall j : nat,
        Z.of_nat n <= Z.of_nat j < path.end_ st -> String.get j p <> Some "/"%char).

(** What holds of them when the scan is over. *)
Definition extensionFound (p : string) (st : path.locals) : Prop :=
  path.startDot st <> -1 ->
  0 <= path.startDot st < path.end_ st
  /\ path.end_ st <= Z.of_nat (String.length p)
  /\ String.get (Z.to_nat (path.startDot st)) p = Some "."%char
  /\ (forall j : nat,
        path.startDot st <= Z.of_nat j < path.end_ st -> String.get j p <> Some "/"%char).

(* ===================================================================== *)
(** ** Further scenarios, for the examples *)
(* ===================================================================== *)

Module Scenario.

(** The world at the instant [t] when the EphemeralStore is as in [w],
    nothing is recorded yet, every directory exists and the client has
    put one object, at the path [p]. *)
Definition objectArrived (t : Z) (p : string) (w : World) : World :=
  {| now := t;
     uuids := uuids Demo.fresh;
     uuidCount := 1;
     redis := redis w;
     cloud_storage_configs := ∅;
     cloud_storage_files := [];
     cloud_storage_user_files := [];
     directoryMissing := (fun _ => Demo.present);
     ossMissing := Demo.holding p (OtherCode 404);
     trace := [] |}.

(** Ten minutes after the first upload of [alice] was started. *)
Definition tenMinutesLater : World :=
  objectArrived (Demo.morning + 600000) "cloud-storage/2021-10/19/uuid-0/uuid-0.png"
    (snd (start (Demo.env 3 0) Demo.user (Demo.upload "a.png" 1000) Demo.fresh)).

(** Two uploads of 4000 bytes in flight, nothing used yet, and the
    target directory removed. *)
Definition twoInFlightNoDirectory : World :=
  Demo.world Demo.morning
    [("f1", Demo.session "a.png" "4000"); ("f2", Demo.session "b.png" "4000")]
    None (Demo.absent (OtherCode 1)) Demo.present.

(** One upload in flight whose declared size is not a number. *)
Definition sizeless : World :=
  Demo.world Demo.morning [("f1", Demo.session "a.png" "NaN")] None
    Demo.present Demo.present.

(** Another user has 500 bytes recorded and a session in flight while
    [alice] finishes her upload of 1000 bytes. *)
Definition shared : World :=
  {| now := Demo.morning;
     uuids := uuids Demo.fresh;
     uuidCount := 0;
     redis := <[("bob", "g1") := (Demo.session "b.png" "300", Demo.morning + 1200000)]>
                (Demo.sessions [("f1", Demo.session "a.png" "1000")]);
     cloud_storage_configs := {[ "bob" := "500" ]};
     cloud_storage_files := [];
     cloud_storage_user_files := [];
     directoryMissing := (fun _ => Demo.present);
     ossMissing := Demo.present;
     trace := [] |}.

End Scenario.

(* ===================================================================== *)
(** ** Facts about the JavaScript fragment *)
(* ===================================================================== *)

Lemma string_of_uint_digits (d : Decimal.uint) :
  all_chars isDigit (NilEmpty.string_of_uint d) = true.
Proof. induction d; simpl; auto. Qed.

Lemma decimal_digits (n : N) : all_chars isDigit (JS.decimal n) = true.
Proof. apply string_of_uint_digits. Qed.

Lemma decimal_nonempty (n : N) : JS.decimal n <> "".
Proof.
  unfold JS.decimal. destruct n as [|p]; [discriminate|].
  pose proof (DecimalPos.Unsigned.to_uint_nonnil p) as Hp.
  simpl. destruct (Pos.to_uint p); [congruence | discriminate ..].
Qed.

Lemma isDigit_inv (c : ascii) :
  isDigit c = true ->
  JS.isWhiteSpace c = false /\ c <> "+"%char /\ c <> "-"%char.
Proof.
  destruct c as [[] [] [] [] [] [] [] []]; vm_compute; intros H;
    try discriminate H; repeat split; discriminate.
Qed.

Lemma trimStart_id (s : string) :
  all_chars (fun c => negb (JS.isWhiteSpace c)) s = true -> JS.trimStart s = s.
Proof.
  destruct s as [|c s]; simpl; [reflexivity|].
  intros H. apply andb_prop in H as [Hc _].
  destruct (JS.isWhiteSpace c); [discriminate | reflexivity].
Qed.

Lemma trimEnd_id (s : string) :
  all_chars (fun c => negb (JS.isWhiteSpace c)) s = true -> JS.trimEnd s = s.
Proof.
  induction s as [|c s IH]; simpl; [reflexivity|].
  intros H. apply andb_prop in H as [Hc Hs].
  rewrite (IH Hs). destruct s; [|reflexivity].
  destruct (JS.isWhiteSpace c); [discriminate | reflexivity].
Qed.

Lemma trim_id (s : string) :
  all_chars (fun c => negb (JS.isWhiteSpace c)) s = true -> JS.trim s = s.
Proof.
  intros H. unfold JS.trim. rewrite (trimStart_id s H). apply trimEnd_id, H.
Qed.

Lemma all_chars_impl (p q : ascii -> bool) (s : string) :
  (forall c, p c = true -> q c = true) ->
  all_chars p s = true -> all_chars q s = true.
Proof.
  intros Hpq. induction s as [|c s IH]; simpl; [reflexivity|].
  intros H. apply andb_prop in H as [Hc Hs].
  rewrite (Hpq c Hc), (IH Hs). reflexivity.
Qed.

Lemma digits_no_space (s : string) :
  all_chars isDigit s = true ->
  all_chars (fun c => negb (JS.isWhiteSpace c)) s = true.
Proof.
  apply all_chars_impl. intros c Hc.
  destruct (isDigit_inv c Hc) as [-> _]. reflexivity.
Qed.

Lemma decimalDigits_decimal (n : N) :
  JS.decimalDigits (JS.decimal n) = JS.Num (Z.of_N n).
Proof.
  pose proof (decimal_nonempty n) as Hne.
  unfold JS.decimalDigits. destruct (JS.decimal n) eqn:E; [congruence|].
  rewrite <- E. unfold JS.decimal.
  rewrite NilEmpty.usu, DecimalN.Unsigned.of_to. reflexivity.
Qed.

(** Reading back the decimal numeral of a natural number. *)
Lemma StringToNumber_decimal (n : N) :
  JS.StringToNumber (JS.decimal n) = JS.Num (Z.of_N n).
Proof.
  pose proof (decimal_nonempty n) as Hne.
  pose proof (decimal_digits n) as Hd.
  unfold JS.StringToNumber. rewrite (trim_id _ (digits_no_space _ Hd)).
  rewrite <- decimalDigits_decimal.
  destruct (JS.decimal n) as [|c r] eqn:E; [congruence|].
  simpl in Hd. apply andb_prop in Hd as [Hc _].
  destruct (isDigit_inv c Hc) as (_ & Hplus & Hminus).
  destruct c as [[] [] [] [] [] [] [] []]; try reflexivity; congruence.
Qed.

(** [Number(String(z)) = z] for every integer [z]. *)
Lemma Number_toString (z : Z) :
  JS.Number (JS.VString (JS.toString (JS.Num z))) = JS.Num z.
Proof.
  unfold JS.Number, JS.toString. destruct (Z.ltb_spec z 0) as [Hneg|Hpos].
  - unfold JS.StringToNumber.
    assert (Hws : all_chars (fun c => negb (JS.isWhiteSpace c))
                    (String "-"%char (JS.decimal (Z.abs_N z))) = true).
    { simpl. apply digits_no_space, decimal_digits. }
    rewrite (trim_id _ Hws). rewrite decimalDigits_decimal. simpl.
    f_equal. rewrite N2Z.inj_abs_N. lia.
  - rewrite StringToNumber_decimal. f_equal. apply Z2N.id, Hpos.
Qed.

Lemma or_number_zero (v : JS.value) :
  JS.or_number (JS.Number v) (JS.Num 0) = JS.Num (numberOrZero v).
Proof.
  unfold numberOrZero, JS.or_number.
  destruct (JS.Number v) as [|z]; simpl; [reflexivity|].
  destruct (z =? 0); reflexivity.
Qed.

Lemma numberOrZero_toString (z : Z) :
  numberOrZero (JS.VString (JS.toString (JS.Num z))) = z.
Proof.
  unfold numberOrZero. rewrite Number_toString. unfold JS.or_number. simpl.
  destruct (Z.eqb_spec z 0); simpl; congruence.
Qed.

(** What [String] prints from a number in range is a printed numeral. *)
Lemma printed_toString (a : JS.number) :
  inRange a = true -> printed (JS.toString a) = true.
Proof.
  intros Ha. destruct a as [|z]; [vm_compute; reflexivity|].
  unfold printed.
  change (JS.StringToNumber (JS.toString (JS.Num z)))
    with (JS.Number (JS.VString (JS.toString (JS.Num z)))).
  rewrite Number_toString, Ha. apply String.eqb_refl.
Qed.

(** [path.extname] on the cases of Node's documentation and a few more. *)
Example extname_docs :
  path.extname "index.html" = ".html"
  /\ path.extname "index.coffee.md" = ".md"
  /\ path.extname "index." = "."
  /\ path.extname "index" = ""
  /\ path.extname ".index" = ""
  /\ path.extname ".index.md" = ".md"
  /\ path.extname "a.b/c" = ""
  /\ path.extname "a/b.c/" = ".c"
  /\ path.extname ".." = ""
  /\ path.extname "" = "".
Proof. repeat split. Qed.

(** Known dates: the epoch, the day before it, two leap days, a
    secular year that is not leap, and the day of the examples. *)
Example civil_known_dates :
  date_fns.civil 0 = (1970, 1, 1)
  /\ date_fns.civil (-1) = (1969, 12, 31)
  /\ date_fns.civil 11016 = (2000, 2, 29)
  /\ date_fns.civil 19782 = (2024, 2, 29)
  /\ date_fns.civil 47540 = (2100, 2, 28)
  /\ date_fns.civil 47541 = (2100, 3, 1)
  /\ date_fns.civil (date_fns.Day 1634601600000) = (2021, 10, 19).
Proof. repeat split. Qed.

Example format_known_dates :
  date_fns.format 0 "yyyy-MM/dd" 1634601600000 = "2021-10/19"
  /\ date_fns.format 0 "yyyy-MM/dd" 0 = "1970-01/01"
  /\ date_fns.format 300 "yyyy-MM/dd" 0 = "1969-12/31"
  /\ date_fns.format (-480) "yyyy-MM/dd" 1634659200000 = "2021-10/20".
Proof. repeat split. Qed.

Example Number_known_values :
  JS.Number (JS.VString "1000") = JS.Num 1000
  /\ JS.Number (JS.VString " 12 ") = JS.Num 12
  /\ JS.Number (JS.VString "-7") = JS.Num (-7)
  /\ JS.Number (JS.VString "") = JS.Num 0
  /\ JS.Number (JS.VString "abc") = JS.NaN
  /\ JS.Number JS.VNull = JS.Num 0
  /\ JS.Number JS.VUndefined = JS.NaN
  /\ JS.toString (JS.Num 1000) = "1000".
Proof. repeat split. Qed.

(* ===================================================================== *)
(** ** Running the primitives *)
(* ===================================================================== *)

Lemma log_events_app (e1 e2 : list Event) (w : World) :
  log_events e2 (log_events e1 w) = log_events (e1 ++ e2) w.
Proof. unfold log_events, set_trace. simpl. rewrite app_assoc. reflexivity. Qed.

Lemma World_ext (w1 w2 : World) :
  now w1 = now w2 -> uuids w1 = uuids w2 -> uuidCount w1 = uuidCount w2 ->
  redis w1 = redis w2 ->
  cloud_storage_configs w1 = cloud_storage_configs w2 ->
  cloud_storage_files w1 = cloud_storage_files w2 ->
  cloud_storage_user_files w1 = cloud_storage_user_files w2 ->
  directoryMissing w1 = directoryMissing w2 -> ossMissing w1 = ossMissing w2 ->
  trace w1 = trace w2 ->
  w1 = w2.
Proof. destruct w1, w2. simpl. intros. subst. reflexivity. Qed.

Lemma v4_run (w : World) :
  v4 w = (Ok (uuids w (uuidCount w)), set_uuidCount (S (uuidCount w)) w).
Proof. reflexivity. Qed.

Lemma hmset_run (key : RKey) (value : list (string * string)) (expire : Z) (w : World) :
  RedisService.hmset key value expire w =
    (Ok tt,
     set_redis
       (<[key := (list_to_map value
                  ∪ match RedisService.live w key with Some h => h | None => ∅ end,
                  now w + expire * 1000)]> (redis w))
       (log_events [RedisHmset key] w)).
Proof. reflexivity. Qed.

Lemma del_run (key : RKey) (w : World) :
  RedisService.del key w =
    (Ok tt, set_redis (delete key (redis w)) (log_events [RedisDel key] w)).
Proof. reflexivity. Qed.

Lemma files_insert_run (row : FileRow.t) (w : World) :
  cloudStorageFilesDAO.insert row w =
    (Ok tt,
     set_files (cloud_storage_files w ++ [row])
       (log_events [FilesInsert (FileRow.file_uuid row)] w)).
Proof. reflexivity. Qed.

Lemma user_files_insert_run (user_uuid file_uuid : string) (w : World) :
  cloudStorageUserFilesDAO.insert user_uuid file_uuid w =
    (Ok tt,
     set_user_files (cloud_storage_user_files w ++ [(user_uuid, file_uuid)])
       (log_events [UserFilesInsert user_uuid file_uuid] w)).
Proof. reflexivity. Qed.

Lemma configs_insert_orUpdate_run (user_uuid total_usage : string) (w : World) :
  cloudStorageConfigsDAO.insert_orUpdate user_uuid total_usage w =
    (Ok tt,
     set_configs (<[user_uuid := total_usage]> (cloud_storage_configs w))
       (log_events [ConfigsInsertOrUpdate user_uuid total_usage] w)).
Proof. reflexivity. Qed.

Lemma emit_run (e : Event) (w : World) : emit e w = (Ok tt, log_events [e] w).
Proof. reflexivity. Qed.

(** Closes [w1 = w2] for two worlds built from the same one, field by
    field; the traces are equal up to the bracketing of [++]. *)
Ltac read_world :=
  cbn [now uuids uuidCount redis cloud_storage_configs cloud_storage_files
       cloud_storage_user_files directoryMissing ossMissing trace
       log_events set_trace set_uuidCount set_redis set_configs set_files
       set_user_files set_now].

Ltac same_world :=
  apply World_ext; read_world;
  [ reflexivity .. | repeat (rewrite <- app_assoc; cbn [app]); reflexivity ].

Lemma run_Ok {A : Type} (m : M A) (w : World) (a : A) :
  fst (m w) = Ok a -> m w = (Ok a, snd (m w)).
Proof. destruct (m w) as [r w']. simpl. intros ->. reflexivity. Qed.

(** The cap of the scan does not change the comparison with the limit. *)
Lemma capped_count {A : Type} (c : Z) (l : list A) :
  (Z.of_nat (length (take (Z.to_nat (c + 1)) l)) >=? c) = (c <=? Z.of_nat (length l)).
Proof.
  rewrite length_take, Z.geb_leb.
  destruct (Z.leb_spec c (Z.of_nat (length l))); [apply Z.leb_le | apply Z.leb_gt]; lia.
Qed.

Section Runs.

Context (env : Env) (userUUID : string).


Lemma assertConcurrentLimit_run (w : World) :
  assertConcurrentLimit env userUUID w =
    (if CloudStorage_concurrent env <=? liveCount userUUID w
     then Throw UploadConcurrentLimit else Ok tt,
     log_events [scanEvent env userUUID] w).
Proof.
  unfold assertConcurrentLimit, bind, RedisService.scan, bind, emit, gets, ret.
  cbv beta iota.
  change (RedisService.keys (set_trace _ w) ?p) with (RedisService.keys w p).
  rewrite capped_count.
  unfold liveCount, liveSessions, scanEvent, sessionKey.
  destruct (_ <=? _); reflexivity.
Qed.

Lemma getTotalUsageByUpdated_run (currentFileSize : JS.number) (w : World) :
  getTotalUsageByUpdated env userUUID currentFileSize w =
    let totalUsage := JS.add (JS.Num (durableUsage userUUID w)) currentFileSize in
    if JS.gt totalUsage (JS.Num (CloudStorage_totalSize env))
    then (Throw NotEnoughTotalUsage,
          log_events [ConfigsFindOne userUUID;
                      LoggerInfo "totalUsage > CloudStorage.totalSize"] w)
    else (Ok totalUsage, log_events [ConfigsFindOne userUUID] w).
Proof.
  unfold getTotalUsageByUpdated, bind, cloudStorageConfigsDAO.findOne, bind, emit, gets.
  cbv beta iota zeta.
  change (cloud_storage_configs (set_trace _ w)) with (cloud_storage_configs w).
  rewrite or_number_zero. unfold durableUsage.
  destruct (JS.gt _ _); [|reflexivity].
  unfold logger_info, emit, throw. cbv beta iota.
  unfold log_events, set_trace. simpl. rewrite <- app_assoc. reflexivity.
Qed.

Lemma reduce_sizes_run (ks : list RKey) (acc : JS.number) (w : World) :
  reduce
    (fun accFileSize current =>
       let* currentFileSize := RedisService.hmget current "fileSize" in
       ret (JS.add accFileSize (JS.or_number (JS.Number currentFileSize) (JS.Num 0))))
    ks acc w
  = (Ok (JS.add acc (JS.Num (sumDeclared w ks))), log_events (map RedisHmget ks) w).
Proof.
  revert acc w. induction ks as [|k ks IH]; intros acc w.
  - simpl. unfold ret, log_events, set_trace. simpl.
    rewrite app_nil_r. destruct w, acc as [|b]; simpl; [reflexivity|].
    rewrite Z.add_0_r. reflexivity.
  - simpl reduce. unfold bind at 1. unfold bind at 1.
    unfold RedisService.hmget at 1. unfold bind, emit, gets, ret. cbv beta iota.
    change (set_trace (trace w ++ [RedisHmget k]) w) with (log_events [RedisHmget k] w).
    change (RedisService.field (log_events [RedisHmget k] w) k "fileSize")
      with (RedisService.field w k "fileSize").
    rewrite or_number_zero.
    specialize (IH (JS.add acc (JS.Num (numberOrZero (RedisService.field w k "fileSize"))))
                  (log_events [RedisHmget k] w)).
    unfold bind, emit, gets, ret in IH. rewrite IH.
    rewrite log_events_app.
    change (sumDeclared (log_events [RedisHmget k] w) ks) with (sumDeclared w ks).
    f_equal. f_equal.
    change (sumDeclared w (k :: ks)) with (declaredSize w k + sumDeclared w ks).
    unfold declaredSize.
    destruct acc as [|b]; [reflexivity|]. unfold JS.add. f_equal. lia.
Qed.

Lemma assertConcurrentFileSize_run (totalUsage : JS.number) (w : World) :
  assertConcurrentFileSize env userUUID totalUsage w =
    let total := JS.add totalUsage (JS.Num (sumDeclared w (uploadingFiles env userUUID w))) in
    let evs := scanEvent env userUUID :: map RedisHmget (uploadingFiles env userUUID w) in
    if JS.gt total (JS.Num (CloudStorage_totalSize env))
    then (Throw NotEnoughTotalUsage,
          log_events (evs ++ [LoggerInfo "uploadingFileTotalSize > CloudStorage.totalSize"]) w)
    else (Ok tt, log_events evs w).
Proof.
  unfold assertConcurrentFileSize.
  unfold bind at 1. unfold RedisService.scan. unfold bind at 1 2 3, emit, gets, ret.
  cbv beta iota zeta.
  change (set_trace (trace w ++ [?e]) w) with (log_events [e] w).
  change (RedisService.keys (log_events _ w) ?p) with (RedisService.keys w p).
  unfold bind at 1. rewrite reduce_sizes_run. rewrite log_events_app.
  change (sumDeclared (log_events _ w) ?ks) with (sumDeclared w ks).
  unfold uploadingFiles, liveSessions, scanEvent, sessionKey. simpl app.
  destruct (JS.gt _ _); [|reflexivity].
  unfold logger_info, bind, emit, throw. cbv beta iota.
  change (set_trace (trace ?w0 ++ [?e]) ?w0) with (log_events [e] w0).
  rewrite log_events_app. reflexivity.
Qed.

Lemma directory_assertExists_run (directoryPath : string) (w : World) :
  CloudStorageDirectoryService.assertExists userUUID directoryPath w =
    (match directoryMissing w userUUID directoryPath with
     | Some e => Throw e
     | None => Ok tt
     end,
     log_events [DirectoryAssertExists userUUID directoryPath] w).
Proof.
  unfold CloudStorageDirectoryService.assertExists, bind, emit, gets. cbv beta iota.
  change (directoryMissing (set_trace _ w)) with (directoryMissing w).
  destruct (directoryMissing w userUUID directoryPath); reflexivity.
Qed.

Lemma oss_assertExists_run (filePath : string) (w : World) :
  oss.assertExists filePath w =
    (match ossMissing w filePath with
     | Some e => Throw e
     | None => Ok tt
     end,
     log_events [OssAssertExists filePath] w).
Proof.
  unfold oss.assertExists, bind, emit, gets. cbv beta iota.
  change (ossMissing (set_trace _ w)) with (ossMissing w).
  destruct (ossMissing w filePath); reflexivity.
Qed.

Lemma generateOSSFilePath_run (fileName fileUUID : string) (w : World) :
  generateOSSFilePath env fileName fileUUID w =
    (Ok (ossFilePathAt env (now w) fileName fileUUID), w).
Proof. reflexivity. Qed.

Lemma getFileInfoByRedis_run (fileUUID : string) (w : World) :
  getFileInfoByRedis userUUID fileUUID w =
    if sessionInvalid userUUID w fileUUID
    then (Throw FileNotFound,
          log_events [RedisHmget (sessionKey userUUID fileUUID);
                      LoggerInfo "not found file in redis"] w)
    else (Ok (sessionInfo userUUID w fileUUID),
          log_events [RedisHmget (sessionKey userUUID fileUUID)] w).
Proof.
  unfold getFileInfoByRedis, bind, RedisService.hmget_all, bind, emit, gets.
  cbv beta iota zeta.
  change (RedisService.field (set_trace _ w)) with (RedisService.field w).
  unfold index, map, nth.
  change (set_trace (trace w ++ [?e]) w) with (log_events [e] w).
  unfold sessionInvalid, sessionInfo, sessionFileSize, sessionField, sessionKey.
  destruct (_ || _); [|reflexivity].
  unfold logger_info, emit, throw. cbv beta iota.
  change (set_trace (trace ?w0 ++ [?e]) ?w0) with (log_events [e] w0).
  rewrite log_events_app. reflexivity.
Qed.

End Runs.

Section ServiceRuns.

Context (env : Env) (userUUID : string).

(** [start], case by case. *)
Lemma start_run (config : StartConfig.t) (w : World) :
  start env userUUID config w =
    if CloudStorage_concurrent env <=? liveCount userUUID w then
      (Throw UploadConcurrentLimit, log_events [scanEvent env userUUID] w)
    else
      let totalUsage :=
        JS.add (JS.Num (durableUsage userUUID w)) (StartConfig.fileSize config) in
      if JS.gt totalUsage (JS.Num (CloudStorage_totalSize env)) then
        (Throw NotEnoughTotalUsage,
         log_events [scanEvent env userUUID; ConfigsFindOne userUUID;
                     LoggerInfo "totalUsage > CloudStorage.totalSize"] w)
      else if JS.gt (JS.add totalUsage
                       (JS.Num (sumDeclared w (uploadingFiles env userUUID w))))
                    (JS.Num (CloudStorage_totalSize env)) then
        (Throw NotEnoughTotalUsage,
         log_events ([scanEvent env userUUID; ConfigsFindOne userUUID; scanEvent env userUUID]
                     ++ map RedisHmget (uploadingFiles env userUUID w)
                     ++ [LoggerInfo "uploadingFileTotalSize > CloudStorage.totalSize"]) w)
      else
        match directoryMissing w userUUID (StartConfig.targetDirectoryPath config) with
        | Some e => (Throw e, log_events (startCheckEvents env userUUID config w) w)
        | None => (Ok (startReturn env config w), startedWorld env userUUID config w)
        end.
Proof.
  unfold start. cbv zeta.
  unfold bind at 1. rewrite assertConcurrentLimit_run.
  destruct (CloudStorage_concurrent env <=? liveCount userUUID w); [reflexivity|].
  unfold bind at 1. rewrite getTotalUsageByUpdated_run. cbv zeta.
  change (durableUsage userUUID (log_events _ w)) with (durableUsage userUUID w).
  destruct (JS.gt (JS.add _ (StartConfig.fileSize config)) _).
  { rewrite log_events_app. reflexivity. }
  rewrite log_events_app.
  unfold bind at 1. rewrite assertConcurrentFileSize_run. cbv zeta.
  change (uploadingFiles env userUUID (log_events _ w)) with (uploadingFiles env userUUID w).
  change (sumDeclared (log_events _ w) ?ks) with (sumDeclared w ks).
  destruct (JS.gt (JS.add (JS.add _ _) _) _).
  { rewrite log_events_app. reflexivity. }
  rewrite log_events_app.
  unfold bind at 1. rewrite directory_assertExists_run.
  change (directoryMissing (log_events _ w)) with (directoryMissing w).
  rewrite log_events_app.
  destruct (directoryMissing w userUUID (StartConfig.targetDirectoryPath config)).
  { unfold startCheckEvents. simpl app. reflexivity. }
  unfold bind at 1. rewrite v4_run.
  unfold bind at 1. rewrite hmset_run.
  unfold bind at 1. rewrite generateOSSFilePath_run.
  unfold bind at 1. rewrite emit_run.
  unfold ret. f_equal. unfold startedWorld, startCheckEvents. same_world.
Qed.

(** [finish], case by case. *)
Lemma finish_run (fileUUID : string) (w : World) :
  finish env userUUID fileUUID w =
    let info := sessionInfo userUUID w fileUUID in
    let key := sessionKey userUUID fileUUID in
    let dir := FileInfo.targetDirectoryPath info in
    let ossFilePath := ossFilePathAt env (now w) (FileInfo.fileName info) fileUUID in
    if sessionInvalid userUUID w fileUUID then
      (Throw FileNotFound,
       log_events [RedisHmget key; LoggerInfo "not found file in redis"] w)
    else
      match directoryMissing w userUUID dir with
      | Some e =>
          (Throw e, log_events [RedisHmget key; DirectoryAssertExists userUUID dir] w)
      | None =>
          match ossMissing w ossFilePath with
          | Some e =>
              (Throw e,
               log_events [RedisHmget key; DirectoryAssertExists userUUID dir;
                           OssAssertExists ossFilePath] w)
          | None =>
              if JS.gt (finishedUsage userUUID w fileUUID)
                       (JS.Num (CloudStorage_totalSize env))
              then
                (Throw NotEnoughTotalUsage,
                 log_events (finishCheckEvents env userUUID w fileUUID
                             ++ [LoggerInfo "totalUsage > CloudStorage.totalSize"]) w)
              else (Ok tt, finishedWorld env userUUID w fileUUID)
          end
      end.
Proof.
  unfold finish. cbv zeta.
  unfold bind at 1. rewrite getFileInfoByRedis_run.
  destruct (sessionInvalid userUUID w fileUUID); [reflexivity|].
  unfold bind at 1. rewrite directory_assertExists_run. rewrite log_events_app.
  change (directoryMissing (log_events _ w)) with (directoryMissing w).
  destruct (directoryMissing w userUUID _); [reflexivity|].
  unfold bind at 1. rewrite generateOSSFilePath_run.
  change (now (log_events _ w)) with (now w).
  unfold bind at 1. rewrite oss_assertExists_run. rewrite log_events_app.
  change (ossMissing (log_events _ w)) with (ossMissing w).
  destruct (ossMissing w _); [reflexivity|].
  unfold bind at 1. rewrite getTotalUsageByUpdated_run. cbv zeta.
  rewrite !log_events_app.
  change (durableUsage userUUID (log_events _ w)) with (durableUsage userUUID w).
  unfold finishedUsage.
  change (sessionFileSize userUUID w fileUUID)
    with (FileInfo.fileSize (sessionInfo userUUID w fileUUID)).
  destruct (JS.gt _ _); [reflexivity|].
  unfold bind at 1. unfold insertFile. unfold bind at 1.
  rewrite files_insert_run, user_files_insert_run.
  unfold bind at 1. unfold updateTotalUsage. rewrite configs_insert_orUpdate_run.
  rewrite del_run. f_equal. unfold finishedWorld, finishCheckEvents. same_world.
Qed.

End ServiceRuns.

(* ===================================================================== *)
(** ** The checks of [start] *)
(* ===================================================================== *)

Lemma gt_Num (x y : Z) : JS.gt (JS.Num x) (JS.Num y) = (y <? x).
Proof. reflexivity. Qed.

(** C1, as stated, fails: a [start] with [fileSize > 0] whose durable usage
    plus [fileSize] exceeds [totalSizeLimit] does not reject with
    [NotEnoughTotalUsage] when the user already has [concurrentLimit]
    uploads in flight; the concurrency check comes first and decides the
    error. *)
Lemma start_over_capacity_at_concurrent_limit :
  0 < 1000
  /\ CloudStorage_totalSize (Demo.env 3 0) < durableUsage Demo.user Demo.busy + 1000
  /\ fst (start (Demo.env 3 0) Demo.user (Demo.upload "a.png" 1000) Demo.busy)
     = Throw UploadConcurrentLimit
  /\ fst (start (Demo.env 3 0) Demo.user (Demo.upload "a.png" 1000) Demo.busy)
     <> Throw NotEnoughTotalUsage.
Proof.
  split; [lia|]. split; [vm_compute; reflexivity|].
  assert (H : fst (start (Demo.env 3 0) Demo.user (Demo.upload "a.png" 1000) Demo.busy)
              = Throw UploadConcurrentLimit) by (vm_compute; reflexivity).
  split; [exact H|]. rewrite H. discriminate.
Qed.

(** C1, amended: for [fileSize > 0], with the limit, the usage record,
    [fileSize] and the projected total in the range of the number model
    (a usage record that is the decimal numeral of a safe integer, sums
    within the safe integers), the capacity check
    [getTotalUsageByUpdated] rejects with [NotEnoughTotalUsage] when the
    durable usage (0 without a usage record) plus [fileSize] is strictly
    greater than [totalSizeLimit], and otherwise returns that projected
    total; [start] rejects with [NotEnoughTotalUsage] in that case when
    the concurrency check has passed, and [finish] when the session was
    loaded, its size being a stored numeral, and the directory and the
    object were found. *)
Theorem capacity_check (env : Env) (userUUID : string) (w : World) (fileSize : Z)
    (Hsize : 0 < fileSize)
    (Hrange : usageInRange env userUUID (JS.Num fileSize) w = true) :
  let usage := durableUsage userUUID w in
  let limit := CloudStorage_totalSize env in
  fst (getTotalUsageByUpdated env userUUID (JS.Num fileSize) w)
    = (if limit <? usage + fileSize
       then Throw NotEnoughTotalUsage
       else Ok (JS.Num (usage + fileSize)))
  /\ (forall config : StartConfig.t,
        StartConfig.fileSize config = JS.Num fileSize ->
        liveCount userUUID w < CloudStorage_concurrent env ->
        limit < usage + fileSize ->
        fst (start env userUUID config w) = Throw NotEnoughTotalUsage)
  /\ (forall fileUUID : string,
        let info := sessionInfo userUUID w fileUUID in
        sessionInvalid userUUID w fileUUID = false ->
        storedInRange (sessionField userUUID w fileUUID "fileSize") = true ->
        FileInfo.fileSize info = JS.Num fileSize ->
        directoryMissing w userUUID (FileInfo.targetDirectoryPath info) = None ->
        ossMissing w (ossFilePathAt env (now w) (FileInfo.fileName info) fileUUID) = None ->
        limit < usage + fileSize ->
        fst (finish env userUUID fileUUID w) = Throw NotEnoughTotalUsage).
Proof.
  intros usage limit. split; [|split].
  - rewrite getTotalUsageByUpdated_run. cbv zeta. unfold JS.add. rewrite gt_Num.
    fold usage limit. destruct (limit <? usage + fileSize); reflexivity.
  - intros config Hcfg Hlive Hover. rewrite start_run.
    destruct (Z.leb_spec (CloudStorage_concurrent env) (liveCount userUUID w)); [lia|].
    cbv zeta. rewrite Hcfg. unfold JS.add at 1. rewrite gt_Num.
    destruct (Z.ltb_spec (CloudStorage_totalSize env) (durableUsage userUUID w + fileSize));
      [reflexivity|]. unfold usage, limit in Hover. lia.
  - intros fileUUID info Hvalid _ Hinfo Hdir Hoss Hover. rewrite finish_run. cbv zeta.
    fold info. rewrite Hvalid, Hdir, Hoss.
    unfold finishedUsage.
    change (sessionFileSize userUUID w fileUUID) with (FileInfo.fileSize info).
    rewrite Hinfo. unfold JS.add. rewrite gt_Num.
    destruct (Z.ltb_spec (CloudStorage_totalSize env) (durableUsage userUUID w + fileSize));
      [reflexivity|]. unfold usage, limit in Hover. lia.
Qed.

(** The three parts of [capacity_check] at work: 9500 bytes used, 1000
    more asked for, 10000 allowed. *)
Lemma capacity_check_witness :
  0 < 1000
  /\ usageInRange (Demo.env 3 0) Demo.user (JS.Num 1000) Demo.nearlyFull = true
  /\ fst (getTotalUsageByUpdated (Demo.env 3 0) Demo.user (JS.Num 1000) Demo.nearlyFull)
     = Throw NotEnoughTotalUsage
  /\ fst (start (Demo.env 3 0) Demo.user (Demo.upload "a.png" 1000) Demo.nearlyFull)
     = Throw NotEnoughTotalUsage
  /\ fst (finish (Demo.env 3 0) Demo.user "f1" Demo.uploadedNearlyFull)
     = Throw NotEnoughTotalUsage.
Proof.
  assert (Hr1 : usageInRange (Demo.env 3 0) Demo.user (JS.Num 1000) Demo.nearlyFull = true)
    by (vm_compute; reflexivity).
  assert (Hr2 : usageInRange (Demo.env 3 0) Demo.user (JS.Num 1000) Demo.uploadedNearlyFull
                = true) by (vm_compute; reflexivity).
  split; [lia|]. split; [exact Hr1|]. split; [|split].
  - exact (proj1 (capacity_check (Demo.env 3 0) Demo.user Demo.nearlyFull 1000 eq_refl Hr1)).
  - apply (proj1 (proj2 (capacity_check (Demo.env 3 0) Demo.user Demo.nearlyFull 1000
                           eq_refl Hr1)));
      vm_compute; reflexivity.
  - apply (proj2 (proj2 (capacity_check (Demo.env 3 0) Demo.user Demo.uploadedNearlyFull 1000
                           eq_refl Hr2)));
      vm_compute; reflexivity.
Defined.

(** C2, as stated, fails: between the capacity check of the claim
    (durable usage plus [fileSize]) and the directory check, [start] runs
    a further check, on that total plus the sizes declared by the uploads
    in flight, and its failure comes first.  With two uploads of 4000
    bytes in flight out of three allowed, nothing used, 3000 bytes asked
    for and the target directory missing, the capacity check passes, and
    [start] rejects with [NotEnoughTotalUsage], not with the failure of
    the directory check. *)
Lemma start_in_flight_check_before_directory :
  liveCount Demo.user Scenario.twoInFlightNoDirectory < CloudStorage_concurrent (Demo.env 3 0)
  /\ fst (getTotalUsageByUpdated (Demo.env 3 0) Demo.user (JS.Num 3000)
            Scenario.twoInFlightNoDirectory) = Ok (JS.Num 3000)
  /\ directoryMissing Scenario.twoInFlightNoDirectory Demo.user "/docs" = Some (OtherCode 1)
  /\ fst (start (Demo.env 3 0) Demo.user (Demo.upload "a.png" 3000)
            Scenario.twoInFlightNoDirectory) = Throw NotEnoughTotalUsage
  /\ fst (start (Demo.env 3 0) Demo.user (Demo.upload "a.png" 3000)
            Scenario.twoInFlightNoDirectory) <> Throw (OtherCode 1).
Proof.
  assert (H : fst (start (Demo.env 3 0) Demo.user (Demo.upload "a.png" 3000)
                     Scenario.twoInFlightNoDirectory) = Throw NotEnoughTotalUsage)
    by (vm_compute; reflexivity).
  split; [vm_compute; reflexivity|]. split; [vm_compute; reflexivity|].
  split; [reflexivity|]. split; [exact H|]. rewrite H. discriminate.
Qed.

(** C2, amended: [start] checks fail-fast and in order.  (1) With
    [concurrentLimit] or more live sessions, counted through the scan
    capped at [concurrentLimit + 1] keys, it rejects with
    [UploadConcurrentLimit] having made that scan and no other call, so
    before any capacity or directory check; (2) otherwise, when the
    durable usage plus [fileSize] exceeds the limit, it rejects with
    [NotEnoughTotalUsage] after the scan and the read of the usage; (3)
    otherwise, when that total plus the sizes declared by the sessions in
    flight exceeds the limit, it rejects with [NotEnoughTotalUsage]
    before the directory check; (4) otherwise a failure of the directory
    check is the error, unchanged.  The numbers of (2) to (4) are taken
    in the range of the number model. *)
Theorem start_fail_fast (env : Env) (userUUID : string) (config : StartConfig.t) (w : World) :
  let fileSize := StartConfig.fileSize config in
  let dir := StartConfig.targetDirectoryPath config in
  (CloudStorage_concurrent env <= Z.of_nat (length (uploadingFiles env userUUID w))
   <-> CloudStorage_concurrent env <= liveCount userUUID w)
  /\ (CloudStorage_concurrent env <= liveCount userUUID w ->
     start env userUUID config w
       = (Throw UploadConcurrentLimit, log_events [scanEvent env userUUID] w))
  /\ (liveCount userUUID w < CloudStorage_concurrent env ->
      usageInRange env userUUID fileSize w = true ->
      usageExceeded env userUUID fileSize w = true ->
      start env userUUID config w
        = (Throw NotEnoughTotalUsage,
           log_events [scanEvent env userUUID; ConfigsFindOne userUUID;
                       LoggerInfo "totalUsage > CloudStorage.totalSize"] w))
  /\ (liveCount userUUID w < CloudStorage_concurrent env ->
      startInRange env userUUID fileSize w = true ->
      usageExceeded env userUUID fileSize w = false ->
      inFlightExceeded env userUUID fileSize w = true ->
      exists evs,
        start env userUUID config w = (Throw NotEnoughTotalUsage, log_events evs w)
        /\ forallb (fun e => negb (isDirectoryCheck e)) evs = true)
  /\ (liveCount userUUID w < CloudStorage_concurrent env ->
      startInRange env userUUID fileSize w = true ->
      usageExceeded env userUUID fileSize w = false ->
      inFlightExceeded env userUUID fileSize w = false ->
      forall e, directoryMissing w userUUID dir = Some e ->
        fst (start env userUUID config w) = Throw e).
Proof.
  intros fileSize dir. split.
  { unfold uploadingFiles, liveCount. rewrite length_take. lia. }
  rewrite start_run. cbv zeta. unfold usageExceeded, inFlightExceeded.
  fold fileSize dir.
  destruct (Z.leb_spec (CloudStorage_concurrent env) (liveCount userUUID w)) as [Hge|Hlt].
  - split; [reflexivity|]. repeat split; intros; lia.
  - split; [intros; lia|].
    destruct (JS.gt (JS.add (JS.Num (durableUsage userUUID w)) fileSize) _) eqn:Hfirst.
    + split; [reflexivity|]. split; intros _ _ H; discriminate H.
    + split; [intros _ _ H; discriminate H|].
      destruct (JS.gt (JS.add (JS.add _ _) _) _) eqn:Hsecond.
      * split; [|intros _ _ _ H; discriminate H].
        intros _ _ _ _. eexists. split; [reflexivity|].
        cbn [app forallb isDirectoryCheck negb andb].
        rewrite forallb_app. cbn [forallb isDirectoryCheck negb andb].
        rewrite andb_true_r. apply forallb_forall.
        intros e He. apply in_map_iff in He as (k & <- & _). reflexivity.
      * split; [intros _ _ _ H; discriminate H|].
        intros _ _ _ _ e He. rewrite He. reflexivity.
Qed.

(** The cases of [start_fail_fast]: three uploads in flight out of
    three; no room left; no room left once the uploads in flight are
    counted; the directory gone. *)
Lemma start_fail_fast_witness :
  fst (start (Demo.env 3 0) Demo.user (Demo.upload "a.png" 1000) Demo.busy)
    = Throw UploadConcurrentLimit
  /\ fst (start (Demo.env 3 0) Demo.user (Demo.upload "a.png" 1000) Demo.nearlyFull)
    = Throw NotEnoughTotalUsage
  /\ fst (start (Demo.env 3 0) Demo.user (Demo.upload "a.png" 3000)
            Scenario.twoInFlightNoDirectory)
    = Throw NotEnoughTotalUsage
  /\ fst (start (Demo.env 3 0) Demo.user (Demo.upload "a.png" 1000) Demo.orphaned)
    = Throw (OtherCode 1).
Proof.
  split; [|split; [|split]].
  - rewrite (proj1 (proj2 (start_fail_fast (Demo.env 3 0) Demo.user
                             (Demo.upload "a.png" 1000) Demo.busy)));
      [reflexivity | vm_compute; discriminate].
  - rewrite (proj1 (proj2 (proj2 (start_fail_fast (Demo.env 3 0) Demo.user
                                    (Demo.upload "a.png" 1000) Demo.nearlyFull))));
      [reflexivity | vm_compute; reflexivity ..].
  - destruct (proj1 (proj2 (proj2 (proj2 (start_fail_fast (Demo.env 3 0) Demo.user
                                            (Demo.upload "a.png" 3000)
                                            Scenario.twoInFlightNoDirectory)))))
      as (evs & -> & _); [vm_compute; reflexivity .. | reflexivity].
  - apply (proj2 (proj2 (proj2 (proj2 (start_fail_fast (Demo.env 3 0) Demo.user
                                         (Demo.upload "a.png" 1000) Demo.orphaned)))));
      vm_compute; reflexivity.
Defined.

(** C9: a [start] that rejects, for whatever reason, has written no
    session and no durable record: the EphemeralStore and the three
    tables are as they were, and none of its calls was a write. *)
Theorem start_reject_writes_nothing (env : Env) (userUUID : string)
    (config : StartConfig.t) (w w' : World) (e : ErrorCode)
    (Hreject : start env userUUID config w = (Throw e, w')) :
  redis w' = redis w
  /\ cloud_storage_configs w' = cloud_storage_configs w
  /\ cloud_storage_files w' = cloud_storage_files w
  /\ cloud_storage_user_files w' = cloud_storage_user_files w
  /\ exists evs : list Event, trace w' = (trace w ++ evs)%list /\ forallb (fun ev => negb (isWrite ev)) evs = true.
Proof.
  assert (Hlog : exists evs : list Event, w' = log_events evs w
                   /\ forallb (fun ev => negb (isWrite ev)) evs = true).
  { rewrite start_run in Hreject. cbv zeta in Hreject.
    assert (Hhm : forall ks : list RKey,
               forallb (fun ev => negb (isWrite ev)) (map RedisHmget ks) = true).
    { intros ks. apply forallb_forall. intros ev Hev.
      apply in_map_iff in Hev as (k & <- & _). reflexivity. }
    repeat match type of Hreject with
           | (if ?c then _ else _) = _ => destruct c
           | match ?c with Some _ => _ | None => _ end = _ => destruct c
           end;
      inversion Hreject; subst; eexists; (split; [reflexivity|]);
      unfold startCheckEvents;
      cbn [app forallb isWrite negb andb];
      try rewrite forallb_app; try rewrite Hhm; reflexivity. }
  destruct Hlog as (evs & -> & Hevs).
  repeat split; try reflexivity. exists evs. split; [reflexivity | exact Hevs].
Qed.

(** [start_reject_writes_nothing] on the rejection for lack of room. *)
Lemma start_reject_writes_nothing_witness :
  let w' := snd (start (Demo.env 3 0) Demo.user (Demo.upload "a.png" 1000) Demo.nearlyFull) in
  redis w' = redis Demo.nearlyFull
  /\ cloud_storage_configs w' = cloud_storage_configs Demo.nearlyFull
  /\ cloud_storage_files w' = cloud_storage_files Demo.nearlyFull
  /\ cloud_storage_user_files w' = cloud_storage_user_files Demo.nearlyFull
  /\ exists evs : list Event, trace w' = (trace Demo.nearlyFull ++ evs)%list
                 /\ forallb (fun ev => negb (isWrite ev)) evs = true.
Proof.
  apply (start_reject_writes_nothing (Demo.env 3 0) Demo.user (Demo.upload "a.png" 1000)
           Demo.nearlyFull _ NotEnoughTotalUsage).
  rewrite start_run. reflexivity.
Defined.

(* ===================================================================== *)
(** ** [finish] *)
(* ===================================================================== *)

Lemma field_not_undefined (w : World) (key : RKey) (f : string) :
  RedisService.field w key f <> JS.VUndefined.
Proof.
  unfold RedisService.field. destruct (RedisService.live w key) as [h|]; [|discriminate].
  destruct (h !! f); discriminate.
Qed.

Lemma falsy_field (w : World) (key : RKey) (f : string) :
  JS.truthy (RedisService.field w key f) = false <-> fieldMissing (RedisService.field w key f).
Proof.
  pose proof (field_not_undefined w key f) as Hu. unfold fieldMissing.
  destruct (RedisService.field w key f) as [| |[|c s]]; simpl; split;
    intros H; try congruence; auto; destruct H; congruence.
Qed.

Lemma size_not_a_number (v : JS.value) :
  v <> JS.VUndefined ->
  JS.isNaN (JS.Number (JS.or_value v JS.VUndefined)) = true
  <-> fieldMissing v \/ notANumber v.
Proof.
  intros Hu. unfold fieldMissing, notANumber.
  destruct v as [| |[|c s]]; [congruence| | |].
  - simpl. split; auto.
  - simpl. split; auto.
  - unfold JS.or_value. cbn [JS.truthy JS.Number]. split.
    + intros H. right. exists (String c s). split; [reflexivity|].
      destruct (JS.StringToNumber (String c s)); [reflexivity | discriminate].
    + intros [[H|H] | (s' & H & Hs')]; try discriminate.
      injection H as <-. rewrite Hs'. reflexivity.
Qed.

(** What makes a session invalid, in words. *)
Lemma sessionInvalid_iff (userUUID : string) (w : World) (fileUUID : string) :
  sessionInvalid userUUID w fileUUID = true
  <-> fieldMissing (sessionField userUUID w fileUUID "fileName")
      \/ fieldMissing (sessionField userUUID w fileUUID "fileSize")
      \/ notANumber (sessionField userUUID w fileUUID "fileSize")
      \/ fieldMissing (sessionField userUUID w fileUUID "targetDirectoryPath")
      \/ fieldMissing (sessionField userUUID w fileUUID "fileResourceType").
Proof.
  unfold sessionInvalid, sessionFileSize.
  rewrite !orb_true_iff, !negb_true_iff.
  unfold sessionField. rewrite !falsy_field.
  rewrite (size_not_a_number _ (field_not_undefined _ _ _)). tauto.
Qed.

(** A key that is absent or has expired holds no session. *)
Lemma sessionInvalid_dead (userUUID : string) (w : World) (fileUUID : string) :
  RedisService.live w (sessionKey userUUID fileUUID) = None ->
  sessionInvalid userUUID w fileUUID = true.
Proof.
  intros H. unfold sessionInvalid, sessionField, RedisService.field. rewrite H. reflexivity.
Qed.

Lemma sessionValid_size (userUUID : string) (w : World) (fileUUID : string) :
  sessionInvalid userUUID w fileUUID = false ->
  exists fileSize : Z, sessionFileSize userUUID w fileUUID = JS.Num fileSize.
Proof.
  unfold sessionInvalid. rewrite !orb_false_iff. intros [[[_ H] _] _].
  destruct (sessionFileSize userUUID w fileUUID) as [|z]; [discriminate|]. eauto.
Qed.

Lemma existsb_eqb_In (x : string) (l : list string) :
  existsb (String.eqb x) l = true <-> In x l.
Proof.
  rewrite existsb_exists. split.
  - intros (y & Hy & Heq). apply String.eqb_eq in Heq. subst. exact Hy.
  - intros H. exists x. split; [exact H | apply String.eqb_refl].
Qed.

(** A [finish] that fulfils ran through all its checks. *)
Lemma finish_Ok_inv (env : Env) (userUUID fileUUID : string) (w w' : World) :
  finish env userUUID fileUUID w = (Ok tt, w') ->
  sessionInvalid userUUID w fileUUID = false /\ w' = finishedWorld env userUUID w fileUUID.
Proof.
  rewrite finish_run. cbv zeta.
  destruct (sessionInvalid userUUID w fileUUID); [discriminate|].
  destruct (directoryMissing w userUUID _); [discriminate|].
  destruct (ossMissing w _); [discriminate|].
  destruct (JS.gt _ _); [discriminate|].
  intros H. injection H as <-. split; reflexivity.
Qed.

(** C3: after a [finish] that completes, the numbers being in the range
    of the number model (the size of the session and the usage record
    are stored numerals, their sum a safe integer), the user's usage is
    the usage read plus the size of the session; a row of [cloud_storage_files]
    with that [fileUUID] and the link [(userUUID, fileUUID)] were
    inserted, the payload being [{region, convertStep}] when the resource
    type is one of [whiteboardResourceType] and [{}] otherwise; and the
    session is gone, so a second [finish] of the same [fileUUID] rejects
    with [FileNotFound]. *)
Theorem finish_success (env : Env) (userUUID fileUUID : string) (w w' : World)
    (Hok : finish env userUUID fileUUID w = (Ok tt, w'))
    (Hrange : finishInRange env userUUID fileUUID w = true) :
  let info := sessionInfo userUUID w fileUUID in
  exists (fileSize : Z) (row : FileRow.t),
    FileInfo.fileSize info = JS.Num fileSize
    /\ durableUsage userUUID w' = durableUsage userUUID w + fileSize
    /\ cloud_storage_files w' = (cloud_storage_files w ++ [row])%list
    /\ FileRow.file_uuid row = fileUUID
    /\ FileRow.file_name row = FileInfo.fileName info
    /\ FileRow.file_size row = JS.Num fileSize
    /\ FileRow.directory_path row = FileInfo.targetDirectoryPath info
    /\ FileRow.resource_type row = FileInfo.fileResourceType info
    /\ (In (FileInfo.fileResourceType info) (whiteboardResourceType env) ->
        FileRow.payload row
          = ConvertPayload (Whiteboard_convertRegion env) (FileConvertStep_None env))
    /\ (~ In (FileInfo.fileResourceType info) (whiteboardResourceType env) ->
        FileRow.payload row = EmptyPayload)
    /\ cloud_storage_user_files w'
       = (cloud_storage_user_files w ++ [(userUUID, fileUUID)])%list
    /\ redis w' !! sessionKey userUUID fileUUID = None
    /\ fst (finish env userUUID fileUUID w') = Throw FileNotFound.
Proof.
  intros info. apply finish_Ok_inv in Hok as [Hvalid ->].
  destruct (sessionValid_size _ _ _ Hvalid) as [fileSize Hsize].
  exists fileSize, (finishedRow env userUUID w fileUUID).
  assert (Hgone : redis (finishedWorld env userUUID w fileUUID)
                    !! sessionKey userUUID fileUUID = None).
  { unfold finishedWorld. cbn [redis]. apply lookup_delete_eq. }
  repeat split.
  - exact Hsize.
  - unfold durableUsage at 1, finishedWorld. cbn [cloud_storage_configs].
    rewrite lookup_insert_eq. unfold finishedUsage. rewrite Hsize. unfold JS.add.
    apply numberOrZero_toString.
  - exact Hsize.
  - intros Hin. unfold finishedRow. cbn [FileRow.payload]. unfold generateFilePayload.
    apply existsb_eqb_In in Hin. fold info. rewrite Hin. reflexivity.
  - intros Hnin. unfold finishedRow. cbn [FileRow.payload]. unfold generateFilePayload.
    fold info.
    destruct (existsb _ _) eqn:E; [|reflexivity].
    apply existsb_eqb_In in E. contradiction.
  - exact Hgone.
  - rewrite finish_run. cbv zeta. rewrite sessionInvalid_dead; [reflexivity|].
    unfold RedisService.live. rewrite Hgone. reflexivity.
Qed.

(** [finish_success] on the upload of 1000 bytes whose object is in
    place. *)
Lemma finish_success_witness :
  let w' := snd (finish (Demo.env 3 0) Demo.user "f1" Demo.uploaded) in
  finish (Demo.env 3 0) Demo.user "f1" Demo.uploaded = (Ok tt, w')
  /\ finishInRange (Demo.env 3 0) Demo.user "f1" Demo.uploaded = true
  /\ durableUsage Demo.user w' = 0 + 1000
  /\ fst (finish (Demo.env 3 0) Demo.user "f1" w') = Throw FileNotFound.
Proof.
  intros w'.
  assert (Hok : finish (Demo.env 3 0) Demo.user "f1" Demo.uploaded = (Ok tt, w')).
  { subst w'. rewrite finish_run. reflexivity. }
  assert (Hrange : finishInRange (Demo.env 3 0) Demo.user "f1" Demo.uploaded = true)
    by (vm_compute; reflexivity).
  split; [exact Hok|]. split; [exact Hrange|].
  destruct (finish_success _ _ _ _ _ Hok Hrange)
    as (fileSize & row & Hsize & Husage & _ & _ & _ & _ & _ & _ & _ & _ & _ & _ & Hagain).
  split; [|exact Hagain].
  rewrite Husage. f_equal.
  assert (Hs : FileInfo.fileSize (sessionInfo Demo.user Demo.uploaded "f1") = JS.Num 1000)
    by (vm_compute; reflexivity).
  rewrite Hs in Hsize. injection Hsize as <-. reflexivity.
Defined.

(** C6, as stated, fails in the "only if" direction: a [finish] can
    reject with [FileNotFound] although the session is complete and its
    size is a number, because the failure of a collaborator is passed on
    unchanged and may carry that same code.  Here the session is valid
    and the ObjectStore answers [FileNotFound] for the missing object. *)
Lemma finish_FileNotFound_with_valid_session :
  sessionInvalid Demo.user (Demo.notUploaded FileNotFound) "f1" = false
  /\ fst (getFileInfoByRedis Demo.user "f1" (Demo.notUploaded FileNotFound))
     = Ok (sessionInfo Demo.user (Demo.notUploaded FileNotFound) "f1")
  /\ fst (finish (Demo.env 3 0) Demo.user "f1" (Demo.notUploaded FileNotFound))
     = Throw FileNotFound.
Proof. repeat split; vm_compute; reflexivity. Qed.

(** C6, amended: for a session whose [fileSize] field is missing,
    empty or a printed numeral (["NaN"] or the decimal numeral of a safe
    integer, what [start] writes), loading the session rejects with
    [FileNotFound] if and only if one of the four fields is missing or
    empty or [fileSize] is not a number; in that case, in particular for
    a [fileUUID] that was never issued or whose session has expired (the
    20 minutes after its [start] have passed), [finish] rejects with
    [FileNotFound] having made no other call than the read and the log
    line; and a [finish] that rejects with [FileNotFound] on a valid
    session passes on that code from the directory check or from the
    ObjectStore. *)
Theorem finish_session_check (env : Env) (userUUID fileUUID : string) (w : World)
    (Hrange : storedInRange (sessionField userUUID w fileUUID "fileSize") = true) :
  let key := sessionKey userUUID fileUUID in
  let info := sessionInfo userUUID w fileUUID in
  let field := sessionField userUUID w fileUUID in
  let invalid :=
    fieldMissing (field "fileName")
    \/ fieldMissing (field "fileSize") \/ notANumber (field "fileSize")
    \/ fieldMissing (field "targetDirectoryPath")
    \/ fieldMissing (field "fileResourceType") in
  (fst (getFileInfoByRedis userUUID fileUUID w) = Throw FileNotFound <-> invalid)
  /\ (invalid ->
      finish env userUUID fileUUID w
        = (Throw FileNotFound,
           log_events [RedisHmget key; LoggerInfo "not found file in redis"] w))
  /\ (redis w !! key = None -> invalid)
  /\ (forall h expireAt, redis w !! key = Some (h, expireAt) -> expireAt <= now w -> invalid)
  /\ (forall config r w1 t,
        start env userUUID config w = (Ok r, w1) ->
        now w + 20 * 60 * 1000 <= t ->
        fst (finish env userUUID (StartReturn.fileUUID r) (set_now t w1))
          = Throw FileNotFound)
  /\ (fst (finish env userUUID fileUUID w) = Throw FileNotFound ->
      invalid
      \/ directoryMissing w userUUID (FileInfo.targetDirectoryPath info) = Some FileNotFound
      \/ ossMissing w (ossFilePathAt env (now w) (FileInfo.fileName info) fileUUID)
         = Some FileNotFound).
Proof.
  intros key info field invalid.
  pose proof (sessionInvalid_iff userUUID w fileUUID) as Hiff.
  fold field in Hiff. fold invalid in Hiff.
  assert (Hdead : RedisService.live w key = None -> invalid).
  { intros H. apply Hiff, sessionInvalid_dead, H. }
  repeat split.
  - rewrite getFileInfoByRedis_run.
    destruct (sessionInvalid userUUID w fileUUID); [intros _; apply Hiff; reflexivity|].
    discriminate.
  - intros H. apply Hiff in H. rewrite getFileInfoByRedis_run, H. reflexivity.
  - intros H. apply Hiff in H. rewrite finish_run. cbv zeta. rewrite H. reflexivity.
  - intros H. apply Hdead. unfold RedisService.live. rewrite H. reflexivity.
  - intros h expireAt H Hexp. apply Hdead. unfold RedisService.live. rewrite H.
    destruct (Z.ltb_spec (now w) expireAt); [lia | reflexivity].
  - intros config r w1 t Hstart Ht. rewrite start_run in Hstart. cbv zeta in Hstart.
    repeat match type of Hstart with
           | (if ?c then _ else _) = _ => destruct c; try discriminate Hstart
           | match ?c with Some _ => _ | None => _ end = _ =>
               destruct c; try discriminate Hstart
           end.
    injection Hstart as <- <-.
    rewrite finish_run. cbv zeta. rewrite sessionInvalid_dead; [reflexivity|].
    unfold RedisService.live, startedWorld, startReturn, set_now.
    cbn [redis now StartReturn.fileUUID]. rewrite lookup_insert_eq.
    destruct (Z.ltb_spec t (now w + 60 * 20 * 1000)); [lia | reflexivity].
  - rewrite finish_run. cbv zeta. fold info.
    destruct (sessionInvalid userUUID w fileUUID) eqn:Hinv.
    { intros _. left. apply Hiff. reflexivity. }
    destruct (directoryMissing w userUUID _) as [e|].
    { cbn [fst]. intros H. injection H as ->. right. left. reflexivity. }
    destruct (ossMissing w _) as [e|].
    { cbn [fst]. intros H. injection H as ->. right. right. reflexivity. }
    destruct (JS.gt _ _); cbn [fst]; discriminate.
Qed.

(** [finish_session_check] on an identifier that was never issued, on
    a session whose size is not a number, and on an upload finished 20
    minutes after its [start]. *)
Lemma finish_session_check_witness :
  fst (finish (Demo.env 3 0) Demo.user "forged" Demo.uploaded) = Throw FileNotFound
  /\ fst (finish (Demo.env 3 0) Demo.user "f1" Scenario.sizeless) = Throw FileNotFound
  /\ fst (finish (Demo.env 3 0) Demo.user "uuid-0"
            (set_now (Demo.morning + 1200000)
               (snd (start (Demo.env 3 0) Demo.user (Demo.upload "a.png" 1000) Demo.fresh))))
     = Throw FileNotFound.
Proof.
  assert (Hr : storedInRange (sessionField Demo.user Scenario.sizeless "f1" "fileSize") = true)
    by (vm_compute; reflexivity).
  split; [|split].
  - rewrite (proj1 (proj2 (finish_session_check (Demo.env 3 0) Demo.user "forged"
                             Demo.uploaded eq_refl))); [reflexivity|].
    left. left. vm_compute. reflexivity.
  - rewrite (proj1 (proj2 (finish_session_check (Demo.env 3 0) Demo.user "f1"
                             Scenario.sizeless Hr))); [reflexivity|].
    right. right. left. exists "NaN". split; vm_compute; reflexivity.
  - apply (proj1 (proj2 (proj2 (proj2 (proj2
             (finish_session_check (Demo.env 3 0) Demo.user "f1" Demo.fresh eq_refl)))))
             (Demo.upload "a.png" 1000)
             (startReturn (Demo.env 3 0) (Demo.upload "a.png" 1000) Demo.fresh)).
    + rewrite start_run. reflexivity.
    + vm_compute. discriminate.
Defined.

(** C7, as stated, fails: with the object missing, [finish] does not
    always reject with the failure of the ObjectStore.  Here the target
    directory was removed as well; the directory check comes first and
    its failure, code 1, is the error, not the ObjectStore's code 2. *)
Lemma finish_object_missing_directory_first :
  sessionInvalid Demo.user Demo.orphaned "f1" = false
  /\ ossMissing Demo.orphaned
       (ossFilePathAt (Demo.env 3 0) (now Demo.orphaned) "a.png" "f1")
     = Some (OtherCode 2)
  /\ fst (finish (Demo.env 3 0) Demo.user "f1" Demo.orphaned) = Throw (OtherCode 1)
  /\ fst (finish (Demo.env 3 0) Demo.user "f1" Demo.orphaned) <> Throw (OtherCode 2).
Proof.
  assert (H : fst (finish (Demo.env 3 0) Demo.user "f1" Demo.orphaned)
              = Throw (OtherCode 1)) by (vm_compute; reflexivity).
  repeat split; try (vm_compute; reflexivity). rewrite H. discriminate.
Qed.

(** C7, amended: for a session whose object is missing at the derived
    path, [finish] rejects and writes no row of [cloud_storage_files],
    no link and no usage record (none of its calls is a write and the
    stores are as they were); when the target directory still exists, the
    error is the failure of the ObjectStore, unchanged. *)
Theorem finish_object_missing (env : Env) (userUUID fileUUID : string) (w : World)
    (e : ErrorCode) :
  let info := sessionInfo userUUID w fileUUID in
  sessionInvalid userUUID w fileUUID = false ->
  ossMissing w (ossFilePathAt env (now w) (FileInfo.fileName info) fileUUID) = Some e ->
  (directoryMissing w userUUID (FileInfo.targetDirectoryPath info) = None ->
   fst (finish env userUUID fileUUID w) = Throw e)
  /\ (exists (e' : ErrorCode) (evs : list Event),
        finish env userUUID fileUUID w = (Throw e', log_events evs w)
        /\ forallb (fun ev => negb (isWrite ev)) evs = true)
  /\ cloud_storage_files (snd (finish env userUUID fileUUID w)) = cloud_storage_files w
  /\ cloud_storage_user_files (snd (finish env userUUID fileUUID w))
     = cloud_storage_user_files w
  /\ cloud_storage_configs (snd (finish env userUUID fileUUID w)) = cloud_storage_configs w.
Proof.
  intros info Hvalid Hoss. rewrite finish_run. cbv zeta. fold info.
  rewrite Hvalid, Hoss.
  destruct (directoryMissing w userUUID _) as [e'|].
  - split; [discriminate|]. split; [|repeat split].
    exists e'. eexists. split; reflexivity.
  - split; [reflexivity|]. split; [|repeat split].
    exists e. eexists. split; reflexivity.
Qed.

(** [finish_object_missing] on the upload whose object never arrived. *)
Lemma finish_object_missing_witness :
  sessionInvalid Demo.user (Demo.notUploaded (OtherCode 2)) "f1" = false
  /\ fst (finish (Demo.env 3 0) Demo.user "f1" (Demo.notUploaded (OtherCode 2)))
     = Throw (OtherCode 2)
  /\ cloud_storage_files
       (snd (finish (Demo.env 3 0) Demo.user "f1" (Demo.notUploaded (OtherCode 2)))) = [].
Proof.
  assert (Hvalid : sessionInvalid Demo.user (Demo.notUploaded (OtherCode 2)) "f1" = false)
    by (vm_compute; reflexivity).
  assert (Hoss : ossMissing (Demo.notUploaded (OtherCode 2))
                   (ossFilePathAt (Demo.env 3 0) (now (Demo.notUploaded (OtherCode 2)))
                      (FileInfo.fileName
                         (sessionInfo Demo.user (Demo.notUploaded (OtherCode 2)) "f1")) "f1")
                 = Some (OtherCode 2)) by reflexivity.
  destruct (finish_object_missing (Demo.env 3 0) Demo.user "f1"
              (Demo.notUploaded (OtherCode 2)) (OtherCode 2) Hvalid Hoss)
    as (Herr & _ & Hfiles & _).
  split; [exact Hvalid|]. split; [apply Herr; vm_compute; reflexivity | exact Hfiles].
Defined.

(* ===================================================================== *)
(** ** The object path *)
(* ===================================================================== *)

Lemma append_empty_r (s : string) : s +:+ "" = s.
Proof.
  induction s as [|c s IH]; [reflexivity|].
  change (String c (s +:+ "") = String c s). f_equal. exact IH.
Qed.

(** A property checked on [n] consecutive integers holds on that range. *)
Lemma allFrom_spec (P : Z -> bool) (n : nat) (a : Z) :
  allFrom P n a = true -> forall z, a <= z < a + Z.of_nat n -> P z = true.
Proof.
  revert a. induction n as [|n IH]; intros a H z Hz; [lia|].
  simpl in H. apply andb_prop in H as [Ha Hrest].
  destruct (Z.eq_dec z a) as [->|Hne]; [exact Ha|].
  apply (IH (a + 1) Hrest). lia.
Qed.

Lemma twoDigits_below_100 (n : Z) : 0 <= n < 100 -> twoDigits n = true.
Proof.
  intros H. apply (allFrom_spec twoDigits (Z.to_nat 100) 0); [vm_compute; reflexivity | lia].
Qed.

Lemma fourDigits_below_10000 (n : Z) : 0 <= n < 10000 -> fourDigits n = true.
Proof.
  intros H. apply (allFrom_spec fourDigits (Z.to_nat 10000) 0);
    [vm_compute; reflexivity | lia].
Qed.


(** The month is in 1..12 and the day in 1..31, for every day number. *)
Lemma civil_range (days : Z) :
  let '(_, m, d) := date_fns.civil days in 1 <= m <= 12 /\ 1 <= d <= 31.
Proof.
  unfold date_fns.civil. cbv zeta.
  set (z := days + 719468).
  set (doe := z - z / 146097 * 146097).
  assert (Hdoe : 0 <= doe < 146097).
  { subst doe. Z.to_euclidean_division_equations; lia. }
  clearbody doe. clear z.
  set (yoe := (doe - doe / 1460 + doe / 36524 - doe / 146096) / 365).
  set (doy := doe - (365 * yoe + yoe / 4 - yoe / 100)).
  assert (Hdoy : 0 <= doy <= 365).
  { subst doy yoe. Z.to_euclidean_division_equations; lia. }
  clearbody doy. clear yoe Hdoe doe.
  destruct (Z.ltb_spec ((5 * doy + 2) / 153) 10);
    Z.to_euclidean_division_equations; lia.
Qed.

Lemma append_assoc (a b c : string) : (a +:+ b) +:+ c = a +:+ (b +:+ c).
Proof.
  induction a as [|x a IH]; [reflexivity|].
  change (String x ((a +:+ b) +:+ c) = String x (a +:+ (b +:+ c))). f_equal. exact IH.
Qed.

Lemma format_yyyy_MM_dd (offset t : Z) :
  date_fns.format offset "yyyy-MM/dd" t =
    let '(y, m, d) := date_fns.civil (date_fns.Day (t - offset * date_fns.msPerMinute)) in
    date_fns.addLeadingZeros (yearOfEra y) 4 +:+ "-"
    +:+ date_fns.addLeadingZeros m 2 +:+ "/" +:+ date_fns.addLeadingZeros d 2.
Proof.
  unfold date_fns.format.
  destruct (date_fns.civil _) as [[y m] d].
  cbn [date_fns.runs Ascii.eqb Bool.eqb map date_fns.formatToken date_fns.concat
       Nat.eqb Nat.leb andb date_fns.repeat_char].
  rewrite append_empty_r. reflexivity.
Qed.

(** C5, as stated, fails: the date in the path is not the UTC date
    when the server is not on UTC.  On a server at UTC+8, at
    2021-10-19T16:00:00Z, the path carries the 20th; the path the claim
    describes carries the 19th. *)
Lemma generateOSSFilePath_not_UTC :
  fst (generateOSSFilePath (Demo.env 3 (-480)) "a.png" "f1" Demo.atAfternoon)
    = Ok "cloud-storage/2021-10/20/f1/f1.png"
  /\ specObjectPath (Demo.env 3 (-480)) (now Demo.atAfternoon) "a.png" "f1"
     = "cloud-storage/2021-10/19/f1/f1.png"
  /\ fst (generateOSSFilePath (Demo.env 3 (-480)) "a.png" "f1" Demo.atAfternoon)
     <> Ok (specObjectPath (Demo.env 3 (-480)) (now Demo.atAfternoon) "a.png" "f1").
Proof.
  assert (H1 : fst (generateOSSFilePath (Demo.env 3 (-480)) "a.png" "f1" Demo.atAfternoon)
               = Ok "cloud-storage/2021-10/20/f1/f1.png") by (vm_compute; reflexivity).
  assert (H2 : specObjectPath (Demo.env 3 (-480)) (now Demo.atAfternoon) "a.png" "f1"
               = "cloud-storage/2021-10/19/f1/f1.png") by (vm_compute; reflexivity).
  split; [exact H1|]. split; [exact H2|]. rewrite H1, H2. discriminate.
Qed.

(** C5, amended: the generated path is
    [{configuredPrefix}/{YYYY-MM}/{DD}/{fileId}/{fileId}{originalExtension}]
    where the date is the current date at call time in the local time
    zone of the server, which is the UTC date when its offset is zero:
    the month and the day are two digits, the year four for the years 1
    to 9999, the [fileUUID] appears twice, the extension is
    [path.extname] of the file name, and nothing else of the file name
    is used. *)
Theorem generateOSSFilePath_format (env : Env) (fileName fileUUID : string) (w : World) :
  exists y m d : Z,
    date_fns.civil (date_fns.Day (localTime env (now w))) = (y, m, d)
    /\ generateOSSFilePath env fileName fileUUID w
       = (Ok (CloudStorage_prefixPath env +:+ "/"
              +:+ date_fns.addLeadingZeros (yearOfEra y) 4 +:+ "-"
              +:+ date_fns.addLeadingZeros m 2 +:+ "/"
              +:+ date_fns.addLeadingZeros d 2 +:+ "/"
              +:+ fileUUID +:+ "/" +:+ fileUUID +:+ path.extname fileName),
          w)
    /\ 1 <= m <= 12 /\ 1 <= d <= 31
    /\ String.length (date_fns.addLeadingZeros m 2) = 2%nat
    /\ String.length (date_fns.addLeadingZeros d 2) = 2%nat
    /\ (1 <= y <= 9999 -> String.length (date_fns.addLeadingZeros (yearOfEra y) 4) = 4%nat)
    /\ (getTimezoneOffset env (now w) = 0 ->
        fst (generateOSSFilePath env fileName fileUUID w)
          = Ok (specObjectPath env (now w) fileName fileUUID))
    /\ (forall fileName',
          path.extname fileName' = path.extname fileName ->
          generateOSSFilePath env fileName' fileUUID w
            = generateOSSFilePath env fileName fileUUID w).
Proof.
  pose proof (civil_range (date_fns.Day (localTime env (now w)))) as Hrange.
  destruct (date_fns.civil (date_fns.Day (localTime env (now w)))) as [[y m] d] eqn:Hcivil.
  destruct Hrange as [Hm Hd].
  assert (Hpath : generateOSSFilePath env fileName fileUUID w
       = (Ok (CloudStorage_prefixPath env +:+ "/"
              +:+ date_fns.addLeadingZeros (yearOfEra y) 4 +:+ "-"
              +:+ date_fns.addLeadingZeros m 2 +:+ "/"
              +:+ date_fns.addLeadingZeros d 2 +:+ "/"
              +:+ fileUUID +:+ "/" +:+ fileUUID +:+ path.extname fileName),
          w)).
  { rewrite generateOSSFilePath_run. unfold ossFilePathAt. rewrite format_yyyy_MM_dd.
    unfold localTime in Hcivil. rewrite Hcivil.
    rewrite !append_assoc. reflexivity. }
  exists y, m, d. split; [reflexivity|]. split; [exact Hpath|].
  split; [exact Hm|]. split; [exact Hd|].
  split; [apply Nat.eqb_eq, (twoDigits_below_100 m); lia|].
  split; [apply Nat.eqb_eq, (twoDigits_below_100 d); lia|].
  split.
  { intros Hy. apply Nat.eqb_eq, (fourDigits_below_10000 (yearOfEra y)).
    unfold yearOfEra. destruct (Z.ltb_spec 0 y); lia. }
  split.
  { intros Hutc. rewrite Hpath. cbn [fst]. unfold specObjectPath.
    unfold localTime in Hcivil. rewrite Hutc in Hcivil.
    replace (now w - 0 * date_fns.msPerMinute) with (now w) in Hcivil by lia.
    rewrite Hcivil. reflexivity. }
  intros fileName' Hext. rewrite !generateOSSFilePath_run. unfold ossFilePathAt.
  rewrite Hext. reflexivity.
Qed.

(** C4 does not hold of the code: [finish] derives the path from the
    clock at [finish], not from the date of [start].  A [start] one second
    before midnight UTC returns a path under [2021-10/19] and the client
    puts the object there; two seconds later the session is still live,
    [finish] derives a path under [2021-10/20], finds no object there and
    rejects with the failure of the ObjectStore. *)
Theorem finish_after_midnight_misses_object :
  fst (start (Demo.env 3 0) Demo.user (Demo.upload "a.png" 1000) Demo.atNight)
    = Ok {| StartReturn.fileUUID := "uuid-0";
            StartReturn.ossFilePath := "cloud-storage/2021-10/19/uuid-0/uuid-0.png";
            StartReturn.ossDomain := "https://oss.example.com";
            StartReturn.policy := "policy";
            StartReturn.signature := "signature" |}
  /\ ossMissing Demo.nextDay "cloud-storage/2021-10/19/uuid-0/uuid-0.png" = None
  /\ sessionInvalid Demo.user Demo.nextDay "uuid-0" = false
  /\ fst (generateOSSFilePath (Demo.env 3 0) "a.png" "uuid-0" Demo.nextDay)
     = Ok "cloud-storage/2021-10/20/uuid-0/uuid-0.png"
  /\ fst (finish (Demo.env 3 0) Demo.user "uuid-0" Demo.nextDay) = Throw (OtherCode 404).
Proof. repeat split; vm_compute; reflexivity. Qed.

(** Within one local day the two derivations agree: the path depends
    on the clock only through the local date. *)
Lemma ossFilePathAt_same_day (env : Env) (t1 t2 : Z) (fileName fileUUID : string) :
  date_fns.Day (localTime env t1) = date_fns.Day (localTime env t2) ->
  ossFilePathAt env t1 fileName fileUUID = ossFilePathAt env t2 fileName fileUUID.
Proof.
  intros H. unfold ossFilePathAt, date_fns.format.
  unfold localTime in H. rewrite H. reflexivity.
Qed.

(* ===================================================================== *)
(** ** The sessions in flight *)
(* ===================================================================== *)

Lemma declaredSize_null (w : World) (key : RKey) :
  RedisService.field w key "fileSize" = JS.VNull -> declaredSize w key = 0.
Proof. intros H. unfold declaredSize. rewrite H. reflexivity. Qed.

Lemma declaredSize_NaN (w : World) (key : RKey) (s : string) :
  RedisService.field w key "fileSize" = JS.VString s ->
  JS.StringToNumber s = JS.NaN ->
  declaredSize w key = 0.
Proof.
  intros H Hs. unfold declaredSize, numberOrZero. rewrite H. cbn [JS.Number].
  rewrite Hs. reflexivity.
Qed.

Lemma declaredSize_number (w : World) (key : RKey) (z : Z) :
  RedisService.field w key "fileSize" = JS.VString (JS.toString (JS.Num z)) ->
  declaredSize w key = z.
Proof. intros H. unfold declaredSize. rewrite H. apply numberOrZero_toString. Qed.

(** C8, as stated, fails: the sum does not run over every live session of
    the user, only over the ones the scan returns, and the scan is capped
    at [concurrentLimit + 1] keys.  With a limit of one concurrent upload
    and three sessions of 4000 bytes in flight, a base total of 1000 plus
    all declared sizes is 13000, above the 10000 allowed, and the check
    passes. *)
Lemma assertConcurrentFileSize_beyond_cap :
  liveCount Demo.user Demo.crowded = 3
  /\ 1000 + sumDeclared Demo.crowded (liveSessions Demo.user Demo.crowded) = 13000
  /\ CloudStorage_totalSize (Demo.env 1 0) = 10000
  /\ fst (assertConcurrentFileSize (Demo.env 1 0) Demo.user (JS.Num 1000) Demo.crowded)
     = Ok tt.
Proof. repeat split; vm_compute; reflexivity. Qed.

Lemma totalsInRange_stored (acc : JS.number) (sizes : list JS.value) (v : JS.value) :
  totalsInRange acc sizes = true -> In v sizes -> storedInRange v = true.
Proof.
  revert acc. induction sizes as [|x sizes IH]; intros acc H Hin; [destruct Hin|].
  cbn [totalsInRange] in H. apply andb_prop in H as [_ H]. apply andb_prop in H as [Hx H].
  destruct Hin as [<-|Hin]; [exact Hx | exact (IH _ H Hin)].
Qed.

(** C8, amended: [assertConcurrentFileSize(baseTotal)] computes
    [baseTotal] plus the sum of the declared [fileSize] of the live
    sessions of the user that the scan returns, the scan being capped at
    [concurrentLimit + 1] keys (so of all of them when there are at most
    that many), an unreadable or non-numeric size counting 0, and rejects
    with [NotEnoughTotalUsage] exactly when that sum is strictly greater
    than [totalSizeLimit]; none of its calls is a write.  The sizes read
    are taken to be stored numerals and the running total to stay in the
    range of the number model. *)
Theorem assertConcurrentFileSize_sum (env : Env) (userUUID : string) (baseTotal : Z)
    (w : World)
    (Hrange : inFlightInRange env userUUID (JS.Num baseTotal) w = true) :
  let scanned := take (Z.to_nat (CloudStorage_concurrent env + 1)) (liveSessions userUUID w) in
  let total := baseTotal + sumDeclared w scanned in
  fst (assertConcurrentFileSize env userUUID (JS.Num baseTotal) w)
    = (if CloudStorage_totalSize env <? total then Throw NotEnoughTotalUsage else Ok tt)
  /\ (exists evs : list Event,
        snd (assertConcurrentFileSize env userUUID (JS.Num baseTotal) w) = log_events evs w
        /\ forallb (fun ev => negb (isWrite ev)) evs = true)
  /\ (liveCount userUUID w <= CloudStorage_concurrent env + 1 ->
      scanned = liveSessions userUUID w)
  /\ (forall key, In key scanned ->
        storedInRange (RedisService.field w key "fileSize") = true
        /\ (RedisService.field w key "fileSize" = JS.VNull -> declaredSize w key = 0)
        /\ (forall s, RedisService.field w key "fileSize" = JS.VString s ->
                      JS.StringToNumber s = JS.NaN -> declaredSize w key = 0)
        /\ (forall z, RedisService.field w key "fileSize" = JS.VString (JS.toString (JS.Num z)) ->
                      declaredSize w key = z)).
Proof.
  intros scanned total.
  assert (Hhm : forall ks : list RKey,
             forallb (fun ev => negb (isWrite ev)) (map RedisHmget ks) = true).
  { intros ks. apply forallb_forall. intros ev Hev.
    apply in_map_iff in Hev as (k & <- & _). reflexivity. }
  assert (Hstored : forall key, In key scanned ->
             storedInRange (RedisService.field w key "fileSize") = true).
  { unfold inFlightInRange in Hrange. apply andb_prop in Hrange as [_ Hrange].
    fold scanned in Hrange. change (uploadingFiles env userUUID w) with scanned in Hrange.
    intros key Hkey. eapply totalsInRange_stored; [exact Hrange|].
    apply in_map_iff. exists key. split; [reflexivity | exact Hkey]. }
  rewrite assertConcurrentFileSize_run. cbv zeta.
  fold (uploadingFiles env userUUID w). unfold JS.add. rewrite gt_Num.
  change (uploadingFiles env userUUID w) with scanned. fold total.
  split; [|split; [|split]].
  - destruct (CloudStorage_totalSize env <? total); reflexivity.
  - destruct (CloudStorage_totalSize env <? total); eexists; (split; [reflexivity|]).
    + cbn [app forallb isWrite negb andb]. rewrite forallb_app, Hhm. reflexivity.
    + cbn [forallb isWrite negb andb]. apply Hhm.
  - intros Hfew. subst scanned. apply take_ge. unfold liveCount in Hfew. lia.
  - intros key Hkey. split; [exact (Hstored key Hkey)|]. split; [apply declaredSize_null|].
    split; [apply declaredSize_NaN | apply declaredSize_number].
Qed.

(** [assertConcurrentFileSize_sum] with three uploads allowed: the three
    sessions of 4000 bytes are all counted and the check rejects. *)
Lemma assertConcurrentFileSize_sum_witness :
  liveCount Demo.user Demo.crowded <= CloudStorage_concurrent (Demo.env 3 0) + 1
  /\ inFlightInRange (Demo.env 3 0) Demo.user (JS.Num 1000) Demo.crowded = true
  /\ fst (assertConcurrentFileSize (Demo.env 3 0) Demo.user (JS.Num 1000) Demo.crowded)
     = Throw NotEnoughTotalUsage.
Proof.
  assert (Hrange : inFlightInRange (Demo.env 3 0) Demo.user (JS.Num 1000) Demo.crowded = true)
    by (vm_compute; reflexivity).
  split; [vm_compute; discriminate|]. split; [exact Hrange|].
  rewrite (proj1 (assertConcurrentFileSize_sum (Demo.env 3 0) Demo.user 1000 Demo.crowded
                    Hrange)).
  reflexivity.
Defined.

(* ===================================================================== *)
(** ** From [start] to the session [finish] loads *)
(* ===================================================================== *)

(** A [start] that fulfils ran through all its checks. *)
Lemma start_Ok_inv (env : Env) (userUUID : string) (config : StartConfig.t)
    (w w1 : World) (r : StartReturn.t) :
  start env userUUID config w = (Ok r, w1) ->
  r = startReturn env config w /\ w1 = startedWorld env userUUID config w.
Proof.
  rewrite start_run. cbv zeta.
  repeat match goal with
         | |- (if ?c then _ else _) = _ -> _ => destruct c; try discriminate
         | |- match ?c with Some _ => _ | None => _ end = _ -> _ =>
             destruct c; try discriminate
         end.
  intros H. injection H as <- <-. split; reflexivity.
Qed.

Lemma sessionHash_lookup (env : Env) (config : StartConfig.t) :
  let h : gmap string string := list_to_map (sessionHash env config) in
  h !! "fileName" = Some (StartConfig.fileName config)
  /\ h !! "fileSize" = Some (JS.toString (StartConfig.fileSize config))
  /\ h !! "targetDirectoryPath" = Some (StartConfig.targetDirectoryPath config)
  /\ h !! "fileResourceType"
     = Some (getFileResourceTypeByFileName env (StartConfig.fileName config)).
Proof.
  unfold sessionHash. cbv zeta. rewrite !list_to_map_cons.
  split; [|split; [|split]].
  - apply lookup_insert_eq.
  - rewrite lookup_insert_ne by discriminate. apply lookup_insert_eq.
  - rewrite !lookup_insert_ne by discriminate. apply lookup_insert_eq.
  - rewrite !lookup_insert_ne by discriminate. apply lookup_insert_eq.
Qed.

(** The fields of the session a [start] has just written, read before
    it expires. *)
Lemma started_field (env : Env) (userUUID : string) (config : StartConfig.t)
    (w : World) (t : Z) (f v : string) :
  t < now w + 20 * 60 * 1000 ->
  (list_to_map (sessionHash env config) : gmap string string) !! f = Some v ->
  sessionField userUUID (set_now t (startedWorld env userUUID config w))
    (uuids w (uuidCount w)) f = JS.VString v.
Proof.
  intros Ht Hf. unfold sessionField, RedisService.field, RedisService.live, set_now,
    startedWorld. cbn [redis now]. rewrite lookup_insert_eq.
  destruct (Z.ltb_spec t (now w + 60 * 20 * 1000)); [|lia].
  rewrite (lookup_union_Some_l _ _ _ _ Hf). reflexivity.
Qed.

(** C10, as stated, fails: the session [start] writes for an empty file
    name cannot be loaded back; [getFileInfoByRedis] takes the empty
    [fileName] for a missing one and rejects with [FileNotFound]. *)
Lemma start_empty_fileName_not_loaded :
  (exists r, fst (start (Demo.env 3 0) Demo.user (Demo.upload "" 1000) Demo.fresh) = Ok r
             /\ StartReturn.fileUUID r = "uuid-0")
  /\ sessionField Demo.user
       (snd (start (Demo.env 3 0) Demo.user (Demo.upload "" 1000) Demo.fresh))
       "uuid-0" "fileSize" = JS.VString "1000"
  /\ fst (getFileInfoByRedis Demo.user "uuid-0"
            (snd (start (Demo.env 3 0) Demo.user (Demo.upload "" 1000) Demo.fresh)))
     = Throw FileNotFound.
Proof.
  split; [eexists; split; vm_compute; reflexivity|].
  split; vm_compute; reflexivity.
Qed.

(** C10, amended: for a session written by [start] with an integer
    [fileSize > 0] in the safe-integer range and a non-empty file name,
    target directory path and resource type, [fileSize] is stored as its
    decimal string and, until the session expires, [getFileInfoByRedis]
    returns exactly the [fileName], [fileSize], [targetDirectoryPath] and
    [fileResourceType] that [start] wrote. *)
Theorem start_session_round_trip (env : Env) (userUUID : string)
    (config : StartConfig.t) (w w1 : World) (r : StartReturn.t) (fileSize t : Z)
    (Hstart : start env userUUID config w = (Ok r, w1))
    (Hsize : StartConfig.fileSize config = JS.Num fileSize)
    (Hpos : 0 < fileSize)
    (Hsafe : isSafeInteger fileSize = true)
    (Hname : StartConfig.fileName config <> "")
    (Hdir : StartConfig.targetDirectoryPath config <> "")
    (Htype : getFileResourceTypeByFileName env (StartConfig.fileName config) <> "")
    (Hlive : t < now w + 20 * 60 * 1000) :
  let w2 := set_now t w1 in
  let fileUUID := StartReturn.fileUUID r in
  sessionField userUUID w2 fileUUID "fileSize" = JS.VString (JS.decimal (Z.to_N fileSize))
  /\ getFileInfoByRedis userUUID fileUUID w2
     = (Ok {| FileInfo.fileName := StartConfig.fileName config;
              FileInfo.fileSize := JS.Num fileSize;
              FileInfo.targetDirectoryPath := StartConfig.targetDirectoryPath config;
              FileInfo.fileResourceType :=
                getFileResourceTypeByFileName env (StartConfig.fileName config) |},
        log_events [RedisHmget (sessionKey userUUID fileUUID)] w2).
Proof.
  intros w2 fileUUID.
  apply start_Ok_inv in Hstart as [-> ->].
  subst w2 fileUUID. unfold startReturn. cbn [StartReturn.fileUUID].
  assert (Hstr : JS.toString (JS.Num fileSize) = JS.decimal (Z.to_N fileSize)).
  { unfold JS.toString. destruct (Z.ltb_spec fileSize 0); [lia | reflexivity]. }
  destruct (sessionHash_lookup env config) as (Hh1 & Hh2 & Hh3 & Hh4).
  pose proof (started_field env userUUID config w t _ _ Hlive Hh1) as Hf1.
  pose proof (started_field env userUUID config w t _ _ Hlive Hh2) as Hf2.
  pose proof (started_field env userUUID config w t _ _ Hlive Hh3) as Hf3.
  pose proof (started_field env userUUID config w t _ _ Hlive Hh4) as Hf4.
  rewrite Hsize, Hstr in Hf2.
  split; [exact Hf2|].
  assert (HN : JS.Number (JS.or_value (JS.VString (JS.decimal (Z.to_N fileSize))) JS.VUndefined)
               = JS.Num fileSize).
  { unfold JS.or_value.
    pose proof (decimal_nonempty (Z.to_N fileSize)) as Hne.
    destruct (JS.decimal (Z.to_N fileSize)) as [|c s] eqn:E; [congruence|].
    cbn [JS.truthy JS.Number]. rewrite <- E, StringToNumber_decimal.
    f_equal. lia. }
  rewrite getFileInfoByRedis_run.
  unfold sessionInvalid, sessionInfo, sessionFileSize.
  rewrite Hf1, Hf2, Hf3, Hf4, HN.
  destruct (StartConfig.fileName config) as [|c1 s1]; [congruence|].
  destruct (StartConfig.targetDirectoryPath config) as [|c2 s2]; [congruence|].
  destruct (getFileResourceTypeByFileName env (String c1 s1)) as [|c3 s3]; [congruence|].
  reflexivity.
Qed.

(** [start_session_round_trip] on the upload of [a.png], read back ten
    minutes later. *)
Lemma start_session_round_trip_witness :
  fst (getFileInfoByRedis Demo.user "uuid-0"
         (set_now (Demo.morning + 600000)
            (snd (start (Demo.env 3 0) Demo.user (Demo.upload "a.png" 1000) Demo.fresh))))
  = Ok {| FileInfo.fileName := "a.png";
          FileInfo.fileSize := JS.Num 1000;
          FileInfo.targetDirectoryPath := "/docs";
          FileInfo.fileResourceType := "NormalResources" |}.
Proof.
  assert (Hstart : fst (start (Demo.env 3 0) Demo.user (Demo.upload "a.png" 1000) Demo.fresh)
                   = Ok {| StartReturn.fileUUID := "uuid-0";
                           StartReturn.ossFilePath :=
                             "cloud-storage/2021-10/19/uuid-0/uuid-0.png";
                           StartReturn.ossDomain := "https://oss.example.com";
                           StartReturn.policy := "policy";
                           StartReturn.signature := "signature" |})
    by (vm_compute; reflexivity).
  assert (Htype : getFileResourceTypeByFileName (Demo.env 3 0)
                    (StartConfig.fileName (Demo.upload "a.png" 1000)) <> "")
    by (vm_compute; discriminate).
  destruct (start_session_round_trip (Demo.env 3 0) Demo.user (Demo.upload "a.png" 1000)
              Demo.fresh _ _ 1000 (Demo.morning + 600000) (run_Ok _ _ _ Hstart)
              eq_refl eq_refl eq_refl ltac:(discriminate) ltac:(discriminate) Htype eq_refl)
    as [_ H].
  exact (f_equal fst H).
Defined.

(* ===================================================================== *)
(** ** The EphemeralStore under insertion and deletion *)
(* ===================================================================== *)

Lemma filter_length_Permutation {A : Type} (f : A -> bool) (l l' : list A) :
  Permutation l l' -> length (List.filter f l) = length (List.filter f l').
Proof.
  induction 1 as [|x l l' _ IH|x y l|l l' l'' _ IH1 _ IH2]; simpl.
  - reflexivity.
  - destruct (f x); simpl; congruence.
  - destruct (f x), (f y); reflexivity.
  - congruence.
Qed.

Lemma liveCount_countLive (userUUID : string) (w : World) :
  liveCount userUUID w = countLive (sessionKey userUUID "*") (now w) (redis w).
Proof.
  unfold liveCount, liveSessions, RedisService.keys, countLive.
  rewrite length_map. reflexivity.
Qed.

Lemma countLive_delete (pattern : RKey) (t : Z)
    (m : gmap RKey (gmap string string * Z)) (k : RKey) :
  countLive pattern t m
  = (match m !! k with
     | Some v => if countsAsLive pattern t (k, v) then 1 else 0
     | None => 0
     end) + countLive pattern t (delete k m).
Proof.
  unfold countLive. destruct (m !! k) as [v|] eqn:E.
  - rewrite <- (filter_length_Permutation _ _ _ (map_to_list_delete m k v E)).
    simpl. destruct (countsAsLive pattern t (k, v)); simpl; lia.
  - rewrite (delete_id m k E). lia.
Qed.

Lemma countLive_insert (pattern : RKey) (t : Z)
    (m : gmap RKey (gmap string string * Z)) (k : RKey) (v : gmap string string * Z) :
  countLive pattern t (<[k := v]> m)
  = (if countsAsLive pattern t (k, v) then 1 else 0) + countLive pattern t (delete k m).
Proof.
  rewrite <- (insert_delete_eq m k v). unfold countLive.
  rewrite (filter_length_Permutation _ _ _
             (map_to_list_insert (delete k m) k v (lookup_delete_eq m k))).
  simpl. destruct (countsAsLive pattern t (k, v)); simpl; lia.
Qed.

Lemma matches_own_session (userUUID fileUUID : string) :
  RedisKey.matches (sessionKey userUUID "*") (sessionKey userUUID fileUUID) = true.
Proof.
  unfold RedisKey.matches, sessionKey, RedisKey.cloudStorageFileInfo. simpl.
  rewrite String.eqb_refl. reflexivity.
Qed.

(** A key that is not live adds nothing to the count. *)
Lemma not_live_not_counted (pattern : RKey) (w : World) (k : RKey) :
  RedisService.live w k = None ->
  match redis w !! k with
  | Some v => if countsAsLive pattern (now w) (k, v) then 1 else 0
  | None => 0
  end = 0.
Proof.
  unfold RedisService.live, countsAsLive.
  destruct (redis w !! k) as [[h e]|]; [|reflexivity]. simpl.
  destruct (now w <? e); [discriminate|]. rewrite andb_false_r. reflexivity.
Qed.

(** A live session of the user counts for one. *)
Lemma live_counted (userUUID fileUUID : string) (w : World) (h : gmap string string) :
  RedisService.live w (sessionKey userUUID fileUUID) = Some h ->
  match redis w !! sessionKey userUUID fileUUID with
  | Some v =>
      if countsAsLive (sessionKey userUUID "*") (now w) (sessionKey userUUID fileUUID, v)
      then 1 else 0
  | None => 0
  end = 1.
Proof.
  unfold RedisService.live, countsAsLive.
  destruct (redis w !! sessionKey userUUID fileUUID) as [[h' e]|]; [|discriminate].
  cbn [fst snd]. rewrite matches_own_session.
  destruct (now w <? e); [reflexivity | discriminate].
Qed.

(** The keys returned for a pattern are those of entries that have not
    expired. *)
Lemma In_keys (w : World) (pattern k : RKey) :
  In k (RedisService.keys w pattern) ->
  exists h e, redis w !! k = Some (h, e) /\ now w < e.
Proof.
  unfold RedisService.keys. intros H.
  apply in_map_iff in H as ([k' [h e]] & <- & H).
  apply filter_In in H as [Hin Hf].
  apply list_elem_of_In, elem_of_map_to_list in Hin.
  apply andb_prop in Hf as [_ Hlt]. apply Z.ltb_lt in Hlt.
  exists h, e. split; [exact Hin | exact Hlt].
Qed.

(* ===================================================================== *)
(** ** More on [start] *)
(* ===================================================================== *)

(** A [start] that fulfils passed the three checks. *)
Lemma start_Ok_checks (env : Env) (userUUID : string) (config : StartConfig.t)
    (w w1 : World) (r : StartReturn.t) :
  start env userUUID config w = (Ok r, w1) ->
  liveCount userUUID w < CloudStorage_concurrent env
  /\ capacityExceeded env userUUID (StartConfig.fileSize config) w = false
  /\ directoryMissing w userUUID (StartConfig.targetDirectoryPath config) = None.
Proof.
  rewrite start_run. cbv zeta. unfold capacityExceeded.
  destruct (Z.leb_spec (CloudStorage_concurrent env) (liveCount userUUID w));
    [discriminate|].
  destruct (JS.gt (JS.add (JS.Num (durableUsage userUUID w)) _) _); [discriminate|].
  destruct (JS.gt (JS.add (JS.add _ _) _) _); [discriminate|].
  destruct (directoryMissing w userUUID _); [discriminate|].
  intros _. repeat split; assumption.
Qed.

(** A [start] whose three checks pass fulfils. *)
Lemma start_Ok_of_checks (env : Env) (userUUID : string) (config : StartConfig.t)
    (w : World) :
  liveCount userUUID w < CloudStorage_concurrent env ->
  capacityExceeded env userUUID (StartConfig.fileSize config) w = false ->
  directoryMissing w userUUID (StartConfig.targetDirectoryPath config) = None ->
  start env userUUID config w
  = (Ok (startReturn env config w), startedWorld env userUUID config w).
Proof.
  intros Hlive Hcap Hdir. rewrite start_run. cbv zeta.
  unfold capacityExceeded in Hcap. apply orb_false_elim in Hcap as [H1 H2].
  destruct (Z.leb_spec (CloudStorage_concurrent env) (liveCount userUUID w)); [lia|].
  rewrite H1, H2, Hdir. reflexivity.
Qed.

(** X1: with the numbers of the two capacity checks in the range of the
    number model, [start] fulfils exactly when fewer than [concurrent]
    uploads are in flight, neither capacity check fails and the directory
    exists; it then returns the next identifier of [v4], the path derived
    from it at the current instant, the domain and the policy signed for
    that path and size. *)
Theorem start_fulfils_iff (env : Env) (userUUID : string) (config : StartConfig.t)
    (w : World)
    (Hrange : startInRange env userUUID (StartConfig.fileSize config) w = true) :
  ((exists r w1, start env userUUID config w = (Ok r, w1))
   <-> liveCount userUUID w < CloudStorage_concurrent env
       /\ capacityExceeded env userUUID (StartConfig.fileSize config) w = false
       /\ directoryMissing w userUUID (StartConfig.targetDirectoryPath config) = None)
  /\ (forall r w1,
        start env userUUID config w = (Ok r, w1) ->
        StartReturn.fileUUID r = uuids w (uuidCount w)
        /\ StartReturn.ossFilePath r
           = ossFilePathAt env (now w) (StartConfig.fileName config) (StartReturn.fileUUID r)
        /\ StartReturn.ossDomain r = oss_domain env
        /\ (StartReturn.policy r, StartReturn.signature r)
           = oss_policyTemplate env (StartConfig.fileName config) (StartReturn.ossFilePath r)
               (StartConfig.fileSize config)).
Proof.
  split; [split|].
  - intros (r & w1 & H). exact (start_Ok_checks _ _ _ _ _ _ H).
  - intros (Hlive & Hcap & Hdir). eexists _, _.
    exact (start_Ok_of_checks _ _ _ _ Hlive Hcap Hdir).
  - intros r w1 H. apply start_Ok_inv in H as [-> _].
    unfold startReturn. cbn [StartReturn.fileUUID StartReturn.ossFilePath
      StartReturn.ossDomain StartReturn.policy StartReturn.signature].
    repeat split. symmetry. apply surjective_pairing.
Qed.

(** [start_fulfils_iff] on a second upload, of 2000 bytes, while one of
    1000 bytes is in flight: it fulfils and returns the next identifier. *)
Lemma start_fulfils_iff_witness :
  startInRange (Demo.env 3 0) Demo.user (JS.Num 2000) Demo.uploaded = true
  /\ exists r w1,
       start (Demo.env 3 0) Demo.user (Demo.upload "b.png" 2000) Demo.uploaded = (Ok r, w1)
       /\ StartReturn.fileUUID r = "uuid-0".
Proof.
  assert (Hrange : startInRange (Demo.env 3 0) Demo.user
                     (StartConfig.fileSize (Demo.upload "b.png" 2000)) Demo.uploaded = true)
    by (vm_compute; reflexivity).
  split; [exact Hrange|].
  destruct (start_fulfils_iff (Demo.env 3 0) Demo.user (Demo.upload "b.png" 2000)
              Demo.uploaded Hrange) as [[_ Hif] Hret].
  destruct Hif as (r & w1 & Hstart).
  { split; [vm_compute; reflexivity|]. split; [vm_compute; reflexivity | reflexivity]. }
  exists r, w1. split; [exact Hstart|].
  destruct (Hret r w1 Hstart) as [Hid _]. rewrite Hid. vm_compute. reflexivity.
Defined.

(** The store a successful [start] leaves is the old one with the new
    session inserted. *)
Lemma started_redis (env : Env) (userUUID : string) (config : StartConfig.t) (w : World) :
  redis (startedWorld env userUUID config w)
  = <[sessionKey userUUID (uuids w (uuidCount w)) :=
        (list_to_map (sessionHash env config)
         ∪ match RedisService.live w (sessionKey userUUID (uuids w (uuidCount w))) with
           | Some h => h
           | None => ∅
           end,
         now w + 60 * 20 * 1000)]> (redis w).
Proof. reflexivity. Qed.

(** X2: a [start] that fulfils leaves the user with at most [concurrent]
    sessions in flight: one more than before, when the identifier [v4]
    returned was not that of a session already in flight. *)
Theorem start_keeps_concurrent_bound (env : Env) (userUUID : string)
    (config : StartConfig.t) (w w1 : World) (r : StartReturn.t)
    (Hstart : start env userUUID config w = (Ok r, w1)) :
  liveCount userUUID w1 <= CloudStorage_concurrent env
  /\ (RedisService.live w (sessionKey userUUID (StartReturn.fileUUID r)) = None ->
      liveCount userUUID w1 = liveCount userUUID w + 1).
Proof.
  destruct (start_Ok_checks _ _ _ _ _ _ Hstart) as (Hlive & _ & _).
  apply start_Ok_inv in Hstart as [-> ->].
  unfold startReturn. cbn [StartReturn.fileUUID].
  set (key := sessionKey userUUID (uuids w (uuidCount w))).
  rewrite !liveCount_countLive in *. rewrite started_redis. fold key.
  change (now (startedWorld env userUUID config w)) with (now w).
  rewrite countLive_insert.
  rewrite (countLive_delete _ _ (redis w) key) in Hlive |- *.
  assert (Hnew : countsAsLive (sessionKey userUUID "*") (now w)
                   (key, (list_to_map (sessionHash env config)
                          ∪ match RedisService.live w key with
                            | Some h => h
                            | None => ∅
                            end, now w + 60 * 20 * 1000)) = true).
  { unfold countsAsLive. cbn [fst snd]. subst key. rewrite matches_own_session.
    apply Z.ltb_lt. lia. }
  rewrite Hnew.
  destruct (RedisService.live w key) as [h|] eqn:Hl.
  - subst key. rewrite (live_counted _ _ _ _ Hl) in *. split; [lia | discriminate].
  - rewrite (not_live_not_counted _ _ _ Hl) in *. split; [lia | intros _; lia].
Qed.

(** [start_keeps_concurrent_bound] on the first upload of a user. *)
Lemma start_keeps_concurrent_bound_witness :
  liveCount Demo.user
    (snd (start (Demo.env 3 0) Demo.user (Demo.upload "a.png" 1000) Demo.fresh)) = 0 + 1.
Proof.
  assert (Hstart : fst (start (Demo.env 3 0) Demo.user (Demo.upload "a.png" 1000) Demo.fresh)
                   = Ok (startReturn (Demo.env 3 0) (Demo.upload "a.png" 1000) Demo.fresh))
    by (vm_compute; reflexivity).
  destruct (start_keeps_concurrent_bound _ _ _ _ _ _ (run_Ok _ _ _ Hstart)) as [_ H].
  apply H. vm_compute. reflexivity.
Defined.

(** X3: a [start] that fulfils, for a [fileSize] in the range of the
    number model, writes one session and nothing else: the three tables
    and every other key of the EphemeralStore are as they were; the new
    key holds the four fields, the size as [String] prints it (a printed
    numeral, as the checks that read it back expect), and expires 20
    minutes later; one identifier of [v4] was used. *)
Theorem start_writes_one_session (env : Env) (userUUID : string)
    (config : StartConfig.t) (w w1 : World) (r : StartReturn.t)
    (Hstart : start env userUUID config w = (Ok r, w1))
    (Hsafe : inRange (StartConfig.fileSize config) = true) :
  let key := sessionKey userUUID (StartReturn.fileUUID r) in
  cloud_storage_configs w1 = cloud_storage_configs w
  /\ cloud_storage_files w1 = cloud_storage_files w
  /\ cloud_storage_user_files w1 = cloud_storage_user_files w
  /\ uuidCount w1 = S (uuidCount w)
  /\ (forall k, k <> key -> redis w1 !! k = redis w !! k)
  /\ exists h,
       redis w1 !! key = Some (h, now w + 20 * 60 * 1000)
       /\ h !! "fileName" = Some (StartConfig.fileName config)
       /\ h !! "fileSize" = Some (JS.toString (StartConfig.fileSize config))
       /\ printed (JS.toString (StartConfig.fileSize config)) = true
       /\ h !! "targetDirectoryPath" = Some (StartConfig.targetDirectoryPath config)
       /\ h !! "fileResourceType"
          = Some (getFileResourceTypeByFileName env (StartConfig.fileName config)).
Proof.
  intros key. apply start_Ok_inv in Hstart as [-> ->]. subst key.
  unfold startReturn. cbn [StartReturn.fileUUID].
  split; [reflexivity|]. split; [reflexivity|]. split; [reflexivity|].
  split; [reflexivity|].
  rewrite started_redis. split.
  - intros k Hk. apply lookup_insert_ne. congruence.
  - destruct (sessionHash_lookup env config) as (H1 & H2 & H3 & H4).
    eexists. split; [apply lookup_insert_eq|].
    split; [exact (lookup_union_Some_l _ _ _ _ H1)|].
    split; [exact (lookup_union_Some_l _ _ _ _ H2)|].
    split; [exact (printed_toString _ Hsafe)|].
    split; [exact (lookup_union_Some_l _ _ _ _ H3)|].
    exact (lookup_union_Some_l _ _ _ _ H4).
Qed.

(** [start_writes_one_session] on the first upload of a user: the
    session holds the size ["1000"] and expires 20 minutes after
    [Demo.morning]. *)
Lemma start_writes_one_session_witness :
  exists h,
    redis (snd (start (Demo.env 3 0) Demo.user (Demo.upload "a.png" 1000) Demo.fresh))
      !! sessionKey Demo.user "uuid-0" = Some (h, Demo.morning + 1200000)
    /\ h !! "fileSize" = Some "1000".
Proof.
  assert (Hstart : fst (start (Demo.env 3 0) Demo.user (Demo.upload "a.png" 1000) Demo.fresh)
                   = Ok (startReturn (Demo.env 3 0) (Demo.upload "a.png" 1000) Demo.fresh))
    by (vm_compute; reflexivity).
  destruct (start_writes_one_session _ _ _ _ _ _ (run_Ok _ _ _ Hstart) eq_refl)
    as (_ & _ & _ & _ & _ & h & Hkey & _ & Hsize & _).
  exists h. split; [exact Hkey | exact Hsize].
Defined.

Lemma In_keys_iff (w : World) (pattern k : RKey) :
  In k (RedisService.keys w pattern)
  <-> RedisKey.matches pattern k = true
      /\ exists h e, redis w !! k = Some (h, e) /\ now w < e.
Proof.
  unfold RedisService.keys. rewrite in_map_iff. split.
  - intros ([k' [h e]] & <- & H). apply filter_In in H as [Hin Hf].
    apply list_elem_of_In, elem_of_map_to_list in Hin.
    apply andb_prop in Hf as [Hm Hlt]. apply Z.ltb_lt in Hlt.
    split; [exact Hm|]. exists h, e. split; [exact Hin | exact Hlt].
  - intros (Hm & h & e & Hk & Hlt). exists (k, (h, e)). split; [reflexivity|].
    apply filter_In. split.
    + apply list_elem_of_In, elem_of_map_to_list. exact Hk.
    + cbn [fst snd]. rewrite Hm. apply Z.ltb_lt in Hlt. rewrite Hlt. reflexivity.
Qed.

(** X4: the session written by [start] holds one of the user's slots for
    20 minutes and no longer: as the clock moves on and nothing else
    happens, the session is among the ones in flight exactly until
    1200000 ms after [start]. *)
Theorem started_session_in_flight_iff (env : Env) (userUUID : string)
    (config : StartConfig.t) (w w1 : World) (r : StartReturn.t) (t : Z)
    (Hstart : start env userUUID config w = (Ok r, w1)) :
  In (sessionKey userUUID (StartReturn.fileUUID r)) (liveSessions userUUID (set_now t w1))
  <-> t < now w + 20 * 60 * 1000.
Proof.
  apply start_Ok_inv in Hstart as [-> ->].
  unfold startReturn. cbn [StartReturn.fileUUID].
  unfold liveSessions. rewrite In_keys_iff.
  change (redis (set_now t (startedWorld env userUUID config w)))
    with (redis (startedWorld env userUUID config w)).
  change (now (set_now t (startedWorld env userUUID config w))) with t.
  rewrite started_redis, lookup_insert_eq. split.
  - intros (_ & h & e & Heq & Hlt). injection Heq as _ <-. lia.
  - intros Hlt. split; [apply matches_own_session|].
    eexists _, _. split; [reflexivity | lia].
Qed.

(** [started_session_in_flight_iff] ten minutes after the first upload
    of a user. *)
Lemma started_session_in_flight_iff_witness :
  In (sessionKey Demo.user "uuid-0")
     (liveSessions Demo.user
        (set_now (Demo.morning + 600000)
           (snd (start (Demo.env 3 0) Demo.user (Demo.upload "a.png" 1000) Demo.fresh)))).
Proof.
  assert (Hstart : fst (start (Demo.env 3 0) Demo.user (Demo.upload "a.png" 1000) Demo.fresh)
                   = Ok (startReturn (Demo.env 3 0) (Demo.upload "a.png" 1000) Demo.fresh))
    by (vm_compute; reflexivity).
  apply (proj2 (started_session_in_flight_iff _ _ _ _ _ _ (Demo.morning + 600000)
                  (run_Ok _ _ _ Hstart))).
  reflexivity.
Defined.

(** X5: a [fileSize] that is not a number passes both capacity checks,
    whatever the usage, since [NaN > totalSize] is false: [start] then
    fulfils as soon as a slot is free and the directory exists.  The
    session it writes holds the size ["NaN"] and no [finish] ever accepts
    it: each one rejects with [FileNotFound] and records nothing. *)
Theorem start_NaN_size (env : Env) (userUUID : string) (config : StartConfig.t)
    (w : World)
    (Hsize : StartConfig.fileSize config = JS.NaN)
    (Hlive : liveCount userUUID w < CloudStorage_concurrent env)
    (Hdir : directoryMissing w userUUID (StartConfig.targetDirectoryPath config) = None) :
  exists r w1,
    start env userUUID config w = (Ok r, w1)
    /\ forall t,
         finish env userUUID (StartReturn.fileUUID r) (set_now t w1)
         = (Throw FileNotFound,
            log_events [RedisHmget (sessionKey userUUID (StartReturn.fileUUID r));
                        LoggerInfo "not found file in redis"] (set_now t w1)).
Proof.
  assert (Hcap : capacityExceeded env userUUID (StartConfig.fileSize config) w = false).
  { unfold capacityExceeded. rewrite Hsize. reflexivity. }
  exists (startReturn env config w), (startedWorld env userUUID config w).
  split; [exact (start_Ok_of_checks _ _ _ _ Hlive Hcap Hdir)|]. intros t.
  unfold startReturn. cbn [StartReturn.fileUUID].
  rewrite finish_run. cbv zeta.
  assert (Hinv : sessionInvalid userUUID (set_now t (startedWorld env userUUID config w))
                   (uuids w (uuidCount w)) = true).
  { destruct (Z.lt_ge_cases t (now w + 20 * 60 * 1000)) as [Hlt|Hge].
    - destruct (sessionHash_lookup env config) as (_ & H2 & _).
      pose proof (started_field env userUUID config w t _ _ Hlt H2) as Hf.
      rewrite Hsize in Hf.
      unfold sessionInvalid, sessionFileSize. rewrite Hf.
      change (JS.isNaN (JS.Number (JS.or_value (JS.VString (JS.toString JS.NaN))
                                     JS.VUndefined))) with true.
      rewrite orb_true_r. reflexivity.
    - apply sessionInvalid_dead.
      unfold RedisService.live.
      change (redis (set_now t (startedWorld env userUUID config w)))
        with (redis (startedWorld env userUUID config w)).
      change (now (set_now t (startedWorld env userUUID config w))) with t.
      rewrite started_redis, lookup_insert_eq.
      destruct (Z.ltb_spec t (now w + 60 * 20 * 1000)); [lia | reflexivity]. }
  rewrite Hinv. reflexivity.
Qed.

(** [start_NaN_size] with 9500 of 10000 bytes used. *)
Lemma start_NaN_size_witness :
  exists r w1,
    start (Demo.env 3 0) Demo.user
      {| StartConfig.fileName := "a.png"; StartConfig.fileSize := JS.NaN;
         StartConfig.targetDirectoryPath := "/docs" |} Demo.nearlyFull = (Ok r, w1)
    /\ fst (finish (Demo.env 3 0) Demo.user (StartReturn.fileUUID r) (set_now Demo.morning w1))
       = Throw FileNotFound.
Proof.
  destruct (start_NaN_size (Demo.env 3 0) Demo.user
              {| StartConfig.fileName := "a.png"; StartConfig.fileSize := JS.NaN;
                 StartConfig.targetDirectoryPath := "/docs" |} Demo.nearlyFull
              eq_refl eq_refl eq_refl) as (r & w1 & Hstart & Hfinish).
  exists r, w1. split; [exact Hstart|]. rewrite Hfinish. reflexivity.
Defined.

(* ===================================================================== *)
(** ** More on [finish] *)
(* ===================================================================== *)

(** A valid session is a live one. *)
Lemma sessionValid_live (userUUID : string) (w : World) (fileUUID : string) :
  sessionInvalid userUUID w fileUUID = false ->
  exists h, RedisService.live w (sessionKey userUUID fileUUID) = Some h.
Proof.
  intros H. destruct (RedisService.live w (sessionKey userUUID fileUUID)) as [h|] eqn:E;
    [eauto|].
  rewrite (sessionInvalid_dead _ _ _ E) in H. discriminate.
Qed.

(** A [finish] that fulfils found the directory and the object and had
    room for the file. *)
Lemma finish_Ok_checks (env : Env) (userUUID fileUUID : string) (w w' : World) :
  finish env userUUID fileUUID w = (Ok tt, w') ->
  let info := sessionInfo userUUID w fileUUID in
  directoryMissing w userUUID (FileInfo.targetDirectoryPath info) = None
  /\ ossMissing w (ossFilePathAt env (now w) (FileInfo.fileName info) fileUUID) = None
  /\ JS.gt (finishedUsage userUUID w fileUUID) (JS.Num (CloudStorage_totalSize env)) = false.
Proof.
  rewrite finish_run. cbv zeta.
  destruct (sessionInvalid userUUID w fileUUID); [discriminate|].
  destruct (directoryMissing w userUUID _); [discriminate|].
  destruct (ossMissing w _); [discriminate|].
  destruct (JS.gt _ _); [discriminate|].
  intros _. repeat split.
Qed.

(** A [finish] whose checks pass fulfils. *)
Lemma finish_Ok_of_checks (env : Env) (userUUID fileUUID : string) (w : World) :
  let info := sessionInfo userUUID w fileUUID in
  sessionInvalid userUUID w fileUUID = false ->
  directoryMissing w userUUID (FileInfo.targetDirectoryPath info) = None ->
  ossMissing w (ossFilePathAt env (now w) (FileInfo.fileName info) fileUUID) = None ->
  JS.gt (finishedUsage userUUID w fileUUID) (JS.Num (CloudStorage_totalSize env)) = false ->
  finish env userUUID fileUUID w = (Ok tt, finishedWorld env userUUID w fileUUID).
Proof.
  intros info Hvalid Hdir Hoss Hgt. rewrite finish_run. cbv zeta. fold info.
  rewrite Hvalid, Hdir, Hoss, Hgt. reflexivity.
Qed.

Lemma finished_durableUsage (env : Env) (userUUID fileUUID : string) (w : World)
    (fileSize : Z) :
  sessionFileSize userUUID w fileUUID = JS.Num fileSize ->
  durableUsage userUUID (finishedWorld env userUUID w fileUUID)
  = durableUsage userUUID w + fileSize.
Proof.
  intros Hsize. unfold durableUsage at 1, finishedWorld. cbn [cloud_storage_configs].
  rewrite lookup_insert_eq. unfold finishedUsage. rewrite Hsize. unfold JS.add.
  apply numberOrZero_toString.
Qed.

(** X6: a [finish] that fulfils frees exactly one of the user's slots. *)
Theorem finish_frees_one_slot (env : Env) (userUUID fileUUID : string) (w w' : World)
    (Hok : finish env userUUID fileUUID w = (Ok tt, w')) :
  liveCount userUUID w' = liveCount userUUID w - 1.
Proof.
  apply finish_Ok_inv in Hok as [Hvalid ->].
  destruct (sessionValid_live _ _ _ Hvalid) as [h Hlive].
  rewrite !liveCount_countLive.
  change (redis (finishedWorld env userUUID w fileUUID))
    with (delete (sessionKey userUUID fileUUID) (redis w)).
  change (now (finishedWorld env userUUID w fileUUID)) with (now w).
  rewrite (countLive_delete _ _ (redis w) (sessionKey userUUID fileUUID)).
  rewrite (live_counted _ _ _ _ Hlive). lia.
Qed.

(** [finish_frees_one_slot] on the one upload in flight. *)
Lemma finish_frees_one_slot_witness :
  liveCount Demo.user (snd (finish (Demo.env 3 0) Demo.user "f1" Demo.uploaded)) = 1 - 1.
Proof.
  assert (Hok : fst (finish (Demo.env 3 0) Demo.user "f1" Demo.uploaded) = Ok tt)
    by (vm_compute; reflexivity).
  rewrite (finish_frees_one_slot _ _ _ _ _ (run_Ok _ _ _ Hok)). reflexivity.
Defined.

(** X7: a [finish] that fulfils touches nothing but its own session, its
    own user's usage and the ends of the two tables: every other session
    key and every other user's usage record are as they were, the rows
    and links that existed are still there in the same order, and no
    identifier of [v4] is drawn. *)
Theorem finish_touches_only_its_own (env : Env) (userUUID fileUUID : string) (w w' : World)
    (Hok : finish env userUUID fileUUID w = (Ok tt, w')) :
  (forall k, k <> sessionKey userUUID fileUUID -> redis w' !! k = redis w !! k)
  /\ (forall u, u <> userUUID ->
        cloud_storage_configs w' !! u = cloud_storage_configs w !! u)
  /\ (forall u, u <> userUUID -> durableUsage u w' = durableUsage u w)
  /\ (exists row, cloud_storage_files w' = (cloud_storage_files w ++ [row])%list)
  /\ cloud_storage_user_files w'
     = (cloud_storage_user_files w ++ [(userUUID, fileUUID)])%list
  /\ uuidCount w' = uuidCount w.
Proof.
  apply finish_Ok_inv in Hok as [_ ->]. unfold finishedWorld.
  cbn [redis cloud_storage_configs cloud_storage_files cloud_storage_user_files
       uuidCount].
  split; [intros k Hk; apply lookup_delete_ne; congruence|].
  split; [intros u Hu; apply lookup_insert_ne; congruence|].
  split.
  { intros u Hu. unfold durableUsage. cbn [cloud_storage_configs].
    rewrite lookup_insert_ne by congruence. reflexivity. }
  split; [eexists; reflexivity|].
  repeat split.
Qed.

(** [finish_touches_only_its_own] when [alice] finishes her upload
    while [bob] has 500 bytes recorded and a session in flight: both are
    as they were. *)
Lemma finish_touches_only_its_own_witness :
  fst (finish (Demo.env 3 0) Demo.user "f1" Scenario.shared) = Ok tt
  /\ redis (snd (finish (Demo.env 3 0) Demo.user "f1" Scenario.shared)) !! ("bob", "g1")
     = Some (Demo.session "b.png" "300", Demo.morning + 1200000)
  /\ durableUsage "bob" (snd (finish (Demo.env 3 0) Demo.user "f1" Scenario.shared)) = 500.
Proof.
  assert (Hok : fst (finish (Demo.env 3 0) Demo.user "f1" Scenario.shared) = Ok tt)
    by (vm_compute; reflexivity).
  destruct (finish_touches_only_its_own _ _ _ _ _ (run_Ok _ _ _ Hok))
    as (Hkeys & _ & Husage & _).
  split; [exact Hok|]. split.
  - rewrite (Hkeys ("bob", "g1")) by discriminate.
    unfold Scenario.shared. cbn [redis]. apply lookup_insert_eq.
  - rewrite (Husage "bob") by discriminate. vm_compute. reflexivity.
Defined.

(** Calls that were logged do not change what [finish] answers. *)
Lemma finish_after_log (env : Env) (userUUID fileUUID : string) (evs : list Event)
    (w : World) :
  fst (finish env userUUID fileUUID (log_events evs w))
  = fst (finish env userUUID fileUUID w).
Proof.
  rewrite !finish_run. cbv zeta.
  change (sessionInvalid userUUID (log_events evs w) fileUUID)
    with (sessionInvalid userUUID w fileUUID).
  change (sessionInfo userUUID (log_events evs w) fileUUID)
    with (sessionInfo userUUID w fileUUID).
  change (directoryMissing (log_events evs w)) with (directoryMissing w).
  change (ossMissing (log_events evs w)) with (ossMissing w).
  change (now (log_events evs w)) with (now w).
  change (finishedUsage userUUID (log_events evs w) fileUUID)
    with (finishedUsage userUUID w fileUUID).
  destruct (sessionInvalid userUUID w fileUUID); [reflexivity|].
  destruct (directoryMissing w userUUID _); [reflexivity|].
  destruct (ossMissing w _); [reflexivity|].
  destruct (JS.gt _ _); reflexivity.
Qed.

(** X8: a [finish] that rejects, for whatever reason, has written nothing:
    the session is still there, no row, link or usage record was written,
    and the world differs by logged reads only; calling [finish] again
    right away rejects with the same error. *)
Theorem finish_reject_writes_nothing (env : Env) (userUUID fileUUID : string)
    (w w' : World) (e : ErrorCode)
    (Hreject : finish env userUUID fileUUID w = (Throw e, w')) :
  (exists evs : list Event,
     w' = log_events evs w /\ forallb (fun ev => negb (isWrite ev)) evs = true)
  /\ redis w' = redis w
  /\ cloud_storage_configs w' = cloud_storage_configs w
  /\ cloud_storage_files w' = cloud_storage_files w
  /\ cloud_storage_user_files w' = cloud_storage_user_files w
  /\ fst (finish env userUUID fileUUID w') = Throw e.
Proof.
  assert (Hlog : exists evs : list Event,
             w' = log_events evs w /\ forallb (fun ev => negb (isWrite ev)) evs = true).
  { rewrite finish_run in Hreject. cbv zeta in Hreject.
    repeat match type of Hreject with
           | (if ?c then _ else _) = _ => destruct c
           | match ?c with Some _ => _ | None => _ end = _ => destruct c
           end;
      inversion Hreject; subst; eexists; split; reflexivity. }
  destruct Hlog as (evs & -> & Hevs).
  split; [exists evs; split; [reflexivity | exact Hevs]|].
  split; [reflexivity|]. split; [reflexivity|]. split; [reflexivity|].
  split; [reflexivity|].
  apply (f_equal fst) in Hreject. cbn [fst] in Hreject. rewrite <- Hreject.
  apply finish_after_log.
Qed.

(** [finish_reject_writes_nothing] on the upload whose object never
    arrived. *)
Lemma finish_reject_writes_nothing_witness :
  fst (finish (Demo.env 3 0) Demo.user "f1"
         (snd (finish (Demo.env 3 0) Demo.user "f1" (Demo.notUploaded (OtherCode 2)))))
  = Throw (OtherCode 2).
Proof.
  assert (H : fst (finish (Demo.env 3 0) Demo.user "f1" (Demo.notUploaded (OtherCode 2)))
              = Throw (OtherCode 2)) by (vm_compute; reflexivity).
  assert (Hreject : finish (Demo.env 3 0) Demo.user "f1" (Demo.notUploaded (OtherCode 2))
                    = (Throw (OtherCode 2),
                       snd (finish (Demo.env 3 0) Demo.user "f1"
                              (Demo.notUploaded (OtherCode 2))))).
  { rewrite <- H. apply surjective_pairing. }
  exact (proj2 (proj2 (proj2 (proj2 (proj2
           (finish_reject_writes_nothing _ _ _ _ _ _ Hreject)))))).
Defined.

(** X9: after a [finish] that fulfils, the usage recorded for the user is
    within [totalSize]. *)
Theorem finish_usage_within_limit (env : Env) (userUUID fileUUID : string) (w w' : World)
    (Hok : finish env userUUID fileUUID w = (Ok tt, w')) :
  durableUsage userUUID w' <= CloudStorage_totalSize env.
Proof.
  destruct (finish_Ok_checks _ _ _ _ _ Hok) as (_ & _ & Hgt).
  apply finish_Ok_inv in Hok as [Hvalid ->].
  destruct (sessionValid_size _ _ _ Hvalid) as [fileSize Hsize].
  rewrite (finished_durableUsage _ _ _ _ _ Hsize).
  unfold finishedUsage in Hgt. rewrite Hsize in Hgt. unfold JS.add in Hgt.
  rewrite gt_Num in Hgt. apply Z.ltb_ge in Hgt. exact Hgt.
Qed.

(** [finish_usage_within_limit] on the upload of 1000 bytes. *)
Lemma finish_usage_within_limit_witness :
  durableUsage Demo.user (snd (finish (Demo.env 3 0) Demo.user "f1" Demo.uploaded))
  <= 10000.
Proof.
  assert (Hok : fst (finish (Demo.env 3 0) Demo.user "f1" Demo.uploaded) = Ok tt)
    by (vm_compute; reflexivity).
  exact (finish_usage_within_limit _ _ _ _ _ (run_Ok _ _ _ Hok)).
Defined.

(** X10: the usage [updateTotalUsage] writes is the usage
    [getTotalUsageByUpdated] reads: for safe integers [z] and [fileSize]
    with a safe sum and a safe limit, after [updateTotalUsage(z)] the
    user's usage is [z] and the capacity check decides on [z]; the records
    of the other users are untouched; a total that is not a number is
    stored as ["NaN"] and read back as 0. *)
Theorem updateTotalUsage_then_read (env : Env) (userUUID : string) (z fileSize : Z)
    (w : World)
    (Hlimit : isSafeInteger (CloudStorage_totalSize env) = true)
    (Hz : isSafeInteger z = true)
    (Hsize : isSafeInteger fileSize = true)
    (Hsum : isSafeInteger (z + fileSize) = true) :
  let w' := snd (updateTotalUsage userUUID (JS.Num z) w) in
  fst (updateTotalUsage userUUID (JS.Num z) w) = Ok tt
  /\ durableUsage userUUID w' = z
  /\ fst (getTotalUsageByUpdated env userUUID (JS.Num fileSize) w')
     = (if CloudStorage_totalSize env <? z + fileSize
        then Throw NotEnoughTotalUsage
        else Ok (JS.Num (z + fileSize)))
  /\ (forall u, u <> userUUID -> durableUsage u w' = durableUsage u w)
  /\ durableUsage userUUID (snd (updateTotalUsage userUUID JS.NaN w)) = 0.
Proof.
  intros w'. subst w'. unfold updateTotalUsage.
  rewrite !configs_insert_orUpdate_run. cbn [fst snd].
  assert (Hw : durableUsage userUUID
                 (set_configs (<[userUUID := JS.toString (JS.Num z)]> (cloud_storage_configs w))
                    (log_events [ConfigsInsertOrUpdate userUUID (JS.toString (JS.Num z))] w))
               = z).
  { unfold durableUsage. cbn [cloud_storage_configs set_configs].
    rewrite lookup_insert_eq. apply numberOrZero_toString. }
  split; [reflexivity|]. split; [exact Hw|]. split.
  { rewrite getTotalUsageByUpdated_run. cbv zeta. rewrite Hw. unfold JS.add.
    rewrite gt_Num. destruct (_ <? _); reflexivity. }
  split.
  { intros u Hu. unfold durableUsage. cbn [cloud_storage_configs set_configs].
    rewrite lookup_insert_ne by congruence. reflexivity. }
  unfold durableUsage. cbn [cloud_storage_configs set_configs].
  rewrite lookup_insert_eq. reflexivity.
Qed.

(** [updateTotalUsage_then_read] with 9500 bytes recorded and 1000 more
    asked for, 10000 allowed. *)
Lemma updateTotalUsage_then_read_witness :
  fst (getTotalUsageByUpdated (Demo.env 3 0) Demo.user (JS.Num 1000)
         (snd (updateTotalUsage Demo.user (JS.Num 9500) Demo.fresh)))
  = Throw NotEnoughTotalUsage.
Proof.
  exact (proj1 (proj2 (proj2 (updateTotalUsage_then_read (Demo.env 3 0) Demo.user 9500 1000
                                Demo.fresh eq_refl eq_refl eq_refl eq_refl)))).
Defined.

(* ===================================================================== *)
(** ** The extension of the object path *)
(* ===================================================================== *)

Lemma get_Some_lt (s : string) (i : nat) :
  (i < String.length s)%nat -> exists c, String.get i s = Some c.
Proof.
  revert i. induction s as [|c s IH]; intros i Hi; simpl in Hi; [lia|].
  destruct i as [|i]; simpl; [eauto|]. apply IH. lia.
Qed.

Lemma scanned_extensionFound (p : string) (n : nat) (st : path.locals) :
  scanned p n st -> extensionFound p st.
Proof.
  intros (_ & Hend & Hdot & Hslash) Hsd.
  destruct Hdot as [Hdot|[Hrange Hget]]; [contradiction|].
  destruct Hend as [Hend|Hend]; [lia|].
  split; [lia|]. split; [lia|]. split; [exact Hget|].
  intros j Hj. apply Hslash. lia.
Qed.

Lemma scan_back_extensionFound (p : string) (n : nat) (st : path.locals) :
  (n <= String.length p)%nat ->
  scanned p n st ->
  extensionFound p (path.scan_back p n st).
Proof.
  revert st. induction n as [|i IH]; intros st Hn Hinv.
  - exact (scanned_extensionFound _ _ _ Hinv).
  - simpl. destruct (String.get i p) as [code|] eqn:Hcode;
      [|exact (scanned_extensionFound _ _ _ Hinv)].
    destruct Hinv as (Hiff & Hend & Hdot & Hslash).
    destruct (Ascii.eqb_spec code path.CHAR_FORWARD_SLASH) as [Hsl|Hsl].
    + destruct (path.matchedSlash st) eqn:Hm; cbn [negb].
      * (* continue *)
        assert (He : path.end_ st = -1) by (apply Hiff; reflexivity).
        apply IH; [lia|]. split; [rewrite Hm; exact Hiff|]. split; [left; exact He|].
        split; [destruct Hdot as [?|[? _]]; [left; assumption | lia]|].
        intros j Hj. lia.
      * (* break *)
        intros Hsd. cbn [path.startDot path.end_] in *.
        destruct Hdot as [Hdot|[Hrange Hget]]; [contradiction|].
        destruct Hend as [Hend|Hend]; [lia|].
        split; [lia|]. split; [lia|]. split; [exact Hget|].
        intros j Hj. apply Hslash. lia.
    + apply IH; [lia|].
      (* the locals after the two updates *)
      set (st1 := if path.end_ st =? -1 then _ else st).
      assert (H1 : path.end_ st1 <> -1
                   /\ path.matchedSlash st1 = false
                   /\ Z.of_nat i < path.end_ st1 <= Z.of_nat (String.length p)
                   /\ path.startDot st1 = path.startDot st
                   /\ (forall j : nat, Z.of_nat i <= Z.of_nat j < path.end_ st1 ->
                                       String.get j p <> Some "/"%char)).
      { subst st1. destruct (Z.eqb_spec (path.end_ st) (-1)) as [He|He].
        - cbn [path.end_ path.matchedSlash path.startDot].
          split; [lia|]. split; [reflexivity|]. split; [lia|]. split; [reflexivity|].
          intros j Hj. assert (j = i) by lia. subst j. rewrite Hcode.
          intros H. injection H as H. contradiction.
        - destruct Hend as [?|Hend]; [contradiction|].
          split; [exact He|]. split.
          { destruct (path.matchedSlash st); [|reflexivity].
            exfalso. apply He, Hiff. reflexivity. }
          split; [lia|]. split; [reflexivity|].
          intros j Hj. destruct (Nat.eq_dec j i) as [->|Hne].
          + rewrite Hcode. intros H. injection H as H. contradiction.
          + apply Hslash. lia. }
      destruct H1 as (He1 & Hm1 & Hr1 & Hsd1 & Hs1).
      assert (Hdot1 : path.startDot st1 = -1
                      \/ (Z.of_nat i <= path.startDot st1 < path.end_ st1
                          /\ String.get (Z.to_nat (path.startDot st1)) p = Some "."%char)).
      { rewrite Hsd1. destruct Hdot as [?|[Hrange Hget]]; [left; assumption|].
        right. split; [|exact Hget].
        destruct Hend as [?|?]; [lia|].
        assert (path.end_ st <= path.end_ st1).
        { subst st1. destruct (path.end_ st =? -1) eqn:E; [apply Z.eqb_eq in E; lia|lia]. }
        lia. }
      clearbody st1.
      destruct (Ascii.eqb_spec code path.CHAR_DOT) as [Hd|Hd].
      * destruct (Z.eqb_spec (path.startDot st1) (-1)) as [Hs|Hs].
        -- split; [cbn [path.end_ path.matchedSlash]; rewrite Hm1; split; [lia|discriminate]|].
           split; [right; cbn [path.end_]; lia|].
           split; [|exact Hs1].
           right. cbn [path.startDot path.end_]. split; [lia|].
           rewrite Nat2Z.id, Hcode, Hd. reflexivity.
        -- destruct (negb (path.preDotState st1 =? 1)).
           ++ split; [cbn [path.end_ path.matchedSlash]; rewrite Hm1;
                      split; [lia|discriminate]|].
              split; [right; cbn [path.end_]; lia|].
              split; [exact Hdot1 | exact Hs1].
           ++ split; [rewrite Hm1; split; [lia|discriminate]|].
              split; [right; lia|]. split; [exact Hdot1 | exact Hs1].
      * destruct (negb (path.startDot st1 =? -1)).
        -- split; [cbn [path.end_ path.matchedSlash]; rewrite Hm1;
                   split; [lia|discriminate]|].
           split; [right; cbn [path.end_]; lia|].
           split; [exact Hdot1 | exact Hs1].
        -- split; [rewrite Hm1; split; [lia|discriminate]|].
           split; [right; lia|]. split; [exact Hdot1 | exact Hs1].
Qed.

Lemma init_scanned (p : string) : scanned p (String.length p) path.init.
Proof.
  unfold scanned, path.init. cbn [path.end_ path.matchedSlash path.startDot].
  split; [tauto|]. split; [left; reflexivity|]. split; [left; reflexivity|].
  intros j Hj. lia.
Qed.

(** X11: the extension [generateOSSFilePath] appends to the object path is
    empty or starts with a dot, contains no [/], and is no longer than
    the file name: whatever the file name, it adds no segment to the
    path. *)
Theorem extname_shape (p : string) :
  (path.extname p = "" \/ exists rest, path.extname p = String "."%char rest)
  /\ (forall k, String.get k (path.extname p) <> Some "/"%char)
  /\ (String.length (path.extname p) <= String.length p)%nat.
Proof.
  pose proof (scan_back_extensionFound p (String.length p) path.init
                (Nat.le_refl _) (init_scanned p)) as HQ.
  unfold path.extname. cbv zeta.
  set (st := path.scan_back p (String.length p) path.init) in *.
  destruct (Z.eqb_spec (path.startDot st) (-1)) as [Hsd|Hsd];
    [cbn [orb]; split; [left; reflexivity|]; split;
     [intros [|k]; discriminate | simpl; lia]|].
  cbn [orb].
  destruct (_ || _); [split; [left; reflexivity|]; split;
                      [intros [|k]; discriminate | simpl; lia]|].
  destruct (HQ Hsd) as (Hrange & Hlen & Hget & Hslash).
  unfold path.slice.
  set (n := Z.to_nat (path.startDot st)) in *.
  set (m := Z.to_nat (path.end_ st - path.startDot st)).
  assert (Hm : (0 < m)%nat) by (subst m; lia).
  split; [|split].
  - right. pose proof (substring_correct1 p n m 0 Hm) as H0.
    simpl in H0. rewrite Hget in H0.
    destruct (substring n m p) as [|c rest]; [discriminate|].
    simpl in H0. injection H0 as ->. eauto.
  - intros k. destruct (Nat.lt_ge_cases k m) as [Hk|Hk].
    + rewrite (substring_correct1 p n m k Hk). apply Hslash. subst n m. lia.
    + rewrite (substring_correct2 p n m k Hk). discriminate.
  - assert (Hl : forall s a b, (a + b <= String.length s)%nat ->
                               String.length (substring a b s) = b).
    { induction s as [|c s IHs]; intros a b Hab; simpl in Hab.
      - assert (a = 0%nat) by lia. assert (b = 0%nat) by lia. subst. reflexivity.
      - destruct a as [|a]; simpl.
        + destruct b as [|b]; [reflexivity|]. simpl. f_equal. apply (IHs 0%nat). lia.
        + apply IHs. lia. }
    rewrite Hl; subst n m; lia.
Qed.

(* ===================================================================== *)
(** ** From [start] to [finish] *)
(* ===================================================================== *)

Lemma toString_nonempty (z : Z) : JS.toString (JS.Num z) <> "".
Proof.
  unfold JS.toString. destruct (z <? 0); [discriminate | apply decimal_nonempty].
Qed.

(** A session holding the four fields [start] writes, not expired, is
    loaded as written. *)
Lemma written_session_loaded (userUUID fileUUID : string) (w : World)
    (h : gmap string string) (expireAt : Z)
    (fileName targetDirectoryPath fileResourceType : string) (fileSize : Z) :
  redis w !! sessionKey userUUID fileUUID = Some (h, expireAt) ->
  now w < expireAt ->
  h !! "fileName" = Some fileName ->
  h !! "fileSize" = Some (JS.toString (JS.Num fileSize)) ->
  h !! "targetDirectoryPath" = Some targetDirectoryPath ->
  h !! "fileResourceType" = Some fileResourceType ->
  fileName <> "" -> targetDirectoryPath <> "" -> fileResourceType <> "" ->
  sessionInvalid userUUID w fileUUID = false
  /\ sessionInfo userUUID w fileUUID
     = {| FileInfo.fileName := fileName;
          FileInfo.fileSize := JS.Num fileSize;
          FileInfo.targetDirectoryPath := targetDirectoryPath;
          FileInfo.fileResourceType := fileResourceType |}.
Proof.
  intros Hkey Hlive H1 H2 H3 H4 Hn Hd Ht.
  assert (Hf : forall f v, h !! f = Some v ->
                           sessionField userUUID w fileUUID f = JS.VString v).
  { intros f v Hv. unfold sessionField, RedisService.field, RedisService.live.
    rewrite Hkey. destruct (Z.ltb_spec (now w) expireAt); [|lia]. rewrite Hv. reflexivity. }
  assert (HN : JS.Number (JS.or_value (JS.VString (JS.toString (JS.Num fileSize)))
                            JS.VUndefined) = JS.Num fileSize).
  { unfold JS.or_value. pose proof (toString_nonempty fileSize) as Hne.
    destruct (JS.toString (JS.Num fileSize)) as [|c s] eqn:E; [congruence|].
    cbn [JS.truthy]. rewrite <- E. apply Number_toString. }
  unfold sessionInvalid, sessionInfo, sessionFileSize.
  rewrite (Hf _ _ H1), (Hf _ _ H2), (Hf _ _ H3), (Hf _ _ H4), HN.
  destruct fileName; [congruence|].
  destruct targetDirectoryPath; [congruence|].
  destruct fileResourceType; [congruence|].
  split; reflexivity.
Qed.

(** X12: the whole protocol: after a [start] that fulfilled, once the object
    is at the returned path, a [finish] called on the same local day,
    within the 20 minutes, with the directory still there and room for
    the file, fulfils: it records the file under the URL of the path
    [start] returned and adds its size to the user's usage.  The size,
    the usage record read by [finish] and their sum are taken in the
    range of the number model. *)
Theorem upload_completes (env : Env) (userUUID : string) (config : StartConfig.t)
    (w w1 w2 : World) (r : StartReturn.t) (fileSize : Z)
    (Hstart : start env userUUID config w = (Ok r, w1))
    (Hsize : StartConfig.fileSize config = JS.Num fileSize)
    (Hrange : usageInRange env userUUID (JS.Num fileSize) w2 = true)
    (Hname : StartConfig.fileName config <> "")
    (Hdir : StartConfig.targetDirectoryPath config <> "")
    (Htype : getFileResourceTypeByFileName env (StartConfig.fileName config) <> "")
    (Hsession : redis w2 !! sessionKey userUUID (StartReturn.fileUUID r)
                = redis w1 !! sessionKey userUUID (StartReturn.fileUUID r))
    (Hlive : now w2 < now w + 20 * 60 * 1000)
    (Hday : date_fns.Day (localTime env (now w2)) = date_fns.Day (localTime env (now w)))
    (Hexists : directoryMissing w2 userUUID (StartConfig.targetDirectoryPath config) = None)
    (Hobject : ossMissing w2 (StartReturn.ossFilePath r) = None)
    (Hroom : durableUsage userUUID w2 + fileSize <= CloudStorage_totalSize env) :
  exists (w3 : World) (row : FileRow.t),
    finish env userUUID (StartReturn.fileUUID r) w2 = (Ok tt, w3)
    /\ durableUsage userUUID w3 = durableUsage userUUID w2 + fileSize
    /\ cloud_storage_files w3 = (cloud_storage_files w2 ++ [row])%list
    /\ FileRow.file_uuid row = StartReturn.fileUUID r
    /\ FileRow.file_name row = StartConfig.fileName config
    /\ FileRow.file_size row = JS.Num fileSize
    /\ FileRow.file_url row = oss_domain env +:+ "/" +:+ StartReturn.ossFilePath r
    /\ FileRow.directory_path row = StartConfig.targetDirectoryPath config
    /\ FileRow.resource_type row
       = getFileResourceTypeByFileName env (StartConfig.fileName config)
    /\ cloud_storage_user_files w3
       = (cloud_storage_user_files w2 ++ [(userUUID, StartReturn.fileUUID r)])%list.
Proof.
  apply start_Ok_inv in Hstart as [-> ->].
  unfold startReturn in *. cbn [StartReturn.fileUUID StartReturn.ossFilePath] in *.
  set (fileUUID := uuids w (uuidCount w)) in *.
  rewrite started_redis in Hsession. fold fileUUID in Hsession.
  rewrite lookup_insert_eq in Hsession.
  destruct (sessionHash_lookup env config) as (H1 & H2 & H3 & H4).
  rewrite Hsize in H2.
  destruct (written_session_loaded userUUID fileUUID w2 _ _ _ _ _ fileSize Hsession
              ltac:(lia)
              (lookup_union_Some_l _ _ _ _ H1) (lookup_union_Some_l _ _ _ _ H2)
              (lookup_union_Some_l _ _ _ _ H3) (lookup_union_Some_l _ _ _ _ H4)
              Hname Hdir Htype) as [Hvalid Hinfo].
  assert (Hpath : ossFilePathAt env (now w2) (StartConfig.fileName config) fileUUID
                  = ossFilePathAt env (now w) (StartConfig.fileName config) fileUUID)
    by (apply ossFilePathAt_same_day; exact Hday).
  assert (Hfs : sessionFileSize userUUID w2 fileUUID = JS.Num fileSize).
  { change (sessionFileSize userUUID w2 fileUUID)
      with (FileInfo.fileSize (sessionInfo userUUID w2 fileUUID)).
    rewrite Hinfo. reflexivity. }
  exists (finishedWorld env userUUID w2 fileUUID), (finishedRow env userUUID w2 fileUUID).
  split.
  { apply finish_Ok_of_checks.
    - exact Hvalid.
    - rewrite Hinfo. exact Hexists.
    - rewrite Hinfo. cbn [FileInfo.fileName]. rewrite Hpath. exact Hobject.
    - unfold finishedUsage. rewrite Hfs. unfold JS.add. rewrite gt_Num.
      apply Z.ltb_ge. exact Hroom. }
  split; [exact (finished_durableUsage _ _ _ _ _ Hfs)|].
  split; [reflexivity|].
  unfold finishedRow. rewrite Hinfo.
  cbn [FileRow.file_uuid FileRow.file_name FileRow.file_size FileRow.file_url
       FileRow.directory_path FileRow.resource_type FileInfo.fileName FileInfo.fileSize
       FileInfo.targetDirectoryPath FileInfo.fileResourceType].
  rewrite Hpath. repeat split.
Qed.

Lemma objectArrived_redis (t : Z) (p : string) (w : World) :
  redis (Scenario.objectArrived t p w) = redis w.
Proof. reflexivity. Qed.

(** [upload_completes] on the first upload of [alice], finished ten
    minutes after it was started. *)
Lemma upload_completes_witness :
  exists w3,
    fst (finish (Demo.env 3 0) Demo.user "uuid-0" Scenario.tenMinutesLater) = Ok tt
    /\ snd (finish (Demo.env 3 0) Demo.user "uuid-0" Scenario.tenMinutesLater) = w3
    /\ durableUsage Demo.user w3 = 0 + 1000.
Proof.
  assert (Hstart : fst (start (Demo.env 3 0) Demo.user (Demo.upload "a.png" 1000) Demo.fresh)
                   = Ok {| StartReturn.fileUUID := "uuid-0";
                           StartReturn.ossFilePath :=
                             "cloud-storage/2021-10/19/uuid-0/uuid-0.png";
                           StartReturn.ossDomain := "https://oss.example.com";
                           StartReturn.policy := "policy";
                           StartReturn.signature := "signature" |})
    by (vm_compute; reflexivity).
  assert (Htype : getFileResourceTypeByFileName (Demo.env 3 0)
                    (StartConfig.fileName (Demo.upload "a.png" 1000)) <> "")
    by (vm_compute; discriminate).
  assert (Hday : date_fns.Day (localTime (Demo.env 3 0) (now Scenario.tenMinutesLater))
                 = date_fns.Day (localTime (Demo.env 3 0) (now Demo.fresh)))
    by (vm_compute; reflexivity).
  assert (Hrange : usageInRange (Demo.env 3 0) Demo.user (JS.Num 1000)
                     Scenario.tenMinutesLater = true)
    by (vm_compute; reflexivity).
  assert (Hroom : durableUsage Demo.user Scenario.tenMinutesLater + 1000
                  <= CloudStorage_totalSize (Demo.env 3 0))
    by (vm_compute; discriminate).
  assert (Hsession :
            redis Scenario.tenMinutesLater !! sessionKey Demo.user "uuid-0"
            = redis (snd (start (Demo.env 3 0) Demo.user (Demo.upload "a.png" 1000)
                            Demo.fresh)) !! sessionKey Demo.user "uuid-0")
    by exact (f_equal (fun m => m !! sessionKey Demo.user "uuid-0")
                (objectArrived_redis _ _ _)).
  assert (Hlive : now Scenario.tenMinutesLater < now Demo.fresh + 20 * 60 * 1000)
    by (vm_compute; reflexivity).
  assert (Hobject : ossMissing Scenario.tenMinutesLater
                      "cloud-storage/2021-10/19/uuid-0/uuid-0.png" = None)
    by (vm_compute; reflexivity).
  destruct (upload_completes (Demo.env 3 0) Demo.user (Demo.upload "a.png" 1000)
              Demo.fresh _ Scenario.tenMinutesLater _ 1000 (run_Ok _ _ _ Hstart)
              eq_refl Hrange ltac:(discriminate) ltac:(discriminate) Htype Hsession Hlive
              Hday eq_refl Hobject Hroom)
    as (w3 & row & Hfinish & Husage & _).
  exists w3. cbn [StartReturn.fileUUID] in Hfinish. rewrite Hfinish.
  split; [reflexivity|]. split; [reflexivity|].
  assert (H0 : durableUsage Demo.user Scenario.tenMinutesLater = 0)
    by (vm_compute; reflexivity).
  rewrite Husage, H0. reflexivity.
Defined.

(* ===================================================================== *)
(** ** The capacity held by the uploads in flight *)
(* ===================================================================== *)

Lemma filter_Permutation_list {A : Type} (f : A -> bool) (l l' : list A) :
  Permutation l l' -> Permutation (List.filter f l) (List.filter f l').
Proof.
  induction 1 as [|x l l' _ IH|x y l|l l' l'' _ IH1 _ IH2]; simpl.
  - constructor.
  - destruct (f x); [constructor|]; exact IH.
  - destruct (f x), (f y); try reflexivity. constructor.
  - etransitivity; eassumption.
Qed.

Lemma sumDeclared_Permutation (w : World) (l l' : list RKey) :
  Permutation l l' -> sumDeclared w l = sumDeclared w l'.
Proof.
  unfold sumDeclared.
  induction 1 as [|x l l' _ IH|x y l|l l' l'' _ IH1 _ IH2]; simpl; lia.
Qed.

Lemma sumDeclared_ext (w w' : World) (l : list RKey) :
  (forall k, In k l -> declaredSize w k = declaredSize w' k) ->
  sumDeclared w l = sumDeclared w' l.
Proof.
  unfold sumDeclared. induction l as [|k l IH]; intros H; simpl; [reflexivity|].
  rewrite (H k (or_introl eq_refl)), IH; [reflexivity|].
  intros k' Hk'. apply H. right. exact Hk'.
Qed.

Lemma keysOf_insert (pattern : RKey) (t : Z) (m : gmap RKey (gmap string string * Z))
    (k : RKey) (v : gmap string string * Z) :
  countsAsLive pattern t (k, v) = true ->
  Permutation (keysOf pattern t (<[k := v]> m)) (k :: keysOf pattern t (delete k m)).
Proof.
  intros Hv. unfold keysOf. rewrite <- (insert_delete_eq m k v).
  pose proof (map_to_list_insert (delete k m) k v (lookup_delete_eq m k)) as Hp.
  apply (filter_Permutation_list (countsAsLive pattern t)) in Hp.
  simpl in Hp. rewrite Hv in Hp.
  apply (Permutation_map fst) in Hp. exact Hp.
Qed.

Lemma keysOf_delete_not_live (pattern : RKey) (w : World) (k : RKey) :
  RedisService.live w k = None ->
  Permutation (keysOf pattern (now w) (redis w)) (keysOf pattern (now w) (delete k (redis w))).
Proof.
  intros Hdead. unfold keysOf.
  destruct (redis w !! k) as [v|] eqn:E.
  - pose proof (map_to_list_delete (redis w) k v E) as Hp.
    apply (filter_Permutation_list (countsAsLive pattern (now w))) in Hp.
    simpl in Hp.
    assert (Hv : countsAsLive pattern (now w) (k, v) = false).
    { pose proof (not_live_not_counted pattern w k Hdead) as H. rewrite E in H.
      destruct (countsAsLive pattern (now w) (k, v)); [discriminate | reflexivity]. }
    rewrite Hv in Hp. apply (Permutation_map fst) in Hp. symmetry. exact Hp.
  - rewrite (delete_id _ _ E). reflexivity.
Qed.

Lemma In_keysOf_delete (pattern : RKey) (t : Z) (m : gmap RKey (gmap string string * Z))
    (k k' : RKey) :
  In k' (keysOf pattern t (delete k m)) -> k' <> k.
Proof.
  unfold keysOf. intros H. apply in_map_iff in H as ([k0 v] & <- & H).
  apply filter_In in H as [Hin _].
  apply list_elem_of_In, elem_of_map_to_list in Hin. cbn [fst].
  intros ->. rewrite lookup_delete_eq in Hin. discriminate.
Qed.

(** X13: when [start] fulfils, the numbers of its capacity checks being in
    the range of the number model, the capacity check has taken every
    upload in flight into account; and with the new session (its
    identifier not being one already in flight) the sizes declared in
    flight grow by exactly [fileSize], so that durable usage plus
    everything in flight is still within [totalSize]. *)
Theorem start_reserves_capacity (env : Env) (userUUID : string) (config : StartConfig.t)
    (w w1 : World) (r : StartReturn.t) (fileSize : Z)
    (Hstart : start env userUUID config w = (Ok r, w1))
    (Hsize : StartConfig.fileSize config = JS.Num fileSize)
    (Hrange : startInRange env userUUID (JS.Num fileSize) w = true)
    (Hfresh : RedisService.live w (sessionKey userUUID (StartReturn.fileUUID r)) = None) :
  durableUsage userUUID w + fileSize + sumDeclared w (liveSessions userUUID w)
    <= CloudStorage_totalSize env
  /\ sumDeclared w1 (liveSessions userUUID w1)
     = sumDeclared w (liveSessions userUUID w) + fileSize
  /\ durableUsage userUUID w1 + sumDeclared w1 (liveSessions userUUID w1)
     <= CloudStorage_totalSize env.
Proof.
  destruct (start_Ok_checks _ _ _ _ _ _ Hstart) as (Hlive & Hcap & _).
  apply start_Ok_inv in Hstart as [-> ->].
  unfold startReturn in Hfresh. cbn [StartReturn.fileUUID] in Hfresh.
  set (key := sessionKey userUUID (uuids w (uuidCount w))) in *.
  set (w1 := startedWorld env userUUID config w).
  (* the check summed every session in flight *)
  assert (Hall : uploadingFiles env userUUID w = liveSessions userUUID w).
  { unfold uploadingFiles. apply take_ge. unfold liveCount in Hlive. lia. }
  assert (Hroom : durableUsage userUUID w + fileSize
                  + sumDeclared w (liveSessions userUUID w)
                  <= CloudStorage_totalSize env).
  { unfold capacityExceeded in Hcap. apply orb_false_elim in Hcap as [_ H2].
    rewrite Hsize, Hall in H2. unfold JS.add in H2. rewrite gt_Num in H2.
    apply Z.ltb_ge in H2. exact H2. }
  (* the sessions in flight before and after *)
  assert (Hbefore : Permutation (liveSessions userUUID w)
                      (keysOf (sessionKey userUUID "*") (now w) (delete key (redis w)))).
  { exact (keysOf_delete_not_live _ w key Hfresh). }
  assert (Hafter : Permutation (liveSessions userUUID w1)
                     (key :: keysOf (sessionKey userUUID "*") (now w)
                               (delete key (redis w)))).
  { change (liveSessions userUUID w1)
      with (keysOf (sessionKey userUUID "*") (now w) (redis w1)).
    subst w1. rewrite started_redis. fold key. apply keysOf_insert.
    unfold countsAsLive. cbn [fst snd]. subst key. rewrite matches_own_session.
    apply Z.ltb_lt. lia. }
  (* the sizes they declare *)
  assert (Hnew : declaredSize w1 key = fileSize).
  { destruct (sessionHash_lookup env config) as (_ & H2 & _).
    pose proof (started_field env userUUID config w (now w) _ _ ltac:(lia) H2) as Hf.
    rewrite Hsize in Hf. apply declaredSize_number. exact Hf. }
  assert (Hold : forall k, k <> key -> declaredSize w1 k = declaredSize w k).
  { intros k Hk. unfold declaredSize, RedisService.field, RedisService.live. subst w1.
    rewrite started_redis. fold key. rewrite lookup_insert_ne by congruence. reflexivity. }
  assert (Hsum : sumDeclared w1 (liveSessions userUUID w1)
                 = sumDeclared w (liveSessions userUUID w) + fileSize).
  { rewrite (sumDeclared_Permutation _ _ _ Hafter), (sumDeclared_Permutation _ _ _ Hbefore).
    change (sumDeclared w1 (key :: ?l)) with (declaredSize w1 key + sumDeclared w1 l).
    rewrite Hnew, (sumDeclared_ext w1 w); [lia|].
    intros k Hk. apply Hold. exact (In_keysOf_delete _ _ _ _ _ Hk). }
  split; [exact Hroom|]. split; [exact Hsum|].
  rewrite Hsum. change (durableUsage userUUID w1) with (durableUsage userUUID w). lia.
Qed.

(** [start_reserves_capacity] on a second upload, of 2000 bytes, while
    one of 1000 bytes is in flight. *)
Lemma start_reserves_capacity_witness :
  sumDeclared (snd (start (Demo.env 3 0) Demo.user (Demo.upload "b.png" 2000) Demo.uploaded))
    (liveSessions Demo.user
       (snd (start (Demo.env 3 0) Demo.user (Demo.upload "b.png" 2000) Demo.uploaded)))
  = 1000 + 2000.
Proof.
  assert (Hstart : fst (start (Demo.env 3 0) Demo.user (Demo.upload "b.png" 2000)
                          Demo.uploaded)
                   = Ok (startReturn (Demo.env 3 0) (Demo.upload "b.png" 2000) Demo.uploaded))
    by (vm_compute; reflexivity).
  assert (Hfresh : RedisService.live Demo.uploaded
                     (sessionKey Demo.user
                        (StartReturn.fileUUID
                           (startReturn (Demo.env 3 0) (Demo.upload "b.png" 2000)
                              Demo.uploaded))) = None)
    by (vm_compute; reflexivity).
  assert (H0 : sumDeclared Demo.uploaded (liveSessions Demo.user Demo.uploaded) = 1000)
    by (vm_compute; reflexivity).
  assert (Hrange : startInRange (Demo.env 3 0) Demo.user (JS.Num 2000) Demo.uploaded = true)
    by (vm_compute; reflexivity).
  destruct (start_reserves_capacity _ _ _ _ _ _ 2000 (run_Ok _ _ _ Hstart) eq_refl Hrange
              Hfresh)
    as (_ & Hsum & _).
  rewrite Hsum, H0. reflexivity.
Defined.

(* ===================================================================== *)
(** ** Object paths of different uploads *)
(* ===================================================================== *)

Lemma length_append (a b : string) :
  String.length (a +:+ b) = (String.length a + String.length b)%nat.
Proof.
  induction a as [|c a IH]; [reflexivity|].
  change (S (String.length (a +:+ b)) = S (String.length a + String.length b)).
  f_equal. exact IH.
Qed.

Lemma append_cancel_l (p a b : string) : p +:+ a = p +:+ b -> a = b.
Proof.
  induction p as [|c p IH]; intros H; [exact H|].
  change (String c (p +:+ a) = String c (p +:+ b)) in H.
  injection H as H. exact (IH H).
Qed.

Lemma append_same_length (a a' b b' : string) :
  String.length a = String.length a' -> a +:+ b = a' +:+ b' -> a = a' /\ b = b'.
Proof.
  revert a'. induction a as [|c a IH]; intros [|c' a'] Hlen H; try discriminate.
  - split; [reflexivity | exact H].
  - change (String c (a +:+ b) = String c' (a' +:+ b')) in H.
    injection H as -> H. injection Hlen as Hlen.
    destruct (IH a' Hlen H) as [-> ->]. split; reflexivity.
Qed.

(** Two strings without [/], each followed by a [/], are equal when the
    whole strings are. *)
Lemma append_slash_split (a a' b b' : string) :
  slashFree a = true -> slashFree a' = true ->
  a +:+ String "/"%char b = a' +:+ String "/"%char b' -> a = a' /\ b = b'.
Proof.
  revert a'. induction a as [|c a IH]; intros [|c' a'] Ha Ha' H.
  - injection H as ->. split; reflexivity.
  - change (String "/"%char b = String c' (a' +:+ String "/"%char b')) in H.
    injection H as <- _. simpl in Ha'. discriminate.
  - change (String c (a +:+ String "/"%char b) = String "/"%char b') in H.
    injection H as -> _. simpl in Ha. discriminate.
  - change (String c (a +:+ String "/"%char b) = String c' (a' +:+ String "/"%char b')) in H.
    injection H as -> H. simpl in Ha, Ha'.
    apply andb_prop in Ha as [_ Ha]. apply andb_prop in Ha' as [_ Ha'].
    destruct (IH a' Ha Ha' H) as [-> ->]. split; reflexivity.
Qed.

(** The date of the path has ten characters in the years 1 to 9999. *)
Lemma format_length (env : Env) (t : Z) :
  1 <= localYear env t <= 9999 ->
  String.length (date_fns.format (getTimezoneOffset env t) "yyyy-MM/dd" t) = 10%nat.
Proof.
  intros Hy. rewrite format_yyyy_MM_dd. unfold localYear, localTime in Hy.
  pose proof (civil_range (date_fns.Day (t - getTimezoneOffset env t * date_fns.msPerMinute)))
    as Hrange.
  destruct (date_fns.civil _) as [[y m] d]. destruct Hrange as [Hm Hd].
  rewrite !length_append.
  assert (H4 : String.length (date_fns.addLeadingZeros (yearOfEra y) 4) = 4%nat).
  { apply Nat.eqb_eq, (fourDigits_below_10000 (yearOfEra y)).
    unfold yearOfEra. destruct (Z.ltb_spec 0 y); lia. }
  assert (Hm2 : String.length (date_fns.addLeadingZeros m 2) = 2%nat)
    by (apply Nat.eqb_eq, (twoDigits_below_100 m); lia).
  assert (Hd2 : String.length (date_fns.addLeadingZeros d 2) = 2%nat)
    by (apply Nat.eqb_eq, (twoDigits_below_100 d); lia).
  rewrite H4, Hm2, Hd2. reflexivity.
Qed.

(** X14: the object path determines the upload: in the years 1 to 9999, for
    identifiers without [/] (as the ones of [v4] are), the paths
    [generateOSSFilePath] derives for two different identifiers differ,
    whatever the file names and the instants of the two calls. *)
Theorem generateOSSFilePath_distinct (env : Env)
    (fileName1 fileName2 fileUUID1 fileUUID2 : string) (w1 w2 : World)
    (Hid1 : slashFree fileUUID1 = true)
    (Hid2 : slashFree fileUUID2 = true)
    (Hyear1 : 1 <= localYear env (now w1) <= 9999)
    (Hyear2 : 1 <= localYear env (now w2) <= 9999)
    (Hdistinct : fileUUID1 <> fileUUID2) :
  fst (generateOSSFilePath env fileName1 fileUUID1 w1)
    <> fst (generateOSSFilePath env fileName2 fileUUID2 w2).
Proof.
  rewrite !generateOSSFilePath_run. cbn [fst]. unfold ossFilePathAt.
  intros H. injection H as H.
  apply append_cancel_l in H.
  change ("/" +:+ ?s) with (String "/"%char s) in H. injection H as H.
  apply append_same_length in H as [_ H];
    [| rewrite !format_length by assumption; reflexivity].
  injection H as H.
  apply append_slash_split in H as [H _]; [| assumption | assumption].
  exact (Hdistinct H).
Qed.

(** [generateOSSFilePath_distinct] on two uploads of the same file name,
    one in the morning and one in the afternoon. *)
Lemma generateOSSFilePath_distinct_witness :
  fst (generateOSSFilePath (Demo.env 3 0) "a.png" "uuid-0" Demo.fresh)
    <> fst (generateOSSFilePath (Demo.env 3 0) "a.png" "uuid-1" Demo.atAfternoon).
Proof.
  apply generateOSSFilePath_distinct.
  - reflexivity.
  - reflexivity.
  - vm_compute. split; discriminate.
  - vm_compute. split; discriminate.
  - discriminate.
Defined.
